(** * PolicySim-AI: the simulation models of [models.py] over [config.py]

    A shallow embedding of the five analytical models and of the
    [PolicySimulator] that chains them, of the regional contexts of
    [config.py], and of the policies, the registry and the scenarios
    of [policies.py], followed by the properties the specification
    states about them and by further properties of the code.

    Conventions of the embedding.

    - Numbers.  Python's [float] and [int] values are read as exact
      rationals ([Q]); [round(x, n)] is rounding to [n] decimals with
      ties to even.  Equality of computed numbers is [Qeq] ([==]).
      Binary floating point departs from this reading in the last
      rounded digit (a decimal tie is seldom a tie of the binary
      value), in whether a sum that cancels is exactly zero, and beyond
      the range of [float].  A property that quantifies over the
      inputs therefore gives a returned figure to within a unit of the
      digit it is rounded to, leaves a margin where a test against
      zero decides, and bounds the size of the numbers; an equation
      between returned figures is kept where both sides are the same
      computation.
    - Dictionaries are association lists in insertion order, with the
      look-up, update and iteration of Python's [dict].  An adjustment
      map holds the numeric levers; entries of other types, which no
      model reads, are left out.
    - Exceptions.  A missing key raises [KeyError], a division by a
      divisor that is zero raises [ZeroDivisionError]; both are results
      of the monad [M], which also threads the simulator's object state.
    - State.  [Store] is the object graph of one [PolicySimulator]: the
      one [params] dictionary that the simulator and its five models all
      point to, and the tables the models' [__init__] build.  A
      dictionary that is reachable from the store is handled through a
      reference ([dictref]), and an assignment through such a reference
      changes the store.  A dictionary that a method builds from a
      literal or a comprehension is a fresh object, a value of its own;
      one that it gets from the store, also through [.copy()], stays a
      reference, and [.copy()] is what makes it a reference to a fresh
      object. *)

From Stdlib Require Import QArith Qround Qabs Lqa ZArith Lia List String Bool.
From Stdlib Require Import DecimalString.
From Stdlib Require Import Sorted Permutation.
Import ListNotations.
Local Open Scope string_scope.
Local Open Scope Q_scope.

(** ** Python built-ins on numbers *)

Module Py.

(** [x < y] and [x == y] as the interpreter decides them. *)
Definition lt (x y : Q) : bool := negb (Qle_bool y x).
Definition eq (x y : Q) : bool := Qeq_bool x y.
Definition ne (x y : Q) : bool := negb (Qeq_bool x y).

(** [max(a, b)] keeps [a] unless [b] is strictly larger; [min(a, b)]
    keeps [a] unless [b] is strictly smaller. *)
Definition max (a b : Q) : Q := if lt a b then b else a.
Definition min (a b : Q) : Q := if lt b a then b else a.

Fixpoint pow10 (n : nat) : positive :=
  match n with
  | O => 1%positive
  | S n' => (10 * pow10 n')%positive
  end.

(** Nearest integer, ties to the even one. *)
Definition round_half_even (q : Q) : Z :=
  let f := Qfloor q in
  match Qcompare (q - inject_Z f) (1 # 2) with
  | Lt => f
  | Gt => (f + 1)%Z
  | Eq => if Z.even f then f else (f + 1)%Z
  end.

(** [round(x, ndigits)]. *)
Definition round (x : Q) (ndigits : nat) : Q :=
  round_half_even (x * inject_Z (Zpos (pow10 ndigits))) # pow10 ndigits.

(** [sum(xs)]: starts from 0 and adds from the left. *)
Definition sum (xs : list Q) : Q := fold_left Qplus xs 0.

(** [sorted(xs)] on numbers (stable insertion). *)
Fixpoint insert (x : Q) (xs : list Q) : list Q :=
  match xs with
  | [] => [x]
  | y :: ys => if lt x y then x :: y :: ys else y :: insert x ys
  end.

Definition sorted (xs : list Q) : list Q :=
  fold_left (fun acc x => insert x acc) xs [].

(** [numpy.cumsum(xs)]. *)
Fixpoint cumsum_from (acc : Q) (xs : list Q) : list Q :=
  match xs with
  | [] => []
  | x :: xs' => (acc + x) :: cumsum_from (acc + x) xs'
  end.

Definition cumsum (xs : list Q) : list Q := cumsum_from 0 xs.

(** Integer digits with the [,] thousands separator of the format
    mini-language. *)
Fixpoint group3 (fuel : nat) (n : N) : string :=
  match fuel with
  | O => NilZero.string_of_uint (N.to_uint n)
  | S fuel' =>
      if (n <? 1000)%N then NilZero.string_of_uint (N.to_uint n)
      else
        let r := (n mod 1000)%N in
        let pad := if (r <? 10)%N then "00" else if (r <? 100)%N then "0" else "" in
        group3 fuel' (n / 1000)%N ++ "," ++ pad
          ++ NilZero.string_of_uint (N.to_uint r)
  end.

Fixpoint zero_pad (width : nat) (s : string) : string :=
  match width with
  | O => s
  | S w => if (String.length s <? S w)%nat then zero_pad w ("0" ++ s) else s
  end.

(** [format(x, ",.<ndigits>f")] when [grouping], else
    [format(x, ".<ndigits>f")].  The sign is that of [x]; a rational has
    no negative zero. *)
Definition format_f (grouping : bool) (ndigits : nat) (x : Q) : string :=
  let k := Z.to_N (round_half_even (Qabs x * inject_Z (Zpos (pow10 ndigits)))) in
  let p := Npos (pow10 ndigits) in
  let ip := (k / p)%N in
  let fp := (k mod p)%N in
  let int_part :=
    if grouping then group3 (N.to_nat (N.log2 ip)) ip
    else NilZero.string_of_uint (N.to_uint ip) in
  let frac_part :=
    match ndigits with
    | O => ""
    | _ => "." ++ zero_pad ndigits (NilZero.string_of_uint (N.to_uint fp))
    end in
  (if lt x 0 then "-" else "") ++ int_part ++ frac_part.

End Py.

(** ** Python dictionaries *)

Definition dict (V : Type) : Type := list (string * V).

Module Dict.
Section Ops.
Context {V : Type}.

(** The entry of key [k], if any. *)
Fixpoint lookup (d : dict V) (k : string) : option V :=
  match d with
  | [] => None
  | (k', v) :: d' => if String.eqb k k' then Some v else lookup d' k
  end.

(** [d.get(k, default)]. *)
Definition get (d : dict V) (k : string) (default : V) : V :=
  match lookup d k with
  | Some v => v
  | None => default
  end.

(** [d[k] = v]: replaces the entry in place, or appends a new one. *)
Fixpoint set (d : dict V) (k : string) (v : V) : dict V :=
  match d with
  | [] => [(k, v)]
  | (k', v') :: d' =>
      if String.eqb k k' then (k', v) :: d' else (k', v') :: set d' k v
  end.

Definition keys (d : dict V) : list string := map fst d.
Definition values (d : dict V) : list V := map snd d.

(** [{k: f(v) for k, v in d.items()}]. *)
Definition map_values {W : Type} (f : V -> W) (d : dict V) : dict W :=
  map (fun kv => (fst kv, f (snd kv))) d.
End Ops.
End Dict.

(** ** config.py *)

Module ParameterSet.
Record t : Type := mk {
  population : Q;
  daily_trips : Q;
  mode_share : dict Q;
  avg_trip_distance_km : Q;
  avg_trip_time_minutes : Q;
  avg_vehicle_occupancy : Q;
  fuel_efficiency_km_per_liter : Q;
  fuel_price_per_liter : Q;
  public_transit_fare : Q;
  avg_hourly_wage : Q;
  emission_factors : dict Q
}.
End ParameterSet.

Definition DEFAULT_PARAMS : ParameterSet.t := {|
  ParameterSet.population := 1000000;
  ParameterSet.daily_trips := 2500000;
  ParameterSet.mode_share :=
    [ ("private_car", 0.45);
      ("motorcycle", 0.25);
      ("public_transit", 0.20);
      ("walking_cycling", 0.10) ];
  ParameterSet.avg_trip_distance_km := 12.0;
  ParameterSet.avg_trip_time_minutes := 35.0;
  ParameterSet.avg_vehicle_occupancy := 1.3;
  ParameterSet.fuel_efficiency_km_per_liter := 12.0;
  ParameterSet.fuel_price_per_liter := 1.20;
  ParameterSet.public_transit_fare := 1.50;
  ParameterSet.avg_hourly_wage := 8.00;
  ParameterSet.emission_factors :=
    [ ("private_car", 0.21);
      ("motorcycle", 0.10);
      ("public_transit", 0.05);
      ("walking_cycling", 0.00) ]
|}.

(** ** The simulator's object state *)

Record IncomeGroup : Type := {
  share : Q;
  income_multiplier : Q
}.

(** [params] is the dictionary every [self.params] points to;
    [income_groups], [base_times], [elasticities] and
    [cross_elasticities] are the attributes set by the [__init__] of
    [EquityModel], [EfficiencyModel] and [ModeShareModel]. *)
Record Store : Type := {
  params : ParameterSet.t;
  income_groups : list (string * IncomeGroup);
  base_times : dict Q;
  elasticities : dict Q;
  cross_elasticities : list ((string * string) * Q)
}.

Inductive exn : Type :=
| KeyError (key : string)
| ZeroDivisionError.

(** A method body: from the store to a value or an exception, and the
    store it leaves. *)
Definition M (A : Type) : Type := Store -> (exn + A) * Store.

Definition ret {A} (a : A) : M A := fun s => (inr a, s).
Definition raise {A} (e : exn) : M A := fun s => (inl e, s).

Definition bind {A B} (c : M A) (f : A -> M B) : M B :=
  fun s =>
    match c s with
    | (inr a, s') => f a s'
    | (inl e, s') => (inl e, s')
    end.

Notation "x <- c ;; k" := (bind c (fun x => k))
  (at level 100, c at next level, right associativity).

(** Reading an attribute or an entry of [self.params]. *)
Definition gets {A} (f : Store -> A) : M A := fun s => (inr (f s), s).

Definition param (f : ParameterSet.t -> Q) : M Q := gets (fun s => f (params s)).

(** [x / y] on numbers. *)
Definition div (x y : Q) : M Q :=
  if Py.eq y 0 then raise ZeroDivisionError else ret (x / y).

(** [d[k]] on a dictionary value. *)
Definition getitem (d : dict Q) (k : string) : M Q :=
  match Dict.lookup d k with
  | Some v => ret v
  | None => raise (KeyError k)
  end.

(** The body of a [for] loop run over [xs], carrying the variables the
    loop assigns. *)
Fixpoint for_each {A X} (xs : list X) (body : A -> X -> M A) (acc : A) : M A :=
  match xs with
  | [] => ret acc
  | x :: xs' => acc' <- body acc x ;; for_each xs' body acc'
  end.

(** References to dictionaries.  [self.params["mode_share"]] and
    [self.params["emission_factors"]] name objects of the store;
    [Local d] is a dictionary the caller passed or the method built. *)
Inductive dictref : Type :=
| ParamsModeShare
| ParamsEmissionFactors
| Local (d : dict Q).

Definition deref (r : dictref) (s : Store) : dict Q :=
  match r with
  | ParamsModeShare => ParameterSet.mode_share (params s)
  | ParamsEmissionFactors => ParameterSet.emission_factors (params s)
  | Local d => d
  end.

(** [r.items()], [r.get(k, default)], [r[k]]. *)
Definition dict_items (r : dictref) : M (dict Q) := gets (deref r).

Definition dict_get (r : dictref) (k : string) (default : Q) : M Q :=
  gets (fun s => Dict.get (deref r s) k default).

Definition dict_getitem (r : dictref) (k : string) : M Q :=
  d <- gets (deref r) ;; getitem d k.

(** [r.copy()]: a new dictionary with the entries [r] has now. *)
Definition dict_copy (r : dictref) : M dictref := gets (fun s => Local (deref r s)).

Definition set_mode_share (d : dict Q) (p : ParameterSet.t) : ParameterSet.t :=
  ParameterSet.mk
    (ParameterSet.population p) (ParameterSet.daily_trips p) d
    (ParameterSet.avg_trip_distance_km p) (ParameterSet.avg_trip_time_minutes p)
    (ParameterSet.avg_vehicle_occupancy p)
    (ParameterSet.fuel_efficiency_km_per_liter p)
    (ParameterSet.fuel_price_per_liter p) (ParameterSet.public_transit_fare p)
    (ParameterSet.avg_hourly_wage p) (ParameterSet.emission_factors p).

Definition set_emission_factors (d : dict Q) (p : ParameterSet.t) : ParameterSet.t :=
  ParameterSet.mk
    (ParameterSet.population p) (ParameterSet.daily_trips p)
    (ParameterSet.mode_share p)
    (ParameterSet.avg_trip_distance_km p) (ParameterSet.avg_trip_time_minutes p)
    (ParameterSet.avg_vehicle_occupancy p)
    (ParameterSet.fuel_efficiency_km_per_liter p)
    (ParameterSet.fuel_price_per_liter p) (ParameterSet.public_transit_fare p)
    (ParameterSet.avg_hourly_wage p) d.

Definition with_params (p : ParameterSet.t) (s : Store) : Store :=
  Build_Store p (income_groups s) (base_times s) (elasticities s)
    (cross_elasticities s).

(** [r[k] = v].  Through a reference into the store this changes the
    store: the object is shared.  On a local dictionary it yields the
    updated dictionary. *)
Definition dict_setitem (r : dictref) (k : string) (v : Q) : M dictref :=
  match r with
  | ParamsModeShare => fun s =>
      (inr r, with_params
                (set_mode_share (Dict.set (ParameterSet.mode_share (params s)) k v)
                   (params s)) s)
  | ParamsEmissionFactors => fun s =>
      (inr r, with_params
                (set_emission_factors
                   (Dict.set (ParameterSet.emission_factors (params s)) k v)
                   (params s)) s)
  | Local d => ret (Local (Dict.set d k v))
  end.

(** [arg or self.params["mode_share"]]: [None] and the empty dictionary
    are falsy. *)
Definition or_params_mode_share (arg : option (dict Q)) : dictref :=
  match arg with
  | Some (kv :: d) => Local (kv :: d)
  | _ => ParamsModeShare
  end.

(** [policy_adjustments or {}]. *)
Definition or_empty (arg : option (dict Q)) : dict Q :=
  match arg with
  | Some d => d
  | None => []
  end.

Notation "' pat <- c ;; k" := (bind c (fun x => match x with pat => k end))
  (at level 100, pat pattern, c at next level, right associativity).

(** ** models.py: the result records *)

Module EmissionsResult.
Record t : Type := mk {
  total_co2_kg_per_day : Q;
  co2_by_mode : dict Q;
  per_capita_co2_kg : Q;
  per_trip_co2_kg : Q;
  methodology : string
}.
End EmissionsResult.

Module CostResult.
Record t : Type := mk {
  user_cost_per_trip : Q;
  total_user_cost_per_day : Q;
  government_cost_per_year : Q;
  cost_by_mode : dict Q;
  methodology : string
}.
End CostResult.

Module EquityResult.
Record t : Type := mk {
  gini_index : Q;
  accessibility_by_income : dict Q;
  burden_by_income : dict Q;
  equity_score : Q;
  methodology : string
}.
End EquityResult.

Module EfficiencyResult.
Record t : Type := mk {
  avg_travel_time_minutes : Q;
  travel_time_by_mode : dict Q;
  congestion_index : Q;
  system_throughput : Q;
  methodology : string
}.
End EfficiencyResult.

Module ModeShareResult.
Record t : Type := mk {
  baseline_shares : dict Q;
  projected_shares : dict Q;
  shift_percentage : dict Q;
  methodology : string
}.
End ModeShareResult.

Module SimulationResult.
Record t : Type := mk {
  emissions : EmissionsResult.t;
  cost : CostResult.t;
  equity : EquityResult.t;
  efficiency : EfficiencyResult.t;
  mode_share : ModeShareResult.t;
  overall_score : Q;
  summary : string
}.
End SimulationResult.

(** [sum(table[mode] * share for mode, share in mode_share.items())],
    the weighted average that [CostBenefitModel] takes over
    [cost_by_mode] and [EfficiencyModel] over [travel_time_by_mode] and
    [self.base_times]: one term per item, added from the left. *)
Definition weighted_sum_body (table : dict Q) (acc : Q) (item : string * Q) : M Q :=
  let '(mode, share) := item in
  entry <- getitem table mode ;;
  ret (acc + entry * share).

Definition weighted_sum (table : dict Q) (items : dict Q) : M Q :=
  for_each items (weighted_sum_body table) 0.

(** ** EmissionsModel *)

Module EmissionsModel.

(** One turn of [for mode, share in mode_share.items()]; the loop
    carries [co2_by_mode] and [total_co2]. *)
Definition calculate_body (daily_trips avg_distance : Q) (emission_factors : dictref)
    (acc : dict Q * Q) (item : string * Q) : M (dict Q * Q) :=
  let '(co2_by_mode, total_co2) := acc in
  let '(mode, share) := item in
  let trips := daily_trips * share in
  let distance := trips * avg_distance in
  ef <- dict_get emission_factors mode 0.0 ;;
  ef <- (if String.eqb mode "private_car"
         then occupancy <- param ParameterSet.avg_vehicle_occupancy ;;
              div ef occupancy
         else ret ef) ;;
  let mode_co2 := distance * ef in
  ret (Dict.set co2_by_mode mode (Py.round mode_co2 2), total_co2 + mode_co2).

Definition calculate (mode_share : option (dict Q)) : M EmissionsResult.t :=
  let mode_share := or_params_mode_share mode_share in
  daily_trips <- param ParameterSet.daily_trips ;;
  avg_distance <- param ParameterSet.avg_trip_distance_km ;;
  let emission_factors := ParamsEmissionFactors in
  population <- param ParameterSet.population ;;
  items <- dict_items mode_share ;;
  '(co2_by_mode, total_co2) <-
    for_each items (calculate_body daily_trips avg_distance emission_factors)
      ([], 0.0) ;;
  per_capita <- div total_co2 population ;;
  per_trip <- div total_co2 daily_trips ;;
  ret {| EmissionsResult.total_co2_kg_per_day := Py.round total_co2 2;
         EmissionsResult.co2_by_mode := co2_by_mode;
         EmissionsResult.per_capita_co2_kg := Py.round per_capita 4;
         EmissionsResult.per_trip_co2_kg := Py.round per_trip 4;
         EmissionsResult.methodology :=
           "CO2 = Î£(trips Ã— distance Ã— emission_factor). "
           ++ "Emission factors from IPCC guidelines. "
           ++ "Private car emissions adjusted for average occupancy." |}.

End EmissionsModel.

(** ** CostBenefitModel *)

Module CostBenefitModel.

Definition calculate (mode_share policy_adjustments : option (dict Q))
    : M CostResult.t :=
  let mode_share := or_params_mode_share mode_share in
  let policy := or_empty policy_adjustments in
  daily_trips <- param ParameterSet.daily_trips ;;
  avg_distance <- param ParameterSet.avg_trip_distance_km ;;
  fuel_price <- param ParameterSet.fuel_price_per_liter ;;
  fuel_efficiency <- param ParameterSet.fuel_efficiency_km_per_liter ;;
  pt_fare <- param ParameterSet.public_transit_fare ;;
  hourly_wage <- param ParameterSet.avg_hourly_wage ;;
  avg_time <- param ParameterSet.avg_trip_time_minutes ;;
  let fuel_price := fuel_price * (1 + Dict.get policy "fuel_tax_percent" 0 / 100) in
  let pt_fare := pt_fare * (1 - Dict.get policy "pt_subsidy_percent" 0 / 100) in
  let value_of_time := hourly_wage * 0.5 / 60 in
  let cost_by_mode : dict Q := [] in
  km_per_liter <- div avg_distance fuel_efficiency ;;
  let car_fuel_cost := km_per_liter * fuel_price in
  let car_time_cost := avg_time * value_of_time in
  let cost_by_mode :=
    Dict.set cost_by_mode "private_car" (Py.round (car_fuel_cost + car_time_cost) 2) in
  moto_km_per_liter <- div avg_distance (fuel_efficiency * 1.5) ;;
  let moto_fuel_cost := moto_km_per_liter * fuel_price in
  let moto_time_cost := avg_time * 0.9 * value_of_time in
  let cost_by_mode :=
    Dict.set cost_by_mode "motorcycle" (Py.round (moto_fuel_cost + moto_time_cost) 2) in
  let pt_time_cost := avg_time * 1.3 * value_of_time in
  let cost_by_mode :=
    Dict.set cost_by_mode "public_transit" (Py.round (pt_fare + pt_time_cost) 2) in
  let walk_time_cost := avg_time * 1.5 * value_of_time in
  let cost_by_mode :=
    Dict.set cost_by_mode "walking_cycling" (Py.round walk_time_cost 2) in
  items <- dict_items mode_share ;;
  user_cost <- weighted_sum cost_by_mode items ;;
  let total_daily := user_cost * daily_trips in
  pt_share <- dict_get mode_share "public_transit" 0.2 ;;
  let pt_trips := daily_trips * pt_share in
  base_fare <- param ParameterSet.public_transit_fare ;;
  let subsidy_per_trip := base_fare * Dict.get policy "pt_subsidy_percent" 0 / 100 in
  let govt_daily := pt_trips * subsidy_per_trip in
  let govt_yearly := govt_daily * 365 in
  ret {| CostResult.user_cost_per_trip := Py.round user_cost 2;
         CostResult.total_user_cost_per_day := Py.round total_daily 2;
         CostResult.government_cost_per_year := Py.round govt_yearly 2;
         CostResult.cost_by_mode := cost_by_mode;
         CostResult.methodology :=
           "User cost = fuel_cost + fare + (travel_time Ã— value_of_time). "
           ++ "Value of time = 50% of hourly wage. "
           ++ "Government cost = subsidy Ã— subsidized_trips Ã— 365." |}.

End CostBenefitModel.

(** ** EquityModel *)

Module EquityModel.

Definition init_income_groups : list (string * IncomeGroup) :=
  [ ("low", {| share := 0.20; income_multiplier := 0.4 |});
    ("lower_middle", {| share := 0.20; income_multiplier := 0.7 |});
    ("middle", {| share := 0.20; income_multiplier := 1.0 |});
    ("upper_middle", {| share := 0.20; income_multiplier := 1.5 |});
    ("high", {| share := 0.20; income_multiplier := 2.5 |}) ].

Definition _calculate_gini (values : list Q) : Q :=
  let values := Py.sorted values in
  let n := inject_Z (Z.of_nat (List.length values)) in
  if (Nat.eqb (List.length values) 0 || Py.eq (Py.sum values) 0)%bool then 0.0
  else
    let cumsum := Py.cumsum values in
    (n + 1 - 2 * Py.sum cumsum / List.last cumsum 0) / n.

(** One turn of [for group, data in self.income_groups.items()]; the
    loop carries [burden_by_income] and [accessibility_by_income]. *)
Definition calculate_body (hourly_wage user_cost_per_trip daily_trips_per_person : Q)
    (policy : dict Q) (acc : dict Q * dict Q) (item : string * IncomeGroup)
    : M (dict Q * dict Q) :=
  let '(burden_by_income, accessibility_by_income) := acc in
  let '(group, data) := item in
  let daily_income := hourly_wage * 8 * income_multiplier data in
  let daily_transport_cost := user_cost_per_trip * daily_trips_per_person in
  ratio <- div daily_transport_cost daily_income ;;
  let burden := ratio * 100 in
  let burden_by_income := Dict.set burden_by_income group (Py.round burden 2) in
  let car_access := Py.min 1.0 (income_multiplier data) in
  let pt_quality := 1 - Dict.get policy "pt_subsidy_percent" 0 / 200 in
  let accessibility := car_access * 0.5 + (1 - pt_quality) * 0.5 in
  let accessibility_by_income :=
    Dict.set accessibility_by_income group (Py.round accessibility 2) in
  ret (burden_by_income, accessibility_by_income).

Definition calculate (user_cost_per_trip : Q)
    (mode_share policy_adjustments : option (dict Q)) : M EquityResult.t :=
  let mode_share := or_params_mode_share mode_share in
  let policy := or_empty policy_adjustments in
  hourly_wage <- param ParameterSet.avg_hourly_wage ;;
  daily_trips <- param ParameterSet.daily_trips ;;
  population <- param ParameterSet.population ;;
  daily_trips_per_person <- div daily_trips population ;;
  groups <- gets income_groups ;;
  '(burden_by_income, accessibility_by_income) <-
    for_each groups
      (calculate_body hourly_wage user_cost_per_trip daily_trips_per_person policy)
      ([], []) ;;
  let burdens := Dict.values burden_by_income in
  let gini := _calculate_gini burdens in
  let equity_score := 1 - gini in
  ret {| EquityResult.gini_index := Py.round gini 3;
         EquityResult.accessibility_by_income := accessibility_by_income;
         EquityResult.burden_by_income := burden_by_income;
         EquityResult.equity_score := Py.round equity_score 3;
         EquityResult.methodology :=
           "Burden = (transport_cost / income) Ã— 100 by income quintile. "
           ++ "Gini index calculated on burden distribution. "
           ++ "Equity score = 1 - Gini (higher is more equitable)." |}.

End EquityModel.

(** ** EfficiencyModel *)

Module EfficiencyModel.

Definition init_base_times : dict Q :=
  [ ("private_car", 30);
    ("motorcycle", 25);
    ("public_transit", 45);
    ("walking_cycling", 50) ].

(** [mode in ["private_car", "motorcycle"]] *)
Definition congested (mode : string) : bool :=
  (String.eqb mode "private_car" || String.eqb mode "motorcycle")%bool.

(** One turn of [for mode, base_time in self.base_times.items()]; the
    loop carries [travel_time_by_mode]. *)
Definition calculate_body (congestion_factor : Q) (travel_time_by_mode : dict Q)
    (item : string * Q) : M (dict Q) :=
  let '(mode, base_time) := item in
  let time := if congested mode then base_time * congestion_factor else base_time in
  ret (Dict.set travel_time_by_mode mode (Py.round time 1)).

(** [congestion_factor] is 1.0 when the caller leaves it out. *)
Definition calculate (mode_share : option (dict Q)) (congestion_factor : Q)
    : M EfficiencyResult.t :=
  let mode_share := or_params_mode_share mode_share in
  daily_trips <- param ParameterSet.daily_trips ;;
  avg_distance <- param ParameterSet.avg_trip_distance_km ;;
  times <- gets base_times ;;
  travel_time_by_mode <- for_each times (calculate_body congestion_factor) [] ;;
  items <- dict_items mode_share ;;
  avg_time <- weighted_sum travel_time_by_mode items ;;
  items' <- dict_items mode_share ;;
  times' <- gets base_times ;;
  free_flow_time <- weighted_sum times' items' ;;
  let congestion_index :=
    if Py.lt 0 free_flow_time then avg_time / free_flow_time else 1.0 in
  let total_person_km := daily_trips * avg_distance in
  let avg_hours := avg_time / 60 in
  throughput <- (if Py.lt 0 avg_hours
                 then div total_person_km (daily_trips * avg_hours)
                 else ret 0) ;;
  ret {| EfficiencyResult.avg_travel_time_minutes := Py.round avg_time 1;
         EfficiencyResult.travel_time_by_mode := travel_time_by_mode;
         EfficiencyResult.congestion_index := Py.round congestion_index 3;
         EfficiencyResult.system_throughput := Py.round throughput 2;
         EfficiencyResult.methodology :=
           "Travel time weighted by mode share. "
           ++ "Congestion index = actual_time / free_flow_time. "
           ++ "Throughput = person-km / (trips Ã— hours)." |}.

End EfficiencyModel.

(** ** ModeShareModel *)

Module ModeShareModel.

Definition init_elasticities : dict Q :=
  [ ("private_car", -0.3);
    ("motorcycle", -0.4);
    ("public_transit", -0.4);
    ("walking_cycling", -0.1) ].

Definition init_cross_elasticities : list ((string * string) * Q) :=
  [ (("private_car", "public_transit"), 0.3);
    (("public_transit", "private_car"), 0.2) ].

(** The [price_changes] literal, then the congestion-pricing [+=]. *)
Definition price_changes (policy : dict Q) : M (dict Q) :=
  let price_changes : dict Q :=
    [ ("private_car", Dict.get policy "fuel_tax_percent" 0 / 100);
      ("motorcycle", Dict.get policy "fuel_tax_percent" 0 / 100);
      ("public_transit", - Dict.get policy "pt_subsidy_percent" 0 / 100);
      ("walking_cycling", 0) ] in
  if Py.lt 0 (Dict.get policy "congestion_price" 0)
  then
    old <- getitem price_changes "private_car" ;;
    congestion_price <- getitem policy "congestion_price" ;;
    ret (Dict.set price_changes "private_car" (old + congestion_price * 0.1))
  else ret price_changes.

(** One turn of [for mode, price_change in price_changes.items()]; the
    loop assigns into [projected]. *)
Definition own_price_body (baseline : dictref) (projected : dictref)
    (item : string * Q) : M dictref :=
  let '(mode, price_change) := item in
  if Py.ne price_change 0
  then
    table <- gets elasticities ;;
    elasticity <- getitem table mode ;;
    let demand_change := elasticity * price_change in
    base <- dict_getitem baseline mode ;;
    dict_setitem projected mode (base * (1 + demand_change))
  else ret projected.

(** One turn of
    [for (mode_a, mode_b), cross_e in self.cross_elasticities.items()]. *)
Definition cross_price_body (price_changes : dict Q) (projected : dictref)
    (item : (string * string) * Q) : M dictref :=
  let '((mode_a, mode_b), cross_e) := item in
  if Py.ne (Dict.get price_changes mode_b 0) 0
  then
    change_b <- getitem price_changes mode_b ;;
    let effect := cross_e * change_b in
    old <- dict_getitem projected mode_a ;;
    dict_setitem projected mode_a (old * (1 + effect))
  else ret projected.

(** From the [price_changes] literal to the end of the cross-price
    loop: the two loops assign into the dictionary [projected], which
    holds the shares before they are normalised when they are done.
    [calculate] runs them on two copies of the parameter set's mode
    share. *)
Definition shifted_shares (policy : dict Q) (baseline projected : dictref)
    : M dictref :=
  price_changes <- price_changes policy ;;
  projected <- for_each price_changes (own_price_body baseline) projected ;;
  pairs <- gets cross_elasticities ;;
  for_each pairs (cross_price_body price_changes) projected.

(** [total = sum(projected.values())] and [{k: v/total for ...}] under
    [if total > 0]; then [{k: round(v, 4) for ...}]. *)
Definition normalize (projected : dict Q) : dict Q :=
  let total := Py.sum (Dict.values projected) in
  if Py.lt 0 total
  then Dict.map_values (fun v => v / total) projected
  else projected.

Definition round_shares (projected : dict Q) : dict Q :=
  Dict.map_values (fun v => Py.round v 4) projected.

(** One entry of the [shift] comprehension, [for mode in baseline];
    [base] is [baseline[mode]], which the entry reads three times. *)
Definition shift_body (baseline : dictref) (projected : dict Q) (shift : dict Q)
    (mode : string) : M (dict Q) :=
  base <- dict_getitem baseline mode ;;
  if Py.lt 0 base
  then
    proj <- getitem projected mode ;;
    ret (Dict.set shift mode (Py.round ((proj - base) / base * 100) 2))
  else ret (Dict.set shift mode 0).

Definition calculate (policy_adjustments : option (dict Q)) : M ModeShareResult.t :=
  let policy := or_empty policy_adjustments in
  baseline <- dict_copy ParamsModeShare ;;
  projected <- dict_copy baseline ;;
  projected <- shifted_shares policy baseline projected ;;
  shares <- dict_items projected ;;
  let projected := normalize shares in
  let projected := round_shares projected in
  modes <- dict_items baseline ;;
  shift <- for_each (Dict.keys modes) (shift_body baseline projected) [] ;;
  baseline_shares <- dict_items baseline ;;
  ret {| ModeShareResult.baseline_shares := baseline_shares;
         ModeShareResult.projected_shares := projected;
         ModeShareResult.shift_percentage := shift;
         ModeShareResult.methodology :=
           "Mode shift based on price elasticity: Î”Q/Q = Îµ Ã— Î”P/P. "
           ++ "Elasticities from transit research literature. "
           ++ "Cross-elasticities capture mode substitution effects." |}.

End ModeShareModel.

(** ** PolicySimulator *)

Module PolicySimulator.

(** [__init__]: [params or DEFAULT_PARAMS] becomes the one parameter
    dictionary of the simulator and of its five models. *)
Definition init (params : option ParameterSet.t) : Store :=
  Build_Store
    (match params with Some p => p | None => DEFAULT_PARAMS end)
    EquityModel.init_income_groups
    EfficiencyModel.init_base_times
    ModeShareModel.init_elasticities
    ModeShareModel.init_cross_elasticities.

Definition _calculate_overall_score (emissions : EmissionsResult.t)
    (cost : CostResult.t) (equity : EquityResult.t)
    (efficiency : EfficiencyResult.t) : Q :=
  let emissions_score := Py.max 0 (1 - EmissionsResult.per_trip_co2_kg emissions / 5) in
  let cost_score := Py.max 0 (1 - CostResult.user_cost_per_trip cost / 20) in
  let equity_score := EquityResult.equity_score equity in
  let efficiency_score :=
    Py.max 0 (1 - EfficiencyResult.avg_travel_time_minutes efficiency / 60) in
  let weights : dict Q :=
    [ ("emissions", 0.25); ("cost", 0.25); ("equity", 0.25); ("efficiency", 0.25) ] in
  let overall :=
    Dict.get weights "emissions" 0 * emissions_score
    + Dict.get weights "cost" 0 * cost_score
    + Dict.get weights "equity" 0 * equity_score
    + Dict.get weights "efficiency" 0 * efficiency_score in
  Py.round (overall * 100) 1.

Definition _generate_summary (emissions : EmissionsResult.t) (cost : CostResult.t)
    (equity : EquityResult.t) (efficiency : EfficiencyResult.t)
    (mode_share : ModeShareResult.t) : string :=
  "Daily CO2 emissions: "
  ++ Py.format_f true 0 (EmissionsResult.total_co2_kg_per_day emissions) ++ " kg. "
  ++ "Average user cost: $"
  ++ Py.format_f false 2 (CostResult.user_cost_per_trip cost) ++ "/trip. "
  ++ "Equity score: "
  ++ Py.format_f false 2 (EquityResult.equity_score equity) ++ "/1.00. "
  ++ "Average travel time: "
  ++ Py.format_f false 0 (EfficiencyResult.avg_travel_time_minutes efficiency)
  ++ " minutes.".

Definition simulate (policy_adjustments : option (dict Q)) : M SimulationResult.t :=
  let policy := or_empty policy_adjustments in
  mode_result <- ModeShareModel.calculate (Some policy) ;;
  let new_mode_share := ModeShareResult.projected_shares mode_result in
  emissions_result <- EmissionsModel.calculate (Some new_mode_share) ;;
  cost_result <- CostBenefitModel.calculate (Some new_mode_share) (Some policy) ;;
  equity_result <-
    EquityModel.calculate (CostResult.user_cost_per_trip cost_result)
      (Some new_mode_share) (Some policy) ;;
  baseline_car <- dict_get ParamsModeShare "private_car" 0 ;;
  let car_share_change := Dict.get new_mode_share "private_car" 0 - baseline_car in
  let congestion_factor := 1.0 + car_share_change in
  efficiency_result <-
    EfficiencyModel.calculate (Some new_mode_share) (Py.max 0.8 congestion_factor) ;;
  let overall_score :=
    _calculate_overall_score emissions_result cost_result equity_result
      efficiency_result in
  let summary :=
    _generate_summary emissions_result cost_result equity_result
      efficiency_result mode_result in
  ret {| SimulationResult.emissions := emissions_result;
         SimulationResult.cost := cost_result;
         SimulationResult.equity := equity_result;
         SimulationResult.efficiency := efficiency_result;
         SimulationResult.mode_share := mode_result;
         SimulationResult.overall_score := overall_score;
         SimulationResult.summary := summary |}.

End PolicySimulator.



(** ** config.py: the regional contexts *)

(** An entry of a context template is a text or a number. *)
Inductive context_value : Type :=
| Text (s : string)
| Number (x : Q).

Definition REGIONAL_CONTEXTS : dict (dict context_value) :=
  [ ("default",
      [ ("name", Text "Default Context");
        ("currency", Text "USD");
        ("currency_symbol", Text "$");
        ("description", Text "Generic urban area parameters") ]);
    ("malaysia",
      [ ("name", Text "Malaysia (Klang Valley)");
        ("currency", Text "MYR");
        ("currency_symbol", Text "RM");
        ("fuel_price_per_liter", Number 2.05);
        ("public_transit_fare", Number 3.00);
        ("avg_hourly_wage", Number 15.00);
        ("description", Text "Parameters based on Klang Valley, Malaysia") ]);
    ("thailand",
      [ ("name", Text "Thailand (Bangkok)");
        ("currency", Text "THB");
        ("currency_symbol", Text "฿");
        ("fuel_price_per_liter", Number 40.0);
        ("public_transit_fare", Number 25.0);
        ("avg_hourly_wage", Number 100.0);
        ("description", Text "Parameters based on Bangkok Metropolitan Region") ]);
    ("custom",
      [ ("name", Text "Custom Context");
        ("currency", Text "USD");
        ("currency_symbol", Text "$");
        ("description", Text "User-defined parameters") ]) ].

(** The dictionary [get_context_params] returns: the entries of the
    parameter set, and [context_info] when the context is known. *)
Module ContextParams.
Record t : Type := mk {
  parameters : ParameterSet.t;
  context_info : option (dict context_value)
}.
End ContextParams.

Module Config.

(** [key in params], for the copy of [DEFAULT_PARAMS]. *)
Definition is_parameter (key : string) : bool :=
  existsb (String.eqb key)
    [ "population"; "daily_trips"; "mode_share"; "avg_trip_distance_km";
      "avg_trip_time_minutes"; "avg_vehicle_occupancy";
      "fuel_efficiency_km_per_liter"; "fuel_price_per_liter";
      "public_transit_fare"; "avg_hourly_wage"; "emission_factors" ].

(** [params[key] = value] for a key of the parameter set.  The record
    holds numbers under the nine numeric keys and dictionaries under
    [mode_share] and [emission_factors]; [None] stands for a dictionary
    it cannot hold (a text under one of these keys, a number under a
    nested dictionary's key). *)
Definition setitem (p : ParameterSet.t) (key : string) (value : context_value)
    : option ParameterSet.t :=
  match value with
  | Text _ => None
  | Number x =>
      let '(ParameterSet.mk population daily_trips mode_share avg_trip_distance_km
              avg_trip_time_minutes avg_vehicle_occupancy
              fuel_efficiency_km_per_liter fuel_price_per_liter
              public_transit_fare avg_hourly_wage emission_factors) := p in
      if String.eqb key "population" then
        Some (ParameterSet.mk x daily_trips mode_share avg_trip_distance_km
                avg_trip_time_minutes avg_vehicle_occupancy
                fuel_efficiency_km_per_liter fuel_price_per_liter
                public_transit_fare avg_hourly_wage emission_factors)
      else if String.eqb key "daily_trips" then
        Some (ParameterSet.mk population x mode_share avg_trip_distance_km
                avg_trip_time_minutes avg_vehicle_occupancy
                fuel_efficiency_km_per_liter fuel_price_per_liter
                public_transit_fare avg_hourly_wage emission_factors)
      else if String.eqb key "avg_trip_distance_km" then
        Some (ParameterSet.mk population daily_trips mode_share x
                avg_trip_time_minutes avg_vehicle_occupancy
                fuel_efficiency_km_per_liter fuel_price_per_liter
                public_transit_fare avg_hourly_wage emission_factors)
      else if String.eqb key "avg_trip_time_minutes" then
        Some (ParameterSet.mk population daily_trips mode_share avg_trip_distance_km
                x avg_vehicle_occupancy
                fuel_efficiency_km_per_liter fuel_price_per_liter
                public_transit_fare avg_hourly_wage emission_factors)
      else if String.eqb key "avg_vehicle_occupancy" then
        Some (ParameterSet.mk population daily_trips mode_share avg_trip_distance_km
                avg_trip_time_minutes x
                fuel_efficiency_km_per_liter fuel_price_per_liter
                public_transit_fare avg_hourly_wage emission_factors)
      else if String.eqb key "fuel_efficiency_km_per_liter" then
        Some (ParameterSet.mk population daily_trips mode_share avg_trip_distance_km
                avg_trip_time_minutes avg_vehicle_occupancy
                x fuel_price_per_liter
                public_transit_fare avg_hourly_wage emission_factors)
      else if String.eqb key "fuel_price_per_liter" then
        Some (ParameterSet.mk population daily_trips mode_share avg_trip_distance_km
                avg_trip_time_minutes avg_vehicle_occupancy
                fuel_efficiency_km_per_liter x
                public_transit_fare avg_hourly_wage emission_factors)
      else if String.eqb key "public_transit_fare" then
        Some (ParameterSet.mk population daily_trips mode_share avg_trip_distance_km
                avg_trip_time_minutes avg_vehicle_occupancy
                fuel_efficiency_km_per_liter fuel_price_per_liter
                x avg_hourly_wage emission_factors)
      else if String.eqb key "avg_hourly_wage" then
        Some (ParameterSet.mk population daily_trips mode_share avg_trip_distance_km
                avg_trip_time_minutes avg_vehicle_occupancy
                fuel_efficiency_km_per_liter fuel_price_per_liter
                public_transit_fare x emission_factors)
      else None
  end.

(** One turn of [for key, value in context.items()]. *)
Definition override (params : option ParameterSet.t) (item : string * context_value)
    : option ParameterSet.t :=
  let '(key, value) := item in
  match params with
  | Some p => if is_parameter key then setitem p key value else Some p
  | None => None
  end.

(** [get_context_params(context_name)]: a copy of [DEFAULT_PARAMS],
    with the entries of a known context written over those of the same
    key, and the context itself under [context_info]. *)
Definition get_context_params (context_name : string) : option ContextParams.t :=
  let params := DEFAULT_PARAMS in
  match Dict.lookup REGIONAL_CONTEXTS context_name with
  | Some context =>
      match fold_left override context (Some params) with
      | Some params =>
          Some {| ContextParams.parameters := params;
                  ContextParams.context_info := Some context |}
      | None => None
      end
  | None =>
      Some {| ContextParams.parameters := params;
              ContextParams.context_info := None |}
  end.

End Config.

(** ** agent.py: the simulator of a [PolicyAgent] *)

Module PolicyAgent.

(** [__init__]: [self.params = get_context_params(context)] and
    [self.simulator = PolicySimulator(self.params)]. *)
Definition simulator (context : string) : option Store :=
  match Config.get_context_params context with
  | Some params =>
      Some (PolicySimulator.init (Some (ContextParams.parameters params)))
  | None => None
  end.

End PolicyAgent.

(** ** policies.py *)

Inductive PolicyCategory : Type :=
| PRICING | SUBSIDY | INFRASTRUCTURE | REGULATION | INCENTIVE.

Inductive ImpactArea : Type :=
| EMISSIONS | COST | EQUITY | EFFICIENCY | MODE_SHARE.

(** The value of a policy parameter: a number, a truth value or a list
    of names. *)
Inductive parameter_value : Type :=
| Num (x : Q)
| Flag (b : bool)
| Names (l : list string).

(** An entry of [parameter_definitions]; [min] and [max] are optional
    keys.  The [description] texts are left out. *)
Module ParameterDefinition.
Record t : Type := mk {
  name : string;
  unit : string;
  min : option Q;
  max : option Q;
  options : option (list string);
  default : parameter_value
}.
End ParameterDefinition.

Inductive policy_exn : Type :=
| ValueError (policy_id : string)
| TypeError (what : string).

(** An entry of the list [validate] returns; it stands for the text
    [f"{param} must be >= {bound}"], respectively [<=]. *)
Inductive validation_error : Type :=
| MustBeAtLeast (param : string) (bound : Q)
| MustBeAtMost (param : string) (bound : Q).

Module PolicyValue.

(** The number a value is in a comparison with a number: truth values
    count as 1 and 0, lists do not compare ([TypeError]). *)
Definition as_number (v : parameter_value) : option Q :=
  match v with
  | Num x => Some x
  | Flag b => Some (if b then 1 else 0)
  | Names _ => None
  end.

(** Truthiness, as [or] tests it. *)
Definition truthy (v : parameter_value) : bool :=
  match v with
  | Num x => Py.ne x 0
  | Flag b => b
  | Names l => negb (Nat.eqb (List.length l) 0)
  end.

End PolicyValue.

(** The dataclass [Policy] and its methods.  The [description],
    [implementation_cost], [implementation_time] and [references]
    texts, which no method modelled here reads, are left out. *)
Module Policy.

Record t : Type := mk {
  id : string;
  name : string;
  category : PolicyCategory;
  parameters : dict parameter_value;
  parameter_definitions : dict ParameterDefinition.t;
  impact_areas : list ImpactArea
}.


(** [get_adjustments]: a copy of the parameters. *)
Definition get_adjustments (self : t) : dict parameter_value :=
  parameters self.

(** One turn of the loop of [validate] over
    [self.parameter_definitions.items()]. *)
Definition validate_body (self : t)
    (errors : policy_exn + list validation_error)
    (item : string * ParameterDefinition.t)
    : policy_exn + list validation_error :=
  let '(param, definition) := item in
  match errors with
  | inl e => inl e
  | inr errors =>
      match Dict.lookup (parameters self) param with
      | None => inr errors
      | Some value =>
          let after_min :=
            match ParameterDefinition.min definition with
            | None => inr errors
            | Some bound =>
                match PolicyValue.as_number value with
                | None => inl (TypeError param)
                | Some x =>
                    if Py.lt x bound
                    then inr (errors ++ [MustBeAtLeast param bound])%list
                    else inr errors
                end
            end in
          match after_min with
          | inl e => inl e
          | inr errors =>
              match ParameterDefinition.max definition with
              | None => inr errors
              | Some bound =>
                  match PolicyValue.as_number value with
                  | None => inl (TypeError param)
                  | Some x =>
                      if Py.lt bound x
                      then inr (errors ++ [MustBeAtMost param bound])%list
                      else inr errors
                  end
              end
          end
      end
  end.

Definition validate (self : t) : policy_exn + list validation_error :=
  fold_left (validate_body self) (parameter_definitions self) (inr []).

End Policy.

(** A constructor argument that may be left out. *)
Definition arg_or (arg : option parameter_value) (default : parameter_value)
    : parameter_value :=
  match arg with
  | Some v => v
  | None => default
  end.

Definition CongestionPricingPolicy (price_per_entry peak_multiplier : option parameter_value)
    : Policy.t :=
  {| Policy.id := "congestion_pricing";
     Policy.name := "Congestion Pricing";
     Policy.category := PRICING;
     Policy.parameters :=
       [ ("congestion_price", arg_or price_per_entry (Num 5.0));
         ("peak_multiplier", arg_or peak_multiplier (Num 1.5)) ];
     Policy.parameter_definitions :=
       [ ("congestion_price",
           {| ParameterDefinition.name := "Base Price per Entry"; ParameterDefinition.unit := "currency";
              ParameterDefinition.min := Some 0; ParameterDefinition.max := Some 50; ParameterDefinition.options := None;
              ParameterDefinition.default := Num 5.0 |});
         ("peak_multiplier",
           {| ParameterDefinition.name := "Peak Hour Multiplier"; ParameterDefinition.unit := "multiplier";
              ParameterDefinition.min := Some 1.0; ParameterDefinition.max := Some 3.0; ParameterDefinition.options := None;
              ParameterDefinition.default := Num 1.5 |}) ];
     Policy.impact_areas := [MODE_SHARE; EMISSIONS; EFFICIENCY; EQUITY] |}.

(** [target_groups or ["all"]]: an argument that is left out, or falsy,
    gives the default list. *)
Definition PublicTransitSubsidyPolicy (subsidy_percent target_groups : option parameter_value)
    : Policy.t :=
  {| Policy.id := "pt_subsidy";
     Policy.name := "Public Transit Subsidy";
     Policy.category := SUBSIDY;
     Policy.parameters :=
       [ ("pt_subsidy_percent", arg_or subsidy_percent (Num 30.0));
         ("target_groups",
           match target_groups with
           | Some v => if PolicyValue.truthy v then v else Names ["all"]
           | None => Names ["all"]
           end) ];
     Policy.parameter_definitions :=
       [ ("pt_subsidy_percent",
           {| ParameterDefinition.name := "Subsidy Percentage"; ParameterDefinition.unit := "%";
              ParameterDefinition.min := Some 0; ParameterDefinition.max := Some 100; ParameterDefinition.options := None;
              ParameterDefinition.default := Num 30.0 |});
         ("target_groups",
           {| ParameterDefinition.name := "Target Groups"; ParameterDefinition.unit := "list";
              ParameterDefinition.min := None; ParameterDefinition.max := None;
              ParameterDefinition.options := Some ["all"; "students"; "elderly"; "low_income"; "disabled"];
              ParameterDefinition.default := Names ["all"] |}) ];
     Policy.impact_areas := [MODE_SHARE; COST; EQUITY; EMISSIONS] |}.

Definition FuelTaxPolicy (tax_percent use_for_transit : option parameter_value)
    : Policy.t :=
  {| Policy.id := "fuel_tax";
     Policy.name := "Fuel Tax";
     Policy.category := PRICING;
     Policy.parameters :=
       [ ("fuel_tax_percent", arg_or tax_percent (Num 20.0));
         ("revenue_for_transit", arg_or use_for_transit (Flag true)) ];
     Policy.parameter_definitions :=
       [ ("fuel_tax_percent",
           {| ParameterDefinition.name := "Tax Rate"; ParameterDefinition.unit := "%";
              ParameterDefinition.min := Some 0; ParameterDefinition.max := Some 100; ParameterDefinition.options := None;
              ParameterDefinition.default := Num 20.0 |});
         ("revenue_for_transit",
           {| ParameterDefinition.name := "Revenue for Transit"; ParameterDefinition.unit := "boolean";
              ParameterDefinition.min := None; ParameterDefinition.max := None; ParameterDefinition.options := None;
              ParameterDefinition.default := Flag true |}) ];
     Policy.impact_areas := [MODE_SHARE; EMISSIONS; COST; EQUITY] |}.

Definition EVIncentivePolicy (purchase_subsidy tax_reduction_percent : option parameter_value)
    : Policy.t :=
  {| Policy.id := "ev_incentive";
     Policy.name := "EV Incentive";
     Policy.category := INCENTIVE;
     Policy.parameters :=
       [ ("ev_purchase_subsidy", arg_or purchase_subsidy (Num 5000));
         ("ev_tax_reduction_percent", arg_or tax_reduction_percent (Num 50)) ];
     Policy.parameter_definitions :=
       [ ("ev_purchase_subsidy",
           {| ParameterDefinition.name := "Purchase Subsidy"; ParameterDefinition.unit := "currency";
              ParameterDefinition.min := Some 0; ParameterDefinition.max := Some 20000; ParameterDefinition.options := None;
              ParameterDefinition.default := Num 5000 |});
         ("ev_tax_reduction_percent",
           {| ParameterDefinition.name := "Tax Reduction"; ParameterDefinition.unit := "%";
              ParameterDefinition.min := Some 0; ParameterDefinition.max := Some 100; ParameterDefinition.options := None;
              ParameterDefinition.default := Num 50 |}) ];
     Policy.impact_areas := [EMISSIONS; COST; EQUITY] |}.

Definition ParkingManagementPolicy (hourly_rate max_hours : option parameter_value)
    : Policy.t :=
  {| Policy.id := "parking_policy";
     Policy.name := "Parking Management";
     Policy.category := PRICING;
     Policy.parameters :=
       [ ("parking_hourly_rate", arg_or hourly_rate (Num 3.0));
         ("parking_max_hours", arg_or max_hours (Num 4)) ];
     Policy.parameter_definitions :=
       [ ("parking_hourly_rate",
           {| ParameterDefinition.name := "Hourly Rate"; ParameterDefinition.unit := "currency/hour";
              ParameterDefinition.min := Some 0; ParameterDefinition.max := Some 20; ParameterDefinition.options := None;
              ParameterDefinition.default := Num 3.0 |});
         ("parking_max_hours",
           {| ParameterDefinition.name := "Maximum Duration"; ParameterDefinition.unit := "hours";
              ParameterDefinition.min := Some 1; ParameterDefinition.max := Some 24; ParameterDefinition.options := None;
              ParameterDefinition.default := Num 4 |}) ];
     Policy.impact_areas := [MODE_SHARE; EFFICIENCY; EMISSIONS] |}.

Module PolicyRegistry.

(** Calling a class with [**kwargs]: a keyword that is not one of its
    two parameters is a [TypeError]. *)
Definition call (cls : option parameter_value -> option parameter_value -> Policy.t)
    (first second : string) (kwargs : dict parameter_value) : policy_exn + Policy.t :=
  match
    find (fun key => negb (String.eqb key first || String.eqb key second)%bool)
      (Dict.keys kwargs)
  with
  | Some key => inl (TypeError key)
  | None => inr (cls (Dict.lookup kwargs first) (Dict.lookup kwargs second))
  end.

(** [get_policy(policy_id, **kwargs)] over the classes of [_policies]. *)
Definition get_policy (policy_id : string) (kwargs : dict parameter_value)
    : policy_exn + Policy.t :=
  if String.eqb policy_id "congestion_pricing"
  then call CongestionPricingPolicy "price_per_entry" "peak_multiplier" kwargs
  else if String.eqb policy_id "pt_subsidy"
  then call PublicTransitSubsidyPolicy "subsidy_percent" "target_groups" kwargs
  else if String.eqb policy_id "fuel_tax"
  then call FuelTaxPolicy "tax_percent" "use_for_transit" kwargs
  else if String.eqb policy_id "ev_incentive"
  then call EVIncentivePolicy "purchase_subsidy" "tax_reduction_percent" kwargs
  else if String.eqb policy_id "parking_policy"
  then call ParkingManagementPolicy "hourly_rate" "max_hours" kwargs
  else inl (ValueError policy_id).

Definition get_policy_ids : list string :=
  ["congestion_pricing"; "pt_subsidy"; "fuel_tax"; "ev_incentive"; "parking_policy"].

End PolicyRegistry.

(** The dataclass [PolicyScenario] and its methods. *)
Module PolicyScenario.

Record t : Type := mk {
  name : string;
  description : string;
  policies : list Policy.t
}.

(** [d.update(other)]. *)
Definition update {V} (d other : dict V) : dict V :=
  fold_left (fun d item => Dict.set d (fst item) (snd item)) other d.

Definition get_combined_adjustments (self : t) : dict parameter_value :=
  fold_left (fun combined policy => update combined (Policy.get_adjustments policy))
    (policies self) [].

End PolicyScenario.

Module ScenarioLibrary.

Definition get_baseline : PolicyScenario.t :=
  {| PolicyScenario.name := "Baseline";
     PolicyScenario.description := "Current conditions with no policy changes.";
     PolicyScenario.policies := [] |}.

Definition get_green_transport : PolicyScenario.t :=
  {| PolicyScenario.name := "Green Transport";
     PolicyScenario.description := "Aggressive policies to reduce transportation emissions.";
     PolicyScenario.policies :=
       [ CongestionPricingPolicy (Some (Num 8.0)) None;
         PublicTransitSubsidyPolicy (Some (Num 50.0)) None;
         FuelTaxPolicy (Some (Num 30.0)) None ] |}.

End ScenarioLibrary.

(** The adjustment map the models' embedding takes for a dictionary of
    parameters: its numeric entries, truth values counting as 1 and 0;
    lists, which no arithmetic reads, are left out. *)
Fixpoint adjustment_map (parameters : dict parameter_value) : dict Q :=
  match parameters with
  | [] => []
  | (key, value) :: rest =>
      match PolicyValue.as_number value with
      | Some x => (key, x) :: adjustment_map rest
      | None => adjustment_map rest
      end
  end.
(** * Vocabulary of the properties *)

(** A method body that leaves the store as it found it, whether it
    returns or raises. *)
Definition reads_only {A} (c : M A) : Prop := forall s, snd (c s) = s.

(** From [s], [c] leaves the store as it is, and what it returns, if
    it returns, satisfies [P]. *)
Definition ensures {A} (c : M A) (s : Store) (P : A -> Prop) : Prop :=
  snd (c s) = s /\ forall a, fst (c s) = inr a -> P a.

(** A reference to a dictionary of the method's own: not one of the
    store. *)
Definition is_local (r : dictref) : Prop :=
  match r with
  | Local _ => True
  | _ => False
  end.

(** A step on a reference that only reads the store and returns a
    reference to a dictionary of the method's own. *)
Definition local_step (c : M dictref) : Prop :=
  forall s, ensures c s is_local.

(** A local reference to a dictionary with the modes of [baseline]. *)
Definition keeps_modes (baseline : dict Q) (r : dictref) : Prop :=
  exists d, r = Local d /\ Dict.keys d = Dict.keys baseline.

(** A number of moderate size: 10^9 at most in magnitude.  The
    embedding reads every number as an exact rational.  In Python a
    float overflows to [inf], and an integer beyond the range of
    [float] raises [OverflowError] once an operation turns it into a
    float; a property that says when a method returns, or how close a
    returned figure is, is stated for numbers of moderate size, where
    neither happens. *)
Definition moderate (x : Q) : Prop := -1000000000 <= x /\ x <= 1000000000.

Definition moderate_mapping (d : dict Q) : Prop := Forall moderate (Dict.values d).

Definition moderate_parameters (p : ParameterSet.t) : Prop :=
  moderate (ParameterSet.population p)
  /\ moderate (ParameterSet.daily_trips p)
  /\ moderate_mapping (ParameterSet.mode_share p)
  /\ moderate (ParameterSet.avg_trip_distance_km p)
  /\ moderate (ParameterSet.avg_trip_time_minutes p)
  /\ moderate (ParameterSet.avg_vehicle_occupancy p)
  /\ moderate (ParameterSet.fuel_efficiency_km_per_liter p)
  /\ moderate (ParameterSet.fuel_price_per_liter p)
  /\ moderate (ParameterSet.public_transit_fare p)
  /\ moderate (ParameterSet.avg_hourly_wage p)
  /\ moderate_mapping (ParameterSet.emission_factors p).

(** The four modes the models have tables for. *)
Definition canonical_modes : list string :=
  ["private_car"; "motorcycle"; "public_transit"; "walking_cycling"].

Definition canonical (mode : string) : Prop := In mode canonical_modes.

(** The dictionary [CostBenefitModel.calculate] has in [cost_by_mode]
    when it reaches the weighted sum. *)
Definition cost_table (p : ParameterSet.t) (policy : dict Q) : dict Q :=
  let fuel_price :=
    ParameterSet.fuel_price_per_liter p
    * (1 + Dict.get policy "fuel_tax_percent" 0 / 100) in
  let pt_fare :=
    ParameterSet.public_transit_fare p
    * (1 - Dict.get policy "pt_subsidy_percent" 0 / 100) in
  let value_of_time := ParameterSet.avg_hourly_wage p * 0.5 / 60 in
  let avg_distance := ParameterSet.avg_trip_distance_km p in
  let fuel_efficiency := ParameterSet.fuel_efficiency_km_per_liter p in
  let avg_time := ParameterSet.avg_trip_time_minutes p in
  [ ("private_car",
      Py.round (avg_distance / fuel_efficiency * fuel_price
                + avg_time * value_of_time) 2);
    ("motorcycle",
      Py.round (avg_distance / (fuel_efficiency * 1.5) * fuel_price
                + avg_time * 0.9 * value_of_time) 2);
    ("public_transit", Py.round (pt_fare + avg_time * 1.3 * value_of_time) 2);
    ("walking_cycling", Py.round (avg_time * 1.5 * value_of_time) 2) ].

(** [d1 == d2] on dictionaries of numbers: the same keys, each with
    equal values, whatever the order. *)
Definition dict_eqb (d1 d2 : dict Q) : bool :=
  (Nat.eqb (List.length d1) (List.length d2)
   && forallb
        (fun kv =>
           match Dict.lookup d2 (fst kv) with
           | Some v => Py.eq (snd kv) v
           | None => false
           end) d1)%bool.

(** The same modes in the same order, with equal shares. *)
Definition same_shares (d1 d2 : dict Q) : Prop :=
  Forall2 (fun a b => fst a = fst b /\ snd a == snd b) d1 d2.

(** The price change of [private_car]: the fuel tax, plus a tenth of
    the congestion price when that is positive. *)
Definition car_price_change (policy : dict Q) : Q :=
  let fuel := Dict.get policy "fuel_tax_percent" 0 / 100 in
  if Py.lt 0 (Dict.get policy "congestion_price" 0)
  then fuel + Dict.get policy "congestion_price" 0 * 0.1
  else fuel.

(** The shares of the default parameter set after the two elasticity
    loops, in closed form. *)
Definition default_shifted (policy : dict Q) : dict Q :=
  let fuel := Dict.get policy "fuel_tax_percent" 0 / 100 in
  let transit := - Dict.get policy "pt_subsidy_percent" 0 / 100 in
  let car := car_price_change policy in
  [ ("private_car", 0.45 * (1 + -0.3 * car) * (1 + 0.3 * transit));
    ("motorcycle", 0.25 * (1 + -0.4 * fuel));
    ("public_transit", 0.20 * (1 + -0.4 * transit) * (1 + 0.2 * car));
    ("walking_cycling", 0.10) ].

(** An adjustment map whose fuel tax is [t] and whose other two levers
    of the mode-share model are zero or absent. *)
Definition fuel_tax_only (adj : dict Q) (t : Q) : Prop :=
  Dict.get adj "fuel_tax_percent" 0 == t
  /\ Dict.get adj "pt_subsidy_percent" 0 == 0
  /\ Dict.get adj "congestion_price" 0 == 0.

(** The private-car share of the default parameter set under a fuel
    tax of [t] percent alone, before it is rounded. *)
Definition car_share_under_fuel_tax (t : Q) : Q :=
  0.45 * (1 - 0.3 * (t / 100)) / (1 - 0.195 * (t / 100)).

(** The ranges of the three levers the mode-share model reads, as the
    policy catalogue gives them ([min] and [max] of the parameter
    definitions). *)
Definition levers_in_range (adj : dict Q) : Prop :=
  (0 <= Dict.get adj "fuel_tax_percent" 0
   /\ Dict.get adj "fuel_tax_percent" 0 <= 100)
  /\ (0 <= Dict.get adj "pt_subsidy_percent" 0
      /\ Dict.get adj "pt_subsidy_percent" 0 <= 100)
  /\ (0 <= Dict.get adj "congestion_price" 0
      /\ Dict.get adj "congestion_price" 0 <= 50).


(** The entries [EquityModel.calculate] computes for an income group
    whose income is [multiplier] times the average: the transport cost
    as a percentage of the daily income, and the accessibility score. *)
Definition burden (p : ParameterSet.t) (user_cost_per_trip multiplier : Q) : Q :=
  Py.round
    (user_cost_per_trip
     * (ParameterSet.daily_trips p / ParameterSet.population p)
     / (ParameterSet.avg_hourly_wage p * 8 * multiplier) * 100) 2.

Definition accessibility (policy : dict Q) (multiplier : Q) : Q :=
  Py.round
    (Py.min 1.0 multiplier * 0.5
     + (1 - (1 - Dict.get policy "pt_subsidy_percent" 0 / 200)) * 0.5) 2.

Definition per_income_group (f : Q -> Q) : dict Q :=
  map (fun item => (fst item, f (income_multiplier (snd item))))
    EquityModel.init_income_groups.

(** The dictionary [EfficiencyModel.calculate] has in
    [travel_time_by_mode] after its first loop. *)
Definition travel_times (congestion_factor : Q) : dict Q :=
  [ ("private_car", Py.round (30 * congestion_factor) 1);
    ("motorcycle", Py.round (25 * congestion_factor) 1);
    ("public_transit", Py.round 45 1);
    ("walking_cycling", Py.round 50 1) ].

(** The value of [sum(table[mode] * share for mode, share in
    items.items())] when [table] has every mode of [items]. *)
Definition weighted_average (table items : dict Q) : Q :=
  fold_left (fun acc item => acc + Dict.get table (fst item) 0 * snd item) items 0.

(** The emission factor [EmissionsModel.calculate] applies to a mode:
    the entry of [emission_factors], 0 for a mode without one, divided
    by the occupancy for [private_car]. *)
Definition effective_factor (p : ParameterSet.t) (mode : string) : Q :=
  let ef := Dict.get (ParameterSet.emission_factors p) mode 0.0 in
  if String.eqb mode "private_car"
  then ef / ParameterSet.avg_vehicle_occupancy p
  else ef.

(** The emissions of one mode, and the running total of the loop. *)
Definition mode_emissions (p : ParameterSet.t) (item : string * Q) : Q :=
  ParameterSet.daily_trips p * snd item * ParameterSet.avg_trip_distance_km p
  * effective_factor p (fst item).

Definition total_emissions (p : ParameterSet.t) (items : dict Q) : Q :=
  fold_left (fun acc item => acc + mode_emissions p item) items 0.0.

Definition emissions_by_mode (p : ParameterSet.t) (items : dict Q) : dict Q :=
  fold_left
    (fun d item => Dict.set d (fst item) (Py.round (mode_emissions p item) 2))
    items [].

(** The keys of an adjustment map that some model reads. *)
Definition levers : list string :=
  ["fuel_tax_percent"; "pt_subsidy_percent"; "congestion_price"].

(** Two adjustment maps with the same entries (or the same lack of an
    entry) under the three levers. *)
Definition same_levers (a b : dict Q) : Prop :=
  forall k, In k levers -> Dict.lookup a k = Dict.lookup b k.

(** The entry of [shift_percentage] for a mode that both dictionaries
    have: the relative change in percent, or 0 for a baseline share
    that is not positive. *)
Definition shift_of (baseline projected : dict Q) (mode : string) : Q :=
  let base := Dict.get baseline mode 0 in
  if Py.lt 0 base
  then Py.round ((Dict.get projected mode 0 - base) / base * 100) 2
  else 0.

(** The store with the five entries of the parameter set that only
    [CostBenefitModel] and [EquityModel] read (fuel efficiency, fuel
    price, transit fare, hourly wage, average trip time) blanked. *)
Definition without_cost_parameters (s : Store) : Store :=
  with_params
    (ParameterSet.mk
       (ParameterSet.population (params s)) (ParameterSet.daily_trips (params s))
       (ParameterSet.mode_share (params s))
       (ParameterSet.avg_trip_distance_km (params s)) 0
       (ParameterSet.avg_vehicle_occupancy (params s)) 0 0 0 0
       (ParameterSet.emission_factors (params s)))
    s.

(** A method body that does not depend on the blanked entries: from
    two stores that differ in them only, it ends in the same way
    (value or exception) and leaves stores that again differ in them
    only. *)
Definition cost_blind {A} (c : M A) : Prop :=
  forall s1 s2,
    without_cost_parameters s1 = without_cost_parameters s2 ->
    fst (c s1) = fst (c s2)
    /\ without_cost_parameters (snd (c s1)) = without_cost_parameters (snd (c s2)).

(** A number within the bounds a parameter definition gives, where it
    gives any. *)
Definition within_bounds (definition : ParameterDefinition.t) (x : Q) : Prop :=
  (forall bound, ParameterDefinition.min definition = Some bound -> bound <= x)
  /\ (forall bound, ParameterDefinition.max definition = Some bound -> x <= bound).

(** What an entry of the list of [validate] says of a policy: the
    parameter it names has a value beyond the bound it names, which is
    a bound of a definition of that parameter. *)
Definition justified (policy : Policy.t) (error : validation_error) : Prop :=
  match error with
  | MustBeAtLeast param bound =>
      exists definition value x,
        In (param, definition) (Policy.parameter_definitions policy)
        /\ ParameterDefinition.min definition = Some bound
        /\ Dict.lookup (Policy.parameters policy) param = Some value
        /\ PolicyValue.as_number value = Some x /\ x < bound
  | MustBeAtMost param bound =>
      exists definition value x,
        In (param, definition) (Policy.parameter_definitions policy)
        /\ ParameterDefinition.max definition = Some bound
        /\ Dict.lookup (Policy.parameters policy) param = Some value
        /\ PolicyValue.as_number value = Some x /\ bound < x
  end.

(** A parameter set on which every model can run: the mode share has
    modes the models have tables for, among them the three whose price
    a policy changes, and none of the divisors is zero. *)
Definition complete_parameters (p : ParameterSet.t) : Prop :=
  Forall canonical (Dict.keys (ParameterSet.mode_share p))
  /\ Dict.lookup (ParameterSet.mode_share p) "private_car" <> None
  /\ Dict.lookup (ParameterSet.mode_share p) "motorcycle" <> None
  /\ Dict.lookup (ParameterSet.mode_share p) "public_transit" <> None
  /\ ~ ParameterSet.population p == 0
  /\ ~ ParameterSet.daily_trips p == 0
  /\ ~ ParameterSet.avg_vehicle_occupancy p == 0
  /\ ~ ParameterSet.fuel_efficiency_km_per_liter p == 0
  /\ ~ ParameterSet.avg_hourly_wage p == 0.

(** A parameter set with the signs one expects: positive population,
    trips, occupancy, fuel efficiency and wage, and no negative
    distance, time, price, fare or emission factor. *)
Definition plausible_parameters (p : ParameterSet.t) : Prop :=
  0 < ParameterSet.population p
  /\ 0 < ParameterSet.daily_trips p
  /\ 0 <= ParameterSet.avg_trip_distance_km p
  /\ 0 <= ParameterSet.avg_trip_time_minutes p
  /\ 0 < ParameterSet.avg_vehicle_occupancy p
  /\ 0 < ParameterSet.fuel_efficiency_km_per_liter p
  /\ 0 <= ParameterSet.fuel_price_per_liter p
  /\ 0 <= ParameterSet.public_transit_fare p
  /\ 0 < ParameterSet.avg_hourly_wage p
  /\ Forall (fun factor => 0 <= factor) (Dict.values (ParameterSet.emission_factors p)).

(** The keyword parameters of the [__init__] of the class that
    [PolicyRegistry._policies] holds under [policy_id]. *)
Definition init_keywords (policy_id : string) : list string :=
  if String.eqb policy_id "congestion_pricing"
  then ["price_per_entry"; "peak_multiplier"]
  else if String.eqb policy_id "pt_subsidy"
  then ["subsidy_percent"; "target_groups"]
  else if String.eqb policy_id "fuel_tax"
  then ["tax_percent"; "use_for_transit"]
  else if String.eqb policy_id "ev_incentive"
  then ["purchase_subsidy"; "tax_reduction_percent"]
  else if String.eqb policy_id "parking_policy"
  then ["hourly_rate"; "max_hours"]
  else [].
(** * Properties *)

(** ** Numbers *)

Lemma lt_true x y : Py.lt x y = true <-> x < y.
Proof.
  unfold Py.lt. rewrite negb_true_iff. split.
  - intro H. apply Qnot_le_lt. intro Hle.
    apply Qle_bool_iff in Hle. congruence.
  - intro H. destruct (Qle_bool y x) eqn:E; [| reflexivity].
    apply Qle_bool_iff in E. lra.
Qed.

Lemma lt_false x y : Py.lt x y = false <-> y <= x.
Proof.
  unfold Py.lt. rewrite negb_false_iff. apply Qle_bool_iff.
Qed.

Lemma ne_true x y : Py.ne x y = true <-> ~ x == y.
Proof.
  unfold Py.ne. rewrite negb_true_iff. split.
  - intros H E. apply Qeq_bool_iff in E. congruence.
  - intro H. destruct (Qeq_bool x y) eqn:E; [| reflexivity].
    apply Qeq_bool_iff in E. contradiction.
Qed.

Lemma ne_false x y : Py.ne x y = false <-> x == y.
Proof.
  unfold Py.ne. rewrite negb_false_iff. apply Qeq_bool_iff.
Qed.

Lemma eq_true x y : Py.eq x y = true <-> x == y.
Proof. apply Qeq_bool_iff. Qed.

Lemma eq_false x y : Py.eq x y = false <-> ~ x == y.
Proof.
  unfold Py.eq. split.
  - apply Qeq_bool_neq.
  - intro H. destruct (Qeq_bool x y) eqn:E; [| reflexivity].
    apply Qeq_bool_iff in E. contradiction.
Qed.

#[export] Instance lt_compat : Proper (Qeq ==> Qeq ==> eq) Py.lt.
Proof. intros x x' Hx y y' Hy. unfold Py.lt. now rewrite Hx, Hy. Qed.

#[export] Instance ne_compat : Proper (Qeq ==> Qeq ==> eq) Py.ne.
Proof. intros x x' Hx y y' Hy. unfold Py.ne. now rewrite Hx, Hy. Qed.

#[export] Instance eq_compat : Proper (Qeq ==> Qeq ==> eq) Py.eq.
Proof. intros x x' Hx y y' Hy. unfold Py.eq. now rewrite Hx, Hy. Qed.

(** Rounding to the nearest integer moves a number by at most a half. *)
Lemma round_half_even_near q :
  q - (1 # 2) <= inject_Z (Py.round_half_even q)
  /\ inject_Z (Py.round_half_even q) <= q + (1 # 2).
Proof.
  unfold Py.round_half_even.
  pose proof (Qfloor_le q) as Hlo. pose proof (Qlt_floor q) as Hhi.
  rewrite inject_Z_plus in Hhi. change (inject_Z 1) with 1 in Hhi.
  destruct (Qcompare_spec (q - inject_Z (Qfloor q)) (1 # 2)) as [E | E | E].
  - destruct (Z.even (Qfloor q)).
    + split; lra.
    + rewrite inject_Z_plus. change (inject_Z 1) with 1. split; lra.
  - split; lra.
  - rewrite inject_Z_plus. change (inject_Z 1) with 1. split; lra.
Qed.

#[export] Instance round_half_even_compat : Proper (Qeq ==> eq) Py.round_half_even.
Proof.
  intros x y H. unfold Py.round_half_even.
  rewrite (Qfloor_comp _ _ H).
  assert (E : x - inject_Z (Qfloor y) == y - inject_Z (Qfloor y)) by (rewrite H; reflexivity).
  rewrite (Qcompare_comp _ _ E _ _ (Qeq_refl (1 # 2))). reflexivity.
Qed.

Lemma round_half_even_mono x y :
  x <= y -> (Py.round_half_even x <= Py.round_half_even y)%Z.
Proof.
  intro Hxy. pose proof (Qfloor_resp_le _ _ Hxy) as Hf.
  unfold Py.round_half_even.
  destruct (Z.eq_dec (Qfloor x) (Qfloor y)) as [E | NE].
  - rewrite E.
    destruct (Qcompare_spec (x - inject_Z (Qfloor y)) (1 # 2)) as [Ex | Ex | Ex];
      destruct (Qcompare_spec (y - inject_Z (Qfloor y)) (1 # 2)) as [Ey | Ey | Ey];
      try destruct (Z.even (Qfloor y)); try lia; exfalso; lra.
  - assert (Qfloor x + 1 <= Qfloor y)%Z by lia.
    destruct (Qcompare (x - inject_Z (Qfloor x)) (1 # 2));
      destruct (Qcompare (y - inject_Z (Qfloor y)) (1 # 2));
      try destruct (Z.even (Qfloor x)); try destruct (Z.even (Qfloor y)); lia.
Qed.

(** Numbers more than one apart round to different integers. *)
Lemma round_half_even_strict x y :
  x + 1 < y -> (Py.round_half_even x < Py.round_half_even y)%Z.
Proof.
  intro H. rewrite Zlt_Qlt.
  pose proof (round_half_even_near x). pose proof (round_half_even_near y). lra.
Qed.

Lemma pow10_pos n : 0 < inject_Z (Zpos (Py.pow10 n)).
Proof. reflexivity. Qed.

Lemma round_as_quotient x n :
  Py.round x n ==
  inject_Z (Py.round_half_even (x * inject_Z (Zpos (Py.pow10 n))))
  / inject_Z (Zpos (Py.pow10 n)).
Proof. unfold Py.round. apply Qmake_Qdiv. Qed.

#[export] Instance round_compat : Proper (Qeq ==> eq ==> eq) Py.round.
Proof.
  intros x y H n n' <-. unfold Py.round.
  assert (E : x * inject_Z (Zpos (Py.pow10 n)) == y * inject_Z (Zpos (Py.pow10 n)))
    by (rewrite H; reflexivity).
  now rewrite (round_half_even_compat _ _ E).
Qed.

(** [round(x, n)] is within half a unit of the [n]-th decimal of [x]. *)
Lemma round_near x n :
  Qabs (Py.round x n - x) <= 1 # (2 * Py.pow10 n).
Proof.
  rewrite round_as_quotient.
  set (p := inject_Z (Zpos (Py.pow10 n))).
  assert (Hp : 0 < p) by apply pow10_pos.
  destruct (round_half_even_near (x * p)) as [Hlo Hhi].
  set (k := inject_Z (Py.round_half_even (x * p))) in *.
  assert (Hhalf : (1 # (2 * Py.pow10 n)) == (1 # 2) / p).
  { unfold p. rewrite (Qmake_Qdiv 1 (2 * Py.pow10 n)).
    rewrite Pos2Z.inj_mul, inject_Z_mult. field.
    intro E. pose proof (pow10_pos n). lra. }
  rewrite Hhalf. apply Qabs_case; intros _.
  - apply Qle_shift_div_l; [exact Hp |].
    assert (E : (k / p - x) * p == k - x * p) by (field; lra). lra.
  - apply Qle_shift_div_l; [exact Hp |].
    assert (E : - (k / p - x) * p == x * p - k) by (field; lra). lra.
Qed.

(** Hence within a unit of the [n]-th decimal: a cent for [n = 2]. *)
Lemma round_within x n : Qabs (Py.round x n - x) <= 1 # Py.pow10 n.
Proof.
  eapply Qle_trans; [apply round_near |].
  unfold Qle. cbn [Qnum Qden]. lia.
Qed.

Lemma round_within_cent x : Qabs (Py.round x 2 - x) <= 0.01.
Proof. exact (round_within x 2). Qed.

Lemma round_mono x y n : x <= y -> Py.round x n <= Py.round y n.
Proof.
  intro H. rewrite !round_as_quotient.
  set (p := inject_Z (Zpos (Py.pow10 n))).
  assert (Hp : 0 < p) by apply pow10_pos.
  assert (Hxy : x * p <= y * p) by nra.
  apply round_half_even_mono in Hxy. rewrite Zle_Qle in Hxy.
  apply Qle_shift_div_l; [exact Hp |].
  set (a := inject_Z (Py.round_half_even (x * p))) in *.
  set (b := inject_Z (Py.round_half_even (y * p))) in *.
  assert (E : a / p * p == a) by (field; lra). lra.
Qed.

(** Numbers more than one unit of the [n]-th decimal apart keep their
    order strictly. *)
Lemma round_strict x y n :
  x + (1 # Py.pow10 n) < y -> Py.round x n < Py.round y n.
Proof.
  intro H. rewrite !round_as_quotient.
  set (p := inject_Z (Zpos (Py.pow10 n))).
  assert (Hp : 0 < p) by apply pow10_pos.
  assert (Hu : (1 # Py.pow10 n) == 1 / p) by (unfold p; apply Qmake_Qdiv).
  assert (Hxy : x * p + 1 < y * p).
  { assert (E : (x + 1 / p) * p == x * p + 1) by (field; lra).
    rewrite Hu in H. nra. }
  apply round_half_even_strict in Hxy. rewrite Zlt_Qlt in Hxy.
  apply Qlt_shift_div_l; [exact Hp |].
  set (a := inject_Z (Py.round_half_even (x * p))) in *.
  set (b := inject_Z (Py.round_half_even (y * p))) in *.
  assert (E : a / p * p == a) by (field; lra). lra.
Qed.

(** Closes [moderate], [moderate_mapping] and [moderate_parameters] on
    literal numbers. *)
Ltac moderate_numbers :=
  unfold moderate_parameters, moderate_mapping;
  repeat match goal with
    | |- _ /\ _ => split
    | |- moderate _ => split; discriminate
    | |- Forall _ _ => first [apply Forall_nil | apply Forall_cons]
    end.

Lemma default_parameters_moderate : moderate_parameters DEFAULT_PARAMS.
Proof. moderate_numbers. Qed.

(** [sum] *)
Lemma fold_plus_shift xs a : fold_left Qplus xs a == a + fold_left Qplus xs 0.
Proof.
  revert a. induction xs as [| x xs IH]; intro a; simpl.
  - lra.
  - rewrite (IH (a + x)), (IH (0 + x)). lra.
Qed.

Lemma sum_nil : Py.sum [] == 0.
Proof. reflexivity. Qed.

Lemma sum_cons x xs : Py.sum (x :: xs) == x + Py.sum xs.
Proof.
  unfold Py.sum. simpl. rewrite fold_plus_shift. lra.
Qed.

Lemma sum_four v1 v2 v3 v4 : Py.sum [v1; v2; v3; v4] == v1 + v2 + v3 + v4.
Proof. unfold Py.sum. simpl. ring. Qed.


(** ** The store is only read *)


Lemma reads_only_ret {A} (a : A) : reads_only (ret a).
Proof. intro s; reflexivity. Qed.

Lemma reads_only_raise {A} (e : exn) : reads_only (@raise A e).
Proof. intro s; reflexivity. Qed.

Lemma reads_only_gets {A} (f : Store -> A) : reads_only (gets f).
Proof. intro s; reflexivity. Qed.

Lemma reads_only_bind {A B} (c : M A) (f : A -> M B) :
  reads_only c -> (forall a, reads_only (f a)) -> reads_only (bind c f).
Proof.
  intros Hc Hf s. unfold bind.
  specialize (Hc s). destruct (c s) as [[e | a] s']; simpl in Hc; subst s'.
  - reflexivity.
  - apply Hf.
Qed.

Lemma reads_only_if {A} (b : bool) (c1 c2 : M A) :
  reads_only c1 -> reads_only c2 -> reads_only (if b then c1 else c2).
Proof. destruct b; auto. Qed.

Lemma reads_only_param f : reads_only (param f).
Proof. apply reads_only_gets. Qed.

Lemma reads_only_div x y : reads_only (div x y).
Proof. unfold div. apply reads_only_if; [apply reads_only_raise | apply reads_only_ret]. Qed.

Lemma reads_only_getitem d k : reads_only (getitem d k).
Proof.
  unfold getitem. destruct (Dict.lookup d k);
    [apply reads_only_ret | apply reads_only_raise].
Qed.

Lemma reads_only_dict_items r : reads_only (dict_items r).
Proof. apply reads_only_gets. Qed.

Lemma reads_only_dict_get r k v : reads_only (dict_get r k v).
Proof. apply reads_only_gets. Qed.

Lemma reads_only_dict_copy r : reads_only (dict_copy r).
Proof. apply reads_only_gets. Qed.

Lemma reads_only_dict_getitem r k : reads_only (dict_getitem r k).
Proof.
  apply reads_only_bind; [apply reads_only_gets | intro; apply reads_only_getitem].
Qed.

Lemma reads_only_for_each {A X} (body : A -> X -> M A) (xs : list X) :
  (forall acc x, reads_only (body acc x)) ->
  forall acc, reads_only (for_each xs body acc).
Proof.
  intro Hbody. induction xs as [| x xs IH]; intro acc; simpl.
  - apply reads_only_ret.
  - apply reads_only_bind; [apply Hbody | exact IH].
Qed.

Create HintDb frame.

#[export] Hint Resolve reads_only_ret reads_only_raise reads_only_gets
  reads_only_param reads_only_div reads_only_getitem reads_only_dict_items
  reads_only_dict_get reads_only_dict_copy reads_only_dict_getitem : frame.

(** Walks a method body: one rule per construct. *)
Ltac frame_step :=
  match goal with
  | |- reads_only (bind _ _) => apply reads_only_bind; [| intro]
  | |- reads_only (for_each _ _ _) => apply reads_only_for_each; intros
  | |- reads_only (if _ then _ else _) => apply reads_only_if
  | |- reads_only (match ?x with (_, _) => _ end) => destruct x
  | |- reads_only (let '(_, _) := ?x in _) => destruct x
  | |- reads_only _ => solve [auto with frame]
  end.

Ltac frame := repeat frame_step.

Lemma for_each_cons {A X} (x : X) xs (body : A -> X -> M A) acc s :
  for_each (x :: xs) body acc s =
  match body acc x s with
  | (inr acc', s') => for_each xs body acc' s'
  | (inl e, s') => (inl e, s')
  end.
Proof. reflexivity. Qed.

Lemma reads_only_run {A} (c : M A) s : reads_only c -> c s = (fst (c s), s).
Proof. intro H. specialize (H s). destruct (c s); simpl in *; congruence. Qed.

Lemma bind_run {A B} (c : M A) (f : A -> M B) s :
  reads_only c ->
  bind c f s =
  match fst (c s) with
  | inr a => f a s
  | inl e => (inl e, s)
  end.
Proof.
  intro H. unfold bind. rewrite (reads_only_run c s H). simpl.
  destruct (fst (c s)); reflexivity.
Qed.

(** *** What a body ensures *)

Lemma ensures_reads_only {A} (c : M A) s :
  reads_only c -> ensures c s (fun _ => True).
Proof. intro H. split; [apply H | auto]. Qed.

Lemma ensures_ret {A} (a : A) s (P : A -> Prop) : P a -> ensures (ret a) s P.
Proof. intro H. split; [reflexivity |]. intros a' E. injection E as <-. exact H. Qed.

Lemma ensures_raise {A} e s (P : A -> Prop) : ensures (raise e) s P.
Proof. split; [reflexivity | discriminate]. Qed.

Lemma ensures_bind {A B} (c : M A) (f : A -> M B) s (P : A -> Prop) (R : B -> Prop) :
  ensures c s P -> (forall a, P a -> ensures (f a) s R) -> ensures (bind c f) s R.
Proof.
  intros [Hs Hr] Hf. unfold ensures, bind.
  rewrite (surjective_pairing (c s)), Hs.
  destruct (fst (c s)) as [e | a].
  - split; [reflexivity | discriminate].
  - apply Hf. apply Hr. reflexivity.
Qed.

(** A loop establishes what each of its turns preserves, and leaves
    the store as it is if each of its turns does. *)
Lemma for_each_invariant {A X} (P : A -> Prop) (body : A -> X -> M A) xs s :
  (forall acc x, P acc -> ensures (body acc x) s P) ->
  forall acc, P acc -> ensures (for_each xs body acc) s P.
Proof.
  intro Hstep. induction xs as [| x xs IH]; intros acc HP; simpl.
  - apply ensures_ret. exact HP.
  - apply (ensures_bind _ _ _ P); [apply Hstep; exact HP | exact IH].
Qed.

(** A dictionary of the store would not survive an assignment through
    its reference. *)
Example setitem_through_reference_writes :
  ~ reads_only (dict_setitem ParamsModeShare "private_car" 0).
Proof.
  intro H. specialize (H (PolicySimulator.init None)).
  apply (f_equal (fun s => Dict.lookup (ParameterSet.mode_share (params s)) "private_car")) in H.
  vm_compute in H. discriminate H.
Qed.

Lemma EmissionsModel_calculate_reads_only ms :
  reads_only (EmissionsModel.calculate ms).
Proof.
  unfold EmissionsModel.calculate, EmissionsModel.calculate_body. frame.
Qed.

Lemma CostBenefitModel_calculate_reads_only ms adj :
  reads_only (CostBenefitModel.calculate ms adj).
Proof.
  unfold CostBenefitModel.calculate, weighted_sum, weighted_sum_body. frame.
Qed.

Lemma EquityModel_calculate_reads_only c ms adj :
  reads_only (EquityModel.calculate c ms adj).
Proof.
  unfold EquityModel.calculate, EquityModel.calculate_body. frame.
Qed.

Lemma EfficiencyModel_calculate_reads_only ms cf :
  reads_only (EfficiencyModel.calculate ms cf).
Proof.
  unfold EfficiencyModel.calculate, EfficiencyModel.calculate_body,
    weighted_sum, weighted_sum_body.
  frame.
Qed.

(** *** Assignments into dictionaries of the method's own *)

Lemma local_step_ret r : is_local r -> local_step (ret r).
Proof. intros H s. apply ensures_ret. exact H. Qed.

Lemma local_step_setitem r k v : is_local r -> local_step (dict_setitem r k v).
Proof.
  destruct r as [| | d]; intros H; try contradiction.
  intro s. apply ensures_ret. exact I.
Qed.

Lemma local_step_copy r : local_step (dict_copy r).
Proof. intro s. split; [reflexivity |]. intros r' E. injection E as <-. exact I. Qed.

Lemma local_step_bind {A} (c : M A) (f : A -> M dictref) :
  reads_only c -> (forall a, local_step (f a)) -> local_step (bind c f).
Proof.
  intros Hc Hf s. apply (ensures_bind _ _ _ (fun _ => True)).
  - apply ensures_reads_only. exact Hc.
  - intros a _. apply Hf.
Qed.

Lemma local_step_if (b : bool) (c1 c2 : M dictref) :
  local_step c1 -> local_step c2 -> local_step (if b then c1 else c2).
Proof. destruct b; auto. Qed.

(** After a step that returns a local reference, what follows need
    only be considered on local references. *)
Lemma reads_only_after_local {B} (c : M dictref) (f : dictref -> M B) :
  local_step c -> (forall r, is_local r -> reads_only (f r)) ->
  reads_only (bind c f).
Proof.
  intros Hc Hf s.
  apply (ensures_bind c f s is_local (fun _ => True) (Hc s)).
  intros r Hr. apply ensures_reads_only. apply Hf. exact Hr.
Qed.

Lemma local_step_after_local (c : M dictref) (f : dictref -> M dictref) :
  local_step c -> (forall r, is_local r -> local_step (f r)) ->
  local_step (bind c f).
Proof.
  intros Hc Hf s. apply (ensures_bind c f s is_local is_local (Hc s)).
  intros r Hr. apply Hf. exact Hr.
Qed.

Lemma local_step_for_each {X} (body : dictref -> X -> M dictref) (xs : list X) :
  (forall acc x, is_local acc -> local_step (body acc x)) ->
  forall acc, is_local acc -> local_step (for_each xs body acc).
Proof.
  intros Hbody acc Hacc s. apply for_each_invariant; [| exact Hacc].
  intros acc' x H'. apply Hbody. exact H'.
Qed.

Lemma own_price_body_local baseline projected item :
  is_local projected ->
  local_step (ModeShareModel.own_price_body baseline projected item).
Proof.
  intro H. destruct item as [mode price_change].
  unfold ModeShareModel.own_price_body.
  apply local_step_if; [| apply local_step_ret; exact H].
  apply local_step_bind; [auto with frame | intro table].
  apply local_step_bind; [auto with frame | intro elasticity].
  apply local_step_bind; [auto with frame | intro base].
  apply local_step_setitem. exact H.
Qed.

Lemma cross_price_body_local price_changes projected item :
  is_local projected ->
  local_step (ModeShareModel.cross_price_body price_changes projected item).
Proof.
  intro H. destruct item as [[mode_a mode_b] cross_e].
  unfold ModeShareModel.cross_price_body.
  apply local_step_if; [| apply local_step_ret; exact H].
  apply local_step_bind; [auto with frame | intro change_b].
  apply local_step_bind; [auto with frame | intro old].
  apply local_step_setitem. exact H.
Qed.

Lemma reads_only_price_changes policy :
  reads_only (ModeShareModel.price_changes policy).
Proof. unfold ModeShareModel.price_changes. frame. Qed.

Lemma shifted_shares_local policy baseline projected :
  is_local projected ->
  local_step (ModeShareModel.shifted_shares policy baseline projected).
Proof.
  intro H. unfold ModeShareModel.shifted_shares.
  apply local_step_bind; [apply reads_only_price_changes | intro changes].
  apply local_step_after_local.
  - apply local_step_for_each; [| exact H].
    intros acc x Hacc. apply own_price_body_local. exact Hacc.
  - intros projected' H'.
    apply local_step_bind; [auto with frame | intro pairs].
    apply local_step_for_each; [| exact H'].
    intros acc x Hacc. apply cross_price_body_local. exact Hacc.
Qed.

(** [ModeShareModel.calculate] assigns into [projected] only, which it
    has made a copy of a copy of the parameter set's mode share. *)
Lemma ModeShareModel_calculate_reads_only adj :
  reads_only (ModeShareModel.calculate adj).
Proof.
  unfold ModeShareModel.calculate.
  apply reads_only_after_local; [apply local_step_copy | intros baseline _].
  apply reads_only_after_local; [apply local_step_copy | intros projected Hp].
  apply reads_only_after_local;
    [apply shifted_shares_local; exact Hp | intros projected' _].
  unfold ModeShareModel.shift_body. frame.
Qed.

(** Run on the parameter set's own dictionary instead of a copy, the
    two loops change it: with the default parameter set and a fuel tax
    of 10 % the private-car share of the parameter set becomes
    0.45 * 0.97. *)
Example shifted_shares_without_copy_writes :
  ~ reads_only
      (ModeShareModel.shifted_shares [("fuel_tax_percent", 10)]
         ParamsModeShare ParamsModeShare).
Proof.
  intro H. specialize (H (PolicySimulator.init None)).
  apply (f_equal (fun s => Dict.lookup (ParameterSet.mode_share (params s)) "private_car")) in H.
  vm_compute in H. discriminate H.
Qed.

#[export] Hint Resolve EmissionsModel_calculate_reads_only
  CostBenefitModel_calculate_reads_only EquityModel_calculate_reads_only
  EfficiencyModel_calculate_reads_only ModeShareModel_calculate_reads_only
  : frame.

Lemma PolicySimulator_simulate_reads_only adj :
  reads_only (PolicySimulator.simulate adj).
Proof. unfold PolicySimulator.simulate. frame. Qed.

(** *** The parameter set across calls *)

(** C9.  Whatever the adjustments and whether it returns or raises,
    [simulate] leaves the store as it found it: the parameter dictionary
    with every entry, the nested [mode_share] and [emission_factors]
    dictionaries included, and the tables of the models; and so does
    the [calculate] of each of the five models. *)
Theorem simulate_leaves_parameters_unchanged (adj : option (dict Q)) (s : Store) :
  snd (PolicySimulator.simulate adj s) = s
  /\ params (snd (PolicySimulator.simulate adj s)) = params s
  /\ ParameterSet.mode_share (params (snd (PolicySimulator.simulate adj s)))
     = ParameterSet.mode_share (params s)
  /\ ParameterSet.emission_factors (params (snd (PolicySimulator.simulate adj s)))
     = ParameterSet.emission_factors (params s)
  /\ snd (ModeShareModel.calculate adj s) = s
  /\ (forall mode_share, snd (EmissionsModel.calculate mode_share s) = s)
  /\ (forall mode_share, snd (CostBenefitModel.calculate mode_share adj s) = s)
  /\ (forall user_cost mode_share,
        snd (EquityModel.calculate user_cost mode_share adj s) = s)
  /\ (forall mode_share congestion_factor,
        snd (EfficiencyModel.calculate mode_share congestion_factor s) = s).
Proof.
  pose proof (PolicySimulator_simulate_reads_only adj s) as H.
  split; [exact H |]. rewrite H.
  repeat split; intros; auto with frame.
  - apply ModeShareModel_calculate_reads_only.
  - apply EmissionsModel_calculate_reads_only.
  - apply CostBenefitModel_calculate_reads_only.
  - apply EquityModel_calculate_reads_only.
  - apply EfficiencyModel_calculate_reads_only.
Qed.

(** C7.  A second call of [simulate] with the same adjustments, made on
    the simulator as the first call left it, ends as the first did: the
    same [SimulationResult], equal in every field, or the same
    exception. *)
Theorem simulate_is_deterministic (adj : option (dict Q)) (s : Store) :
  fst (PolicySimulator.simulate adj (snd (PolicySimulator.simulate adj s)))
  = fst (PolicySimulator.simulate adj s)
  /\ PolicySimulator.simulate adj (snd (PolicySimulator.simulate adj s))
     = PolicySimulator.simulate adj s.
Proof.
  rewrite (PolicySimulator_simulate_reads_only adj s). split; reflexivity.
Qed.

(** ** The pipeline of PolicySimulator.simulate *)

(** When [simulate] returns, each stage has returned the record the
    result holds, from the store [simulate] started in; the later
    stages were given the projected shares of the first one. *)
Lemma simulate_pipeline adj s r :
  fst (PolicySimulator.simulate adj s) = inr r ->
  let policy := or_empty adj in
  let shares := ModeShareResult.projected_shares (SimulationResult.mode_share r) in
  ModeShareModel.calculate (Some policy) s = (inr (SimulationResult.mode_share r), s)
  /\ EmissionsModel.calculate (Some shares) s = (inr (SimulationResult.emissions r), s)
  /\ CostBenefitModel.calculate (Some shares) (Some policy) s
     = (inr (SimulationResult.cost r), s)
  /\ EquityModel.calculate
       (CostResult.user_cost_per_trip (SimulationResult.cost r))
       (Some shares) (Some policy) s
     = (inr (SimulationResult.equity r), s)
  /\ EfficiencyModel.calculate (Some shares)
       (Py.max 0.8
          (1.0 + (Dict.get shares "private_car" 0
                  - Dict.get (ParameterSet.mode_share (params s)) "private_car" 0))) s
     = (inr (SimulationResult.efficiency r), s)
  /\ SimulationResult.overall_score r
     = PolicySimulator._calculate_overall_score (SimulationResult.emissions r)
         (SimulationResult.cost r) (SimulationResult.equity r)
         (SimulationResult.efficiency r).
Proof.
  unfold PolicySimulator.simulate.
  rewrite bind_run by auto with frame.
  destruct (fst (ModeShareModel.calculate (Some (or_empty adj)) s))
    as [e | mode_result] eqn:E1; [discriminate |].
  cbv beta zeta.
  rewrite bind_run by auto with frame.
  match goal with
  | |- context [fst (EmissionsModel.calculate ?m s)] =>
      destruct (fst (EmissionsModel.calculate m s))
        as [e | emissions_result] eqn:E2; [discriminate |]
  end.
  cbv beta zeta.
  rewrite bind_run by auto with frame.
  match goal with
  | |- context [fst (CostBenefitModel.calculate ?m ?a s)] =>
      destruct (fst (CostBenefitModel.calculate m a s))
        as [e | cost_result] eqn:E3; [discriminate |]
  end.
  cbv beta zeta.
  rewrite bind_run by auto with frame.
  match goal with
  | |- context [fst (EquityModel.calculate ?c ?m ?a s)] =>
      destruct (fst (EquityModel.calculate c m a s))
        as [e | equity_result] eqn:E4; [discriminate |]
  end.
  cbv beta zeta.
  rewrite bind_run by auto with frame.
  cbv beta iota zeta delta [dict_get gets fst deref].
  rewrite bind_run by auto with frame.
  match goal with
  | |- context [fst (EfficiencyModel.calculate ?m ?c s)] =>
      destruct (fst (EfficiencyModel.calculate m c s))
        as [e | efficiency_result] eqn:E5; [discriminate |]
  end.
  cbv beta iota delta [ret fst]. intro H. injection H as <-. simpl.
  rewrite (reads_only_run (ModeShareModel.calculate _) s), E1 by auto with frame.
  rewrite (reads_only_run (EmissionsModel.calculate _) s), E2 by auto with frame.
  rewrite (reads_only_run (CostBenefitModel.calculate _ _) s), E3 by auto with frame.
  rewrite (reads_only_run (EquityModel.calculate _ _ _) s), E4 by auto with frame.
  rewrite (reads_only_run (EfficiencyModel.calculate _ _) s), E5 by auto with frame.
  repeat split; reflexivity.
Qed.

(** ** CostBenefitModel.calculate *)

Lemma canonical_dec k : {canonical k} + {~ canonical k}.
Proof. apply (in_dec string_dec). Qed.

(** Closes [Forall canonical ks] on a literal list of modes. *)
Ltac canonical_keys :=
  repeat first [apply Forall_nil | apply Forall_cons];
  unfold canonical, canonical_modes; simpl; tauto.

Lemma lookup_cost_table p policy k :
  canonical k <-> Dict.lookup (cost_table p policy) k <> None.
Proof.
  unfold canonical, canonical_modes, cost_table. simpl.
  destruct (String.eqb_spec k "private_car");
    [split; [discriminate | auto] |].
  destruct (String.eqb_spec k "motorcycle");
    [split; [discriminate | auto] |].
  destruct (String.eqb_spec k "public_transit");
    [split; [discriminate | auto] |].
  destruct (String.eqb_spec k "walking_cycling");
    [split; [discriminate | auto] |].
  split; [| congruence].
  intros [E | [E | [E | [E | []]]]]; congruence.
Qed.

Lemma weighted_sum_body_some table k share acc entry s :
  Dict.lookup table k = Some entry ->
  weighted_sum_body table acc (k, share) s = (inr (acc + entry * share), s).
Proof.
  intro E. unfold weighted_sum_body, bind, getitem. rewrite E. reflexivity.
Qed.

Lemma weighted_sum_body_none table k share acc s :
  Dict.lookup table k = None ->
  weighted_sum_body table acc (k, share) s = (inl (KeyError k), s).
Proof.
  intro E. unfold weighted_sum_body, bind, getitem. rewrite E. reflexivity.
Qed.

(** The weighted sum returns when every mode of the mapping has an
    entry in the table, and raises [KeyError] at the first mode that
    has none. *)
Lemma weighted_sum_run table items acc s :
  (Forall (fun k => Dict.lookup table k <> None) (Dict.keys items)
   /\ exists v, for_each items (weighted_sum_body table) acc s = (inr v, s))
  \/ (exists k, In k (Dict.keys items) /\ Dict.lookup table k = None
      /\ for_each items (weighted_sum_body table) acc s = (inl (KeyError k), s)).
Proof.
  revert acc. induction items as [| [k share] items IH]; intro acc.
  - left. split; [constructor | eexists; reflexivity].
  - rewrite for_each_cons.
    destruct (Dict.lookup table k) as [entry |] eqn:E.
    + rewrite (weighted_sum_body_some _ _ _ _ _ _ E).
      destruct (IH (acc + entry * share)) as [[Hall [v Hv]] | [k' [Hin [Hk' Hr]]]].
      * left. split; [| exists v; exact Hv].
        constructor; [simpl; rewrite E; discriminate | exact Hall].
      * right. exists k'. split; [right; exact Hin | split; assumption].
    + rewrite (weighted_sum_body_none _ _ _ _ _ E).
      right. exists k. split; [left; reflexivity | split; [exact E | reflexivity]].
Qed.

Lemma weighted_sum_reads_only table items : reads_only (weighted_sum table items).
Proof. unfold weighted_sum, weighted_sum_body. frame. Qed.

Lemma CostBenefitModel_calculate_run ms adj s :
  ~ ParameterSet.fuel_efficiency_km_per_liter (params s) == 0 ->
  CostBenefitModel.calculate ms adj s =
  (user_cost <-
     weighted_sum (cost_table (params s) (or_empty adj))
       (deref (or_params_mode_share ms) s) ;;
   ret {| CostResult.user_cost_per_trip := Py.round user_cost 2;
          CostResult.total_user_cost_per_day :=
            Py.round (user_cost * ParameterSet.daily_trips (params s)) 2;
          CostResult.government_cost_per_year :=
            Py.round
              (ParameterSet.daily_trips (params s)
               * Dict.get (deref (or_params_mode_share ms) s) "public_transit" 0.2
               * (ParameterSet.public_transit_fare (params s)
                  * Dict.get (or_empty adj) "pt_subsidy_percent" 0 / 100)
               * 365) 2;
          CostResult.cost_by_mode := cost_table (params s) (or_empty adj);
          CostResult.methodology :=
            "User cost = fuel_cost + fare + (travel_time Ã— value_of_time). "
            ++ "Value of time = 50% of hourly wage. "
            ++ "Government cost = subsidy Ã— subsidized_trips Ã— 365." |}) s.
Proof.
  intro Hfe.
  assert (H1 : Py.eq (ParameterSet.fuel_efficiency_km_per_liter (params s)) 0 = false)
    by (apply eq_false; exact Hfe).
  assert (H2 : Py.eq (ParameterSet.fuel_efficiency_km_per_liter (params s) * 1.5) 0 = false).
  { apply eq_false. intro E. apply Hfe. lra. }
  unfold CostBenefitModel.calculate.
  cbv beta iota delta [bind param gets div dict_items dict_get].
  rewrite H1. cbv beta iota delta [ret]. rewrite H2.
  cbv beta iota zeta delta [bind ret cost_table Dict.set String.eqb Ascii.eqb Bool.eqb].
  match goal with
  | |- context [weighted_sum ?t ?i s] =>
      pose proof (weighted_sum_reads_only t i s) as Hs;
      destruct (weighted_sum t i s) as [[e | user_cost] s']
  end; simpl in Hs; subst s'; reflexivity.
Qed.

(** What [CostBenefitModel.calculate] does for a parameter set whose
    fuel efficiency is not zero: it returns exactly when every mode of
    the mapping it iterates is canonical. *)
Lemma CostBenefitModel_calculate_returns ms adj s :
  ~ ParameterSet.fuel_efficiency_km_per_liter (params s) == 0 ->
  Forall canonical (Dict.keys (deref (or_params_mode_share ms) s)) ->
  exists r,
    CostBenefitModel.calculate ms adj s = (inr r, s)
    /\ CostResult.cost_by_mode r = cost_table (params s) (or_empty adj)
    /\ CostResult.government_cost_per_year r =
       Py.round
         (ParameterSet.daily_trips (params s)
          * Dict.get (deref (or_params_mode_share ms) s) "public_transit" 0.2
          * (ParameterSet.public_transit_fare (params s)
             * Dict.get (or_empty adj) "pt_subsidy_percent" 0 / 100)
          * 365) 2.
Proof.
  intros Hfe Hkeys. rewrite (CostBenefitModel_calculate_run _ _ _ Hfe).
  unfold bind, weighted_sum.
  destruct (weighted_sum_run (cost_table (params s) (or_empty adj))
              (deref (or_params_mode_share ms) s) 0 s)
    as [[_ [v Hv]] | [k [Hin [Hnone _]]]].
  - rewrite Hv. eexists. split; [reflexivity | split; reflexivity].
  - exfalso. rewrite Forall_forall in Hkeys.
    apply (proj1 (lookup_cost_table (params s) (or_empty adj) k) (Hkeys k Hin)).
    exact Hnone.
Qed.

Lemma CostBenefitModel_calculate_raises ms adj s :
  ~ ParameterSet.fuel_efficiency_km_per_liter (params s) == 0 ->
  ~ Forall canonical (Dict.keys (deref (or_params_mode_share ms) s)) ->
  exists k,
    In k (Dict.keys (deref (or_params_mode_share ms) s)) /\ ~ canonical k
    /\ CostBenefitModel.calculate ms adj s = (inl (KeyError k), s).
Proof.
  intros Hfe Hkeys. rewrite (CostBenefitModel_calculate_run _ _ _ Hfe).
  unfold bind, weighted_sum.
  destruct (weighted_sum_run (cost_table (params s) (or_empty adj))
              (deref (or_params_mode_share ms) s) 0 s)
    as [[Hall _] | [k [Hin [Hnone Hr]]]].
  - exfalso. apply Hkeys. rewrite Forall_forall in *. intros k Hk.
    apply (lookup_cost_table (params s) (or_empty adj)). auto.
  - exists k. split; [exact Hin | split].
    + intro Hc. apply (lookup_cost_table (params s) (or_empty adj)) in Hc. auto.
    + rewrite Hr. reflexivity.
Qed.

Lemma CostBenefitModel_calculate_zero_efficiency ms adj s :
  ParameterSet.fuel_efficiency_km_per_liter (params s) == 0 ->
  CostBenefitModel.calculate ms adj s = (inl ZeroDivisionError, s).
Proof.
  intro H. apply eq_true in H.
  unfold CostBenefitModel.calculate.
  cbv beta iota delta [bind param gets div]. rewrite H. reflexivity.
Qed.

(** C10.  For a parameter set whose fuel efficiency is not zero,
    [CostBenefitModel.calculate] raises [KeyError] whenever the mode-share
    mapping it is given has a mode outside the four canonical ones (the
    key of the error is such a mode of the mapping), and returns
    whenever all the modes of the mapping are canonical (for the empty
    mapping, which makes it fall back on the parameter set's own mode
    share: whenever those modes are).  Whatever the fuel efficiency, it
    raises no [KeyError] in the latter case. *)
Theorem cost_raises_key_error_iff_unknown_mode
    (s : Store) (mode_share : dict Q) (adj : option (dict Q)) :
  (~ ParameterSet.fuel_efficiency_km_per_liter (params s) == 0 ->
   (exists k, In k (Dict.keys mode_share) /\ ~ canonical k) ->
   exists k,
     In k (Dict.keys mode_share) /\ ~ canonical k
     /\ CostBenefitModel.calculate (Some mode_share) adj s = (inl (KeyError k), s))
  /\ (~ ParameterSet.fuel_efficiency_km_per_liter (params s) == 0 ->
      Forall canonical (Dict.keys mode_share) ->
      (mode_share = [] ->
       Forall canonical (Dict.keys (ParameterSet.mode_share (params s)))) ->
      exists r, CostBenefitModel.calculate (Some mode_share) adj s = (inr r, s))
  /\ (Forall canonical (Dict.keys mode_share) ->
      (mode_share = [] ->
       Forall canonical (Dict.keys (ParameterSet.mode_share (params s)))) ->
      forall k,
        fst (CostBenefitModel.calculate (Some mode_share) adj s) <> inl (KeyError k)).
Proof.
  assert (Hreturns :
    ~ ParameterSet.fuel_efficiency_km_per_liter (params s) == 0 ->
    Forall canonical (Dict.keys mode_share) ->
    (mode_share = [] ->
     Forall canonical (Dict.keys (ParameterSet.mode_share (params s)))) ->
    exists r, CostBenefitModel.calculate (Some mode_share) adj s = (inr r, s)).
  { intros Hfe Hall Hempty.
    destruct (CostBenefitModel_calculate_returns (Some mode_share) adj s Hfe)
      as [r [Hr _]].
    - destruct mode_share as [| kv d]; simpl; [apply Hempty; reflexivity | exact Hall].
    - exists r. exact Hr. }
  split; [| split; [exact Hreturns |]].
  - intros Hfe [k [Hin Hk]].
    destruct mode_share as [| kv d]; [destruct Hin |].
    apply (CostBenefitModel_calculate_raises (Some (kv :: d)) adj s Hfe).
    simpl. intro Hall. rewrite Forall_forall in Hall. exact (Hk (Hall k Hin)).
  - intros Hall Hempty k.
    destruct (Qeq_dec (ParameterSet.fuel_efficiency_km_per_liter (params s)) 0)
      as [Hz | Hfe].
    + rewrite (CostBenefitModel_calculate_zero_efficiency _ _ _ Hz). discriminate.
    + destruct (Hreturns Hfe Hall Hempty) as [r ->]. discriminate.
Qed.

Lemma cost_raises_key_error_iff_unknown_mode_witness :
  (exists k,
     CostBenefitModel.calculate (Some [("private_car", 0.5); ("tram", 0.5)]) None
       (PolicySimulator.init None)
     = (inl (KeyError k), PolicySimulator.init None))
  /\ (exists r,
        CostBenefitModel.calculate (Some [("private_car", 0.5); ("motorcycle", 0.5)])
          None (PolicySimulator.init None)
        = (inr r, PolicySimulator.init None))
  /\ (forall k,
        fst (CostBenefitModel.calculate
               (Some [("private_car", 0.5); ("motorcycle", 0.5)]) None
               (PolicySimulator.init None)) <> inl (KeyError k)).
Proof.
  assert (Hfe : ~ ParameterSet.fuel_efficiency_km_per_liter
                    (params (PolicySimulator.init None)) == 0)
    by (intro E; vm_compute in E; discriminate E).
  split; [| split].
  - destruct (proj1 (cost_raises_key_error_iff_unknown_mode
                       (PolicySimulator.init None)
                       [("private_car", 0.5); ("tram", 0.5)] None) Hfe)
      as [k [_ [_ Hk]]].
    + exists "tram". split; [right; left; reflexivity |].
      intro Hc. vm_compute in Hc.
      repeat (destruct Hc as [Hc | Hc]; [discriminate Hc |]). exact Hc.
    + exists k. exact Hk.
  - apply (proj1 (proj2 (cost_raises_key_error_iff_unknown_mode
                           (PolicySimulator.init None)
                           [("private_car", 0.5); ("motorcycle", 0.5)] None)) Hfe).
    + canonical_keys.
    + discriminate.
  - apply (proj2 (proj2 (cost_raises_key_error_iff_unknown_mode
                           (PolicySimulator.init None)
                           [("private_car", 0.5); ("motorcycle", 0.5)] None))).
    + canonical_keys.
    + discriminate.
Defined.

(** C10 as stated fails.  With a fuel efficiency of zero the fuel cost
    raises [ZeroDivisionError] before the weighted sum is reached: a
    mapping with the unknown mode [tram] raises no [KeyError], and a
    mapping of canonical modes raises.  The empty mapping has no mode
    outside the four, yet [calculate] then falls back on the mode share
    of the parameter set, where a mode [tram] raises [KeyError]. *)
Lemma cost_raises_other_than_for_unknown_modes :
  ~ canonical "tram"
  /\ CostBenefitModel.calculate (Some [("tram", 1)]) None
       (PolicySimulator.init
          (Some (ParameterSet.mk 1000000 2500000 [("private_car", 1)] 12 35 1.3 0 1.2
                   1.5 8 [("private_car", 0.21)])))
     = (inl ZeroDivisionError,
        PolicySimulator.init
          (Some (ParameterSet.mk 1000000 2500000 [("private_car", 1)] 12 35 1.3 0 1.2
                   1.5 8 [("private_car", 0.21)])))
  /\ Forall canonical (Dict.keys ([("private_car", 1)] : dict Q))
  /\ CostBenefitModel.calculate (Some [("private_car", 1)]) None
       (PolicySimulator.init
          (Some (ParameterSet.mk 1000000 2500000 [("private_car", 1)] 12 35 1.3 0 1.2
                   1.5 8 [("private_car", 0.21)])))
     = (inl ZeroDivisionError,
        PolicySimulator.init
          (Some (ParameterSet.mk 1000000 2500000 [("private_car", 1)] 12 35 1.3 0 1.2
                   1.5 8 [("private_car", 0.21)])))
  /\ Forall canonical (Dict.keys ([] : dict Q))
  /\ CostBenefitModel.calculate (Some []) None
       (PolicySimulator.init
          (Some (ParameterSet.mk 1000000 2500000 [("tram", 1)] 12 35 1.3 12 1.2 1.5 8
                   [])))
     = (inl (KeyError "tram"),
        PolicySimulator.init
          (Some (ParameterSet.mk 1000000 2500000 [("tram", 1)] 12 35 1.3 12 1.2 1.5 8
                   []))).
Proof.
  split.
  { intro Hc. vm_compute in Hc.
    repeat (destruct Hc as [Hc | Hc]; [discriminate Hc |]). exact Hc. }
  split; [vm_compute; reflexivity |].
  split; [canonical_keys |].
  split; [vm_compute; reflexivity |].
  split; [apply Forall_nil |].
  vm_compute. reflexivity.
Qed.

(** C8.  In [CostBenefitModel.calculate] the public-transit entry of
    [cost_by_mode] is, to the cent it is rounded to, the fare
    [base * (1 - pt_subsidy_percent/100)] plus the time cost
    [avg_trip_time_minutes * 1.3 * value_of_time], for every subsidy
    from 0 to 100: a subsidy of 100 leaves only the time cost, a
    subsidy of 0 leaves the base fare.  The fare, the wage and the trip
    time are taken up to 10^6, where the floating-point evaluation
    stays within the same cent, and every number [calculate] reads is
    of moderate size. *)
Theorem transit_fare_follows_subsidy
    (s : Store) (mode_share adj : option (dict Q)) :
  let base := ParameterSet.public_transit_fare (params s) in
  let subsidy := Dict.get (or_empty adj) "pt_subsidy_percent" 0 in
  let value_of_time := ParameterSet.avg_hourly_wage (params s) * 0.5 / 60 in
  let time_cost :=
    ParameterSet.avg_trip_time_minutes (params s) * 1.3 * value_of_time in
  ~ ParameterSet.fuel_efficiency_km_per_liter (params s) == 0 ->
  Forall canonical (Dict.keys (deref (or_params_mode_share mode_share) s)) ->
  moderate_parameters (params s) ->
  moderate_mapping (deref (or_params_mode_share mode_share) s) ->
  moderate (Dict.get (or_empty adj) "fuel_tax_percent" 0) ->
  0 <= base -> base <= 1000000 ->
  0 <= ParameterSet.avg_hourly_wage (params s) ->
  ParameterSet.avg_hourly_wage (params s) <= 1000000 ->
  0 <= ParameterSet.avg_trip_time_minutes (params s) ->
  ParameterSet.avg_trip_time_minutes (params s) <= 1000000 ->
  0 <= subsidy -> subsidy <= 100 ->
  exists r cost,
    CostBenefitModel.calculate mode_share adj s = (inr r, s)
    /\ Dict.lookup (CostResult.cost_by_mode r) "public_transit" = Some cost
    /\ Qabs (cost - (base * (1 - subsidy / 100) + time_cost)) <= 0.01
    /\ (subsidy == 100 ->
        base * (1 - subsidy / 100) == 0 /\ Qabs (cost - time_cost) <= 0.01)
    /\ (subsidy == 0 ->
        base * (1 - subsidy / 100) == base
        /\ Qabs (cost - (base + time_cost)) <= 0.01).
Proof.
  intros base subsidy value_of_time time_cost Hfe Hkeys _ _ _ _ _ _ _ _ _ _ _.
  destruct (CostBenefitModel_calculate_returns mode_share adj s Hfe Hkeys)
    as [r [Hr [Htable _]]].
  exists r, (Py.round (base * (1 - subsidy / 100) + time_cost) 2).
  split; [exact Hr |]. split.
  { rewrite Htable. unfold cost_table. simpl Dict.lookup. reflexivity. }
  pose proof (round_within_cent (base * (1 - subsidy / 100) + time_cost)) as Hcent.
  set (cost := Py.round (base * (1 - subsidy / 100) + time_cost) 2) in *.
  clearbody cost.
  split; [exact Hcent |]. split; intro E.
  - assert (E0 : base * (1 - subsidy / 100) == 0) by (rewrite E; field).
    split; [exact E0 |]. rewrite E0 in Hcent.
    assert (E1 : cost - (0 + time_cost) == cost - time_cost) by ring.
    rewrite <- E1. exact Hcent.
  - assert (E0 : base * (1 - subsidy / 100) == base) by (rewrite E; field).
    split; [exact E0 |]. rewrite E0 in Hcent. exact Hcent.
Qed.

Lemma transit_fare_follows_subsidy_witness :
  exists r cost,
    CostBenefitModel.calculate None (Some [("pt_subsidy_percent", 100)])
      (PolicySimulator.init None) = (inr r, PolicySimulator.init None)
    /\ Dict.lookup (CostResult.cost_by_mode r) "public_transit" = Some cost
    /\ Qabs (cost - 35.0 * 1.3 * (8.00 * 0.5 / 60)) <= 0.01.
Proof.
  assert (Hfe : ~ ParameterSet.fuel_efficiency_km_per_liter
                    (params (PolicySimulator.init None)) == 0)
    by (intro E; vm_compute in E; discriminate E).
  assert (Hkeys : Forall canonical
            (Dict.keys (deref (or_params_mode_share None) (PolicySimulator.init None))))
    by canonical_keys.
  destruct (transit_fare_follows_subsidy (PolicySimulator.init None) None
              (Some [("pt_subsidy_percent", 100)]) Hfe Hkeys)
    as [r [cost [Hr [Hcost [_ [H100 _]]]]]]; try discriminate;
    try solve [moderate_numbers].
  exists r, cost. split; [exact Hr |]. split; [exact Hcost |].
  apply H100. reflexivity.
Defined.

(** *** The government cost *)

Lemma Forall_canonical_dec ks : {Forall canonical ks} + {~ Forall canonical ks}.
Proof. apply Forall_dec. exact canonical_dec. Qed.

(** Whatever the parameter set, a [CostResult] that
    [CostBenefitModel.calculate] returns holds the government cost of
    the mode share it iterated. *)
Lemma CostBenefitModel_calculate_inv ms adj s r :
  fst (CostBenefitModel.calculate ms adj s) = inr r ->
  CostResult.government_cost_per_year r =
  Py.round
    (ParameterSet.daily_trips (params s)
     * Dict.get (deref (or_params_mode_share ms) s) "public_transit" 0.2
     * (ParameterSet.public_transit_fare (params s)
        * Dict.get (or_empty adj) "pt_subsidy_percent" 0 / 100)
     * 365) 2.
Proof.
  intro H.
  destruct (Qeq_dec (ParameterSet.fuel_efficiency_km_per_liter (params s)) 0)
    as [Hz | Hfe].
  - rewrite (CostBenefitModel_calculate_zero_efficiency _ _ _ Hz) in H.
    discriminate H.
  - destruct (Forall_canonical_dec (Dict.keys (deref (or_params_mode_share ms) s)))
      as [Hk | Hk].
    + destruct (CostBenefitModel_calculate_returns ms adj s Hfe Hk)
        as [r' [Hr' [_ Hg]]].
      rewrite Hr' in H. simpl in H. injection H as <-. exact Hg.
    + destruct (CostBenefitModel_calculate_raises ms adj s Hfe Hk)
        as [k [_ [_ Hr']]].
      rewrite Hr' in H. discriminate H.
Qed.

(** C1, as the code has it.  [government_cost_per_year] is, to the
    cent it is rounded to, [daily_trips] times the public-transit share
    of the mode share that [calculate] is given (0.2 when that mapping
    has no such entry; the parameter set's own mode share when none or
    an empty one is given) times [subsidy_per_trip] times 365; and
    [PolicySimulator.simulate] gives [calculate] the projected shares,
    so the figure of a simulation follows the shifted share.  The
    ranges (up to 10^7 daily trips, a fare up to 100, a subsidy from 0
    to 100, a share of magnitude 10 at most) are those within which the
    floating-point evaluation stays within the same cent; [calculate]
    is taken on numbers of moderate size. *)
Theorem government_cost_uses_given_share
    (s : Store) (mode_share adj : option (dict Q)) :
  let daily_trips := ParameterSet.daily_trips (params s) in
  let fare := ParameterSet.public_transit_fare (params s) in
  let subsidy := Dict.get (or_empty adj) "pt_subsidy_percent" 0 in
  let figure share := daily_trips * share * (fare * subsidy / 100) * 365 in
  0 <= daily_trips -> daily_trips <= 10000000 ->
  0 <= fare -> fare <= 100 ->
  0 <= subsidy -> subsidy <= 100 ->
  (~ ParameterSet.fuel_efficiency_km_per_liter (params s) == 0 ->
   Forall canonical (Dict.keys (deref (or_params_mode_share mode_share) s)) ->
   moderate_parameters (params s) ->
   moderate_mapping (deref (or_params_mode_share mode_share) s) ->
   moderate (Dict.get (or_empty adj) "fuel_tax_percent" 0) ->
   let share :=
     Dict.get (deref (or_params_mode_share mode_share) s) "public_transit" 0.2 in
   -10 <= share -> share <= 10 ->
   exists r,
     CostBenefitModel.calculate mode_share adj s = (inr r, s)
     /\ Qabs (CostResult.government_cost_per_year r - figure share) <= 0.01)
  /\ (forall r,
        fst (PolicySimulator.simulate adj s) = inr r ->
        let projected :=
          ModeShareResult.projected_shares (SimulationResult.mode_share r) in
        let share :=
          Dict.get (deref (or_params_mode_share (Some projected)) s)
            "public_transit" 0.2 in
        -10 <= share -> share <= 10 ->
        Qabs (CostResult.government_cost_per_year (SimulationResult.cost r)
              - figure share) <= 0.01).
Proof.
  intros daily_trips fare subsidy figure _ _ _ _ _ _. split.
  - intros Hfe Hk _ _ _ share _ _.
    destruct (CostBenefitModel_calculate_returns mode_share adj s Hfe Hk)
      as [r [Hr [_ Hg]]].
    exists r. split; [exact Hr |]. rewrite Hg. apply round_within_cent.
  - intros r Hr projected share _ _.
    destruct (simulate_pipeline adj s r Hr) as [_ [_ [Hc _]]].
    fold projected in Hc.
    apply (f_equal fst) in Hc. simpl in Hc.
    apply CostBenefitModel_calculate_inv in Hc. rewrite Hc.
    apply round_within_cent.
Qed.

Lemma government_cost_uses_given_share_witness :
  (exists r,
     CostBenefitModel.calculate
       (Some [("private_car", 0.5); ("public_transit", 0.5)])
       (Some [("pt_subsidy_percent", 50)]) (PolicySimulator.init None)
     = (inr r, PolicySimulator.init None)
     /\ Qabs (CostResult.government_cost_per_year r
              - 2500000 * 0.5 * (1.50 * 50 / 100) * 365) <= 0.01)
  /\ (exists r,
        fst (PolicySimulator.simulate (Some [("pt_subsidy_percent", 50)])
               (PolicySimulator.init None)) = inr r
        /\ Qabs (CostResult.government_cost_per_year (SimulationResult.cost r)
                 - 2500000 * 0.2468 * (1.50 * 50 / 100) * 365) <= 0.01).
Proof.
  split.
  - apply (proj1 (government_cost_uses_given_share (PolicySimulator.init None)
                    (Some [("private_car", 0.5); ("public_transit", 0.5)])
                    (Some [("pt_subsidy_percent", 50)])
                    ltac:(discriminate) ltac:(discriminate) ltac:(discriminate)
                    ltac:(discriminate) ltac:(discriminate) ltac:(discriminate))).
    + intro E; vm_compute in E; discriminate E.
    + canonical_keys.
    + moderate_numbers.
    + moderate_numbers.
    + moderate_numbers.
    + discriminate.
    + discriminate.
  - destruct (fst (PolicySimulator.simulate (Some [("pt_subsidy_percent", 50)])
                     (PolicySimulator.init None))) as [e | r] eqn:E.
    + vm_compute in E. discriminate E.
    + exists r. split; [reflexivity |].
      pose proof (proj2 (government_cost_uses_given_share (PolicySimulator.init None)
                           None (Some [("pt_subsidy_percent", 50)])
                           ltac:(discriminate) ltac:(discriminate) ltac:(discriminate)
                           ltac:(discriminate) ltac:(discriminate) ltac:(discriminate))
                    r E) as H.
      vm_compute in E. injection E as <-.
      apply H; discriminate.
Defined.

(** C1 as stated fails.  With the default parameters and a 50 % subsidy
    the simulation's government cost is 168,903,750, the figure of the
    projected public-transit share 0.2468, not the 136,875,000 of the
    baseline share 0.20; and two calls of [calculate] that differ only in
    the mode share they are given, the baseline one and the projected
    one, return different government costs. *)
Lemma government_cost_not_from_baseline_share :
  (exists r,
     PolicySimulator.simulate (Some [("pt_subsidy_percent", 50)])
       (PolicySimulator.init None) = (inr r, PolicySimulator.init None)
     /\ Dict.lookup
          (ModeShareResult.projected_shares (SimulationResult.mode_share r))
          "public_transit" = Some 0.2468
     /\ CostResult.government_cost_per_year (SimulationResult.cost r) == 168903750
     /\ Dict.get (ParameterSet.mode_share DEFAULT_PARAMS) "public_transit" 0
        * ParameterSet.daily_trips DEFAULT_PARAMS
        * (ParameterSet.public_transit_fare DEFAULT_PARAMS * 50 / 100) * 365
        == 136875000
     /\ ~ CostResult.government_cost_per_year (SimulationResult.cost r)
          == Dict.get (ParameterSet.mode_share DEFAULT_PARAMS) "public_transit" 0
             * ParameterSet.daily_trips DEFAULT_PARAMS
             * (ParameterSet.public_transit_fare DEFAULT_PARAMS * 50 / 100) * 365)
  /\ (exists r1 r2,
        CostBenefitModel.calculate (Some (ParameterSet.mode_share DEFAULT_PARAMS))
          (Some [("pt_subsidy_percent", 50)]) (PolicySimulator.init None)
        = (inr r1, PolicySimulator.init None)
        /\ CostBenefitModel.calculate
             (Some [("private_car", 0.3933); ("motorcycle", 0.2571);
                    ("public_transit", 0.2468); ("walking_cycling", 0.1028)])
             (Some [("pt_subsidy_percent", 50)]) (PolicySimulator.init None)
           = (inr r2, PolicySimulator.init None)
        /\ CostResult.government_cost_per_year r1 == 136875000
        /\ CostResult.government_cost_per_year r2 == 168903750
        /\ ~ CostResult.government_cost_per_year r1
             == CostResult.government_cost_per_year r2).
Proof.
  split.
  - eexists. split; [vm_compute; reflexivity |].
    split; [reflexivity |].
    split; [reflexivity | split; [reflexivity |]].
    intro E. vm_compute in E. discriminate E.
  - do 2 eexists. split; [vm_compute; reflexivity |].
    split; [vm_compute; reflexivity |].
    split; [reflexivity | split; [reflexivity |]].
    intro E. vm_compute in E. discriminate E.
Qed.

(** ** EmissionsModel.calculate *)

(** What one turn of the emissions loop adds for a mode: only
    [private_car] has its emission factor divided by the occupancy. *)
Lemma EmissionsModel_calculate_body_run
    (s : Store) (daily_trips avg_distance : Q) (co2_by_mode : dict Q)
    (total_co2 : Q) (mode : string) (share : Q) :
  EmissionsModel.calculate_body daily_trips avg_distance ParamsEmissionFactors
    (co2_by_mode, total_co2) (mode, share) s =
  let ef := Dict.get (ParameterSet.emission_factors (params s)) mode 0.0 in
  let occupancy := ParameterSet.avg_vehicle_occupancy (params s) in
  let distance := daily_trips * share * avg_distance in
  if String.eqb mode "private_car"
  then
    if Py.eq occupancy 0 then (inl ZeroDivisionError, s)
    else (inr (Dict.set co2_by_mode mode (Py.round (distance * (ef / occupancy)) 2),
               total_co2 + distance * (ef / occupancy)), s)
  else (inr (Dict.set co2_by_mode mode (Py.round (distance * ef) 2),
             total_co2 + distance * ef), s).
Proof.
  unfold EmissionsModel.calculate_body.
  cbv beta iota zeta delta [bind dict_get gets param deref div].
  destruct (String.eqb mode "private_car").
  - cbv beta iota delta [bind gets].
    destruct (Py.eq (ParameterSet.avg_vehicle_occupancy (params s)) 0); reflexivity.
  - reflexivity.
Qed.

(** C4.  With the default parameter set and the baseline mode share,
    [EmissionsModel.calculate] yields 3,230,769.23 kg of CO2 per day,
    within one kilogram of 3,230,769: the private-car term uses the
    emission factor 0.21 divided by the occupancy 1.3, the other terms
    their emission factor as it is. *)
Theorem baseline_emissions_golden_value :
  (exists r,
     EmissionsModel.calculate (Some (ParameterSet.mode_share DEFAULT_PARAMS))
       (PolicySimulator.init None) = (inr r, PolicySimulator.init None)
     /\ EmissionsResult.total_co2_kg_per_day r == 3230769.23
     /\ Qabs (EmissionsResult.total_co2_kg_per_day r - 3230769) < 1
     /\ EmissionsResult.total_co2_kg_per_day r
        = Py.round (2500000 * 0.45 * 12.0 * (0.21 / 1.3)
                    + 2500000 * 0.25 * 12.0 * 0.10
                    + 2500000 * 0.20 * 12.0 * 0.05
                    + 2500000 * 0.10 * 12.0 * 0.00) 2
     /\ same_shares (EmissionsResult.co2_by_mode r)
          [ ("private_car", Py.round (2500000 * 0.45 * 12.0 * (0.21 / 1.3)) 2);
            ("motorcycle", Py.round (2500000 * 0.25 * 12.0 * 0.10) 2);
            ("public_transit", Py.round (2500000 * 0.20 * 12.0 * 0.05) 2);
            ("walking_cycling", Py.round (2500000 * 0.10 * 12.0 * 0.00) 2) ])
  /\ (forall s daily_trips avg_distance co2_by_mode total_co2 mode share,
        EmissionsModel.calculate_body daily_trips avg_distance ParamsEmissionFactors
          (co2_by_mode, total_co2) (mode, share) s =
        let ef := Dict.get (ParameterSet.emission_factors (params s)) mode 0.0 in
        let occupancy := ParameterSet.avg_vehicle_occupancy (params s) in
        let distance := daily_trips * share * avg_distance in
        if String.eqb mode "private_car"
        then
          if Py.eq occupancy 0 then (inl ZeroDivisionError, s)
          else (inr (Dict.set co2_by_mode mode
                       (Py.round (distance * (ef / occupancy)) 2),
                     total_co2 + distance * (ef / occupancy)), s)
        else (inr (Dict.set co2_by_mode mode (Py.round (distance * ef) 2),
                   total_co2 + distance * ef), s)).
Proof.
  split; [| exact EmissionsModel_calculate_body_run].
  eexists. split; [vm_compute; reflexivity |].
  split; [reflexivity |].
  split; [reflexivity |].
  split; [vm_compute; reflexivity |].
  repeat constructor.
Qed.


(** ** ModeShareModel.calculate *)

(** *** Dictionaries keep their keys *)

Lemma lookup_in_keys {V} (d : dict V) k :
  In k (Dict.keys d) <-> Dict.lookup d k <> None.
Proof.
  induction d as [| [k' v] d IH]; simpl.
  - split; [intros [] | congruence].
  - destruct (String.eqb_spec k k') as [-> | NE].
    + split; [discriminate | auto].
    + rewrite <- IH. split; [intros [E | H]; [congruence | exact H] | auto].
Qed.

Lemma keys_set_present {V} (d : dict V) k v :
  Dict.lookup d k <> None -> Dict.keys (Dict.set d k v) = Dict.keys d.
Proof.
  induction d as [| [k' v'] d IH]; simpl.
  - congruence.
  - destruct (String.eqb_spec k k') as [-> | NE]; simpl.
    + reflexivity.
    + intro H. f_equal. apply IH. exact H.
Qed.

Lemma keys_map_values {V W} (f : V -> W) (d : dict V) :
  Dict.keys (Dict.map_values f d) = Dict.keys d.
Proof.
  unfold Dict.keys, Dict.map_values. rewrite map_map. reflexivity.
Qed.

Lemma values_map_values {V W} (f : V -> W) (d : dict V) :
  Dict.values (Dict.map_values f d) = map f (Dict.values d).
Proof.
  unfold Dict.values, Dict.map_values. rewrite !map_map. reflexivity.
Qed.

Lemma keys_normalize d : Dict.keys (ModeShareModel.normalize d) = Dict.keys d.
Proof.
  unfold ModeShareModel.normalize.
  destruct (Py.lt 0 (Py.sum (Dict.values d))); [apply keys_map_values | reflexivity].
Qed.

Lemma keys_round_shares d : Dict.keys (ModeShareModel.round_shares d) = Dict.keys d.
Proof. apply keys_map_values. Qed.

(** *** The two elasticity loops keep the modes of the baseline *)

Lemma own_price_body_keys baseline projected item s :
  keeps_modes baseline projected ->
  ensures (ModeShareModel.own_price_body (Local baseline) projected item) s
    (keeps_modes baseline).
Proof.
  intros [p [-> Hk]]. destruct item as [mode price_change].
  unfold ModeShareModel.own_price_body.
  destruct (Py.ne price_change 0);
    [| apply ensures_ret; exists p; split; [reflexivity | exact Hk]].
  apply (ensures_bind _ _ _ (fun _ => True));
    [apply ensures_reads_only; auto with frame | intros table _].
  apply (ensures_bind _ _ _ (fun _ => True));
    [apply ensures_reads_only; auto with frame | intros elasticity _].
  apply (ensures_bind _ _ _ (fun base => Dict.lookup baseline mode = Some base)).
  - unfold dict_getitem, bind, gets, deref, getitem.
    destruct (Dict.lookup baseline mode) as [b |];
      [apply ensures_ret; reflexivity | apply ensures_raise].
  - intros base Hb. apply ensures_ret. eexists. split; [reflexivity |].
    rewrite keys_set_present; [exact Hk |].
    apply lookup_in_keys. rewrite Hk. apply lookup_in_keys. congruence.
Qed.

Lemma cross_price_body_keys baseline price_changes projected item s :
  keeps_modes baseline projected ->
  ensures (ModeShareModel.cross_price_body price_changes projected item) s
    (keeps_modes baseline).
Proof.
  intros [p [-> Hk]]. destruct item as [[mode_a mode_b] cross_e].
  unfold ModeShareModel.cross_price_body.
  destruct (Py.ne (Dict.get price_changes mode_b 0) 0);
    [| apply ensures_ret; exists p; split; [reflexivity | exact Hk]].
  apply (ensures_bind _ _ _ (fun _ => True));
    [apply ensures_reads_only; auto with frame | intros change_b _].
  apply (ensures_bind _ _ _ (fun old => Dict.lookup p mode_a = Some old)).
  - unfold dict_getitem, bind, gets, deref, getitem.
    destruct (Dict.lookup p mode_a) as [old |];
      [apply ensures_ret; reflexivity | apply ensures_raise].
  - intros old Ho. apply ensures_ret. eexists. split; [reflexivity |].
    rewrite keys_set_present; [exact Hk | congruence].
Qed.

Lemma shifted_shares_keys policy baseline s :
  ensures
    (ModeShareModel.shifted_shares policy (Local baseline) (Local baseline)) s
    (keeps_modes baseline).
Proof.
  unfold ModeShareModel.shifted_shares.
  apply (ensures_bind _ _ _ (fun _ => True));
    [apply ensures_reads_only; apply reads_only_price_changes | intros changes _].
  apply (ensures_bind _ _ _ (keeps_modes baseline)).
  - apply for_each_invariant.
    + intros acc x. apply own_price_body_keys.
    + exists baseline. split; reflexivity.
  - intros projected Hp.
    apply (ensures_bind _ _ _ (fun pairs => True));
      [apply ensures_reads_only; auto with frame | intros pairs _].
    apply for_each_invariant; [| exact Hp].
    intros acc x. apply cross_price_body_keys.
Qed.

(** *** The shift percentages *)

Lemma shift_loop_returns baseline projected modes shift s :
  (forall k, In k modes -> Dict.lookup baseline k <> None) ->
  (forall k, In k modes -> Dict.lookup projected k <> None) ->
  exists shift',
    for_each modes (ModeShareModel.shift_body (Local baseline) projected) shift s
    = (inr shift', s).
Proof.
  revert shift. induction modes as [| mode modes IH]; intros shift Hb Hp.
  - eexists. reflexivity.
  - rewrite for_each_cons.
    assert (Hstep : exists shift1,
               ModeShareModel.shift_body (Local baseline) projected shift mode s
               = (inr shift1, s)).
    { unfold ModeShareModel.shift_body.
      cbv beta iota delta [bind getitem dict_getitem gets deref].
      destruct (Dict.lookup baseline mode) as [base |] eqn:Eb;
        [| exfalso; apply (Hb mode); [left; reflexivity | exact Eb]].
      cbv beta iota delta [ret].
      destruct (Py.lt 0 base); [| eexists; reflexivity].
      cbv beta iota delta [bind getitem].
      destruct (Dict.lookup projected mode) as [proj |] eqn:Ep;
        [| exfalso; apply (Hp mode); [left; reflexivity | exact Ep]].
      eexists. reflexivity. }
    destruct Hstep as [shift1 ->].
    apply IH; intros k Hk; [apply Hb | apply Hp]; right; exact Hk.
Qed.

(** [calculate] returns as soon as the elasticity loops do, with their
    shares normalised and rounded. *)
Lemma ModeShareModel_calculate_returns adj s shifted :
  ModeShareModel.shifted_shares (or_empty adj)
    (Local (ParameterSet.mode_share (params s)))
    (Local (ParameterSet.mode_share (params s))) s
  = (inr (Local shifted), s) ->
  exists r,
    ModeShareModel.calculate adj s = (inr r, s)
    /\ ModeShareResult.baseline_shares r = ParameterSet.mode_share (params s)
    /\ ModeShareResult.projected_shares r
       = ModeShareModel.round_shares (ModeShareModel.normalize shifted)
    /\ Dict.keys shifted = Dict.keys (ParameterSet.mode_share (params s)).
Proof.
  intro Hs.
  assert (Hk : Dict.keys shifted = Dict.keys (ParameterSet.mode_share (params s))).
  { destruct (shifted_shares_keys (or_empty adj)
                (ParameterSet.mode_share (params s)) s) as [_ Hr].
    destruct (Hr (Local shifted)) as [d [E Hd]]; [rewrite Hs; reflexivity |].
    injection E as ->. exact Hd. }
  unfold ModeShareModel.calculate.
  cbv beta iota zeta delta [bind dict_copy dict_items gets deref].
  rewrite Hs. cbv beta iota.
  destruct (shift_loop_returns (ParameterSet.mode_share (params s))
              (ModeShareModel.round_shares (ModeShareModel.normalize shifted))
              (Dict.keys (ParameterSet.mode_share (params s))) [] s)
    as [shift Hshift].
  - intros k Hin. apply lookup_in_keys. exact Hin.
  - intros k Hin. apply lookup_in_keys.
    rewrite keys_round_shares, keys_normalize, Hk. exact Hin.
  - rewrite Hshift. eexists. split; [reflexivity |].
    split; [reflexivity | split; [reflexivity | exact Hk]].
Qed.

(** *** Normalising and rounding *)

Lemma sum_map_div l t :
  ~ t == 0 -> Py.sum (map (fun v => v / t) l) == Py.sum l / t.
Proof.
  intro Ht. induction l as [| x l IH]; simpl map.
  - rewrite sum_nil. field. exact Ht.
  - rewrite !sum_cons, IH. field. exact Ht.
Qed.

Lemma length_as_number {X} (x : X) l :
  inject_Z (Z.of_nat (List.length (x :: l)))
  == inject_Z (Z.of_nat (List.length l)) + 1.
Proof.
  simpl List.length. rewrite Nat2Z.inj_succ. unfold Z.succ.
  rewrite inject_Z_plus. reflexivity.
Qed.

(** Rounding every term moves a sum by at most half a unit of the
    last decimal per term. *)
Lemma sum_map_round l n :
  Qabs (Py.sum (map (fun v => Py.round v n) l) - Py.sum l)
  <= inject_Z (Z.of_nat (List.length l)) * (1 # (2 * Py.pow10 n)).
Proof.
  induction l as [| x l IH].
  - change (Py.sum (map (fun v => Py.round v n) [])) with 0.
    change (Py.sum []) with 0.
    change (inject_Z (Z.of_nat (List.length (@nil Q)))) with 0.
    apply Qabs_Qle_condition. split; lra.
  - simpl map. rewrite length_as_number, !sum_cons.
    pose proof (round_near x n) as Hx.
    apply Qabs_Qle_condition in Hx. apply Qabs_Qle_condition in IH.
    apply Qabs_Qle_condition. split; lra.
Qed.

Lemma sum_normalize d :
  0 < Py.sum (Dict.values d) ->
  Py.sum (Dict.values (ModeShareModel.normalize d)) == 1.
Proof.
  intro H. unfold ModeShareModel.normalize.
  rewrite (proj2 (lt_true _ _) H).
  rewrite values_map_values, sum_map_div by lra.
  field. lra.
Qed.

Lemma length_keys {V} (d : dict V) : List.length (Dict.keys d) = List.length d.
Proof. apply length_map. Qed.

Lemma length_values {V} (d : dict V) : List.length (Dict.values d) = List.length d.
Proof. apply length_map. Qed.

(** Whenever the elasticity loops return shares whose total is
    positive, [calculate] returns; the normalised shares sum to 1
    exactly, and the projected shares, which are their roundings to 4
    decimals, sum to 1 within 0.00005 per mode of the parameter set:
    within 0.0002 for four modes. *)
Lemma normalized_rounded_shares_sum
    (s : Store) (adj : option (dict Q)) (shifted : dict Q) :
  ModeShareModel.shifted_shares (or_empty adj)
    (Local (ParameterSet.mode_share (params s)))
    (Local (ParameterSet.mode_share (params s))) s
  = (inr (Local shifted), s) ->
  0 < Py.sum (Dict.values shifted) ->
  exists r,
    ModeShareModel.calculate adj s = (inr r, s)
    /\ ModeShareResult.projected_shares r
       = ModeShareModel.round_shares (ModeShareModel.normalize shifted)
    /\ Py.sum (Dict.values (ModeShareModel.normalize shifted)) == 1
    /\ Qabs (Py.sum (Dict.values (ModeShareResult.projected_shares r)) - 1)
       <= inject_Z (Z.of_nat (List.length (ParameterSet.mode_share (params s))))
          * 0.00005
    /\ (List.length (ParameterSet.mode_share (params s)) = 4%nat ->
        Qabs (Py.sum (Dict.values (ModeShareResult.projected_shares r)) - 1)
        <= 0.0002).
Proof.
  intros Hs Htotal.
  destruct (ModeShareModel_calculate_returns adj s shifted Hs)
    as [r [Hr [_ [Hp Hkeys]]]].
  pose proof (sum_normalize shifted Htotal) as Hone.
  assert (Hbound :
    Qabs (Py.sum (Dict.values (ModeShareResult.projected_shares r)) - 1)
    <= inject_Z (Z.of_nat (List.length (ParameterSet.mode_share (params s))))
       * 0.00005).
  { rewrite Hp. unfold ModeShareModel.round_shares. rewrite values_map_values.
    pose proof (sum_map_round (Dict.values (ModeShareModel.normalize shifted)) 4)
      as Hround.
    rewrite length_values, <- length_keys, keys_normalize, Hkeys, length_keys
      in Hround.
    assert (E : (1 # 2 * Py.pow10 4) == 0.00005) by reflexivity.
    rewrite E in Hround.
    apply Qabs_Qle_condition in Hround. apply Qabs_Qle_condition.
    split; lra. }
  exists r. split; [exact Hr |]. split; [exact Hp |]. split; [exact Hone |].
  split; [exact Hbound |].
  intro H4. rewrite H4 in Hbound.
  apply Qabs_Qle_condition in Hbound. apply Qabs_Qle_condition.
  change (inject_Z (Z.of_nat 4)) with 4 in Hbound. split; lra.
Qed.

(** *** The default parameter set in closed form *)

Ltac run_model :=
  cbv beta iota zeta delta
    [for_each bind ret gets getitem dict_getitem dict_setitem deref fst snd
     ModeShareModel.own_price_body ModeShareModel.cross_price_body
     Dict.lookup Dict.set Dict.get String.eqb Ascii.eqb Bool.eqb
     elasticities cross_elasticities PolicySimulator.init
     ModeShareModel.init_elasticities ModeShareModel.init_cross_elasticities].

(** The two loops on the default parameter set, for price changes
    [car], [fuel] and [transit] of private car, motorcycle and public
    transit. *)
Lemma elasticity_loops_default (car fuel transit : Q) :
  let changes : dict Q :=
    [("private_car", car); ("motorcycle", fuel);
     ("public_transit", transit); ("walking_cycling", 0)] in
  let baseline : dict Q :=
    [("private_car", 0.45); ("motorcycle", 0.25);
     ("public_transit", 0.20); ("walking_cycling", 0.10)] in
  exists shifted,
    (projected <-
       for_each changes (ModeShareModel.own_price_body (Local baseline))
         (Local baseline) ;;
     pairs <- gets cross_elasticities ;;
     for_each pairs (ModeShareModel.cross_price_body changes) projected)
      (PolicySimulator.init None)
    = (inr (Local shifted), PolicySimulator.init None)
    /\ same_shares shifted
         [ ("private_car", 0.45 * (1 + -0.3 * car) * (1 + 0.3 * transit));
           ("motorcycle", 0.25 * (1 + -0.4 * fuel));
           ("public_transit", 0.20 * (1 + -0.4 * transit) * (1 + 0.2 * car));
           ("walking_cycling", 0.10) ].
Proof.
  intros changes baseline. subst changes baseline.
  assert (Hwalk : Py.ne 0 0 = false) by reflexivity.
  destruct (Py.ne car 0) eqn:Ecar; destruct (Py.ne fuel 0) eqn:Efuel;
    destruct (Py.ne transit 0) eqn:Etransit;
    do 4 (run_model; rewrite ?Ecar, ?Efuel, ?Etransit, ?Hwalk);
    (eexists; split; [reflexivity |]);
    try apply ne_false in Ecar; try apply ne_false in Efuel;
    try apply ne_false in Etransit;
    repeat (apply Forall2_cons; [split; [reflexivity |] |]);
    try apply Forall2_nil; cbv beta iota delta [snd];
    try rewrite Ecar; try rewrite Efuel; try rewrite Etransit; ring.
Qed.

Lemma shifted_shares_default policy :
  exists shifted,
    ModeShareModel.shifted_shares policy
      (Local (ParameterSet.mode_share DEFAULT_PARAMS))
      (Local (ParameterSet.mode_share DEFAULT_PARAMS))
      (PolicySimulator.init None) = (inr (Local shifted), PolicySimulator.init None)
    /\ same_shares shifted (default_shifted policy).
Proof.
  unfold ModeShareModel.shifted_shares, ModeShareModel.price_changes,
    default_shifted, car_price_change.
  change (ParameterSet.mode_share DEFAULT_PARAMS)
    with [("private_car", 0.45); ("motorcycle", 0.25);
          ("public_transit", 0.20); ("walking_cycling", 0.10)].
  assert (Hcp : Py.lt 0 (Dict.get policy "congestion_price" 0) = true ->
                getitem policy "congestion_price"
                = ret (Dict.get policy "congestion_price" 0)).
  { unfold getitem, Dict.get.
    destruct (Dict.lookup policy "congestion_price"); [reflexivity |].
    intro H. vm_compute in H. discriminate H. }
  remember (Dict.get policy "fuel_tax_percent" 0) as ft eqn:Eft.
  remember (Dict.get policy "pt_subsidy_percent" 0) as sub eqn:Esub.
  remember (Dict.get policy "congestion_price" 0) as cp eqn:Ecp.
  clear Eft Esub Ecp.
  destruct (Py.lt 0 cp) eqn:Elt.
  - rewrite (Hcp eq_refl). clear Hcp.
    apply (elasticity_loops_default (ft / 100 + cp * 0.1) (ft / 100) (- sub / 100)).
  - apply (elasticity_loops_default (ft / 100) (ft / 100) (- sub / 100)).
Qed.

Lemma percent_bounds t : 0 <= t -> t <= 100 -> 0 <= t / 100 /\ t / 100 <= 1.
Proof.
  intros H0 H100. assert (E : t == 100 * (t / 100)) by field.
  set (f := t / 100) in *. split; lra.
Qed.

(** *** No policy *)

(** C3.  With the default parameter set and no adjustment (the empty
    map, or none at all), [ModeShareModel.calculate] returns projected
    shares equal to the baseline shares, mode by mode; so does the first
    stage of [simulate]. *)
Theorem no_policy_keeps_baseline_shares :
  exists r,
    ModeShareModel.calculate (Some []) (PolicySimulator.init None)
    = (inr r, PolicySimulator.init None)
    /\ ModeShareModel.calculate None (PolicySimulator.init None)
       = (inr r, PolicySimulator.init None)
    /\ ModeShareResult.baseline_shares r = ParameterSet.mode_share DEFAULT_PARAMS
    /\ same_shares (ModeShareResult.projected_shares r)
         (ModeShareResult.baseline_shares r)
    /\ dict_eqb (ModeShareResult.projected_shares r)
         (ModeShareResult.baseline_shares r) = true
    /\ exists sim,
         PolicySimulator.simulate (Some []) (PolicySimulator.init None)
         = (inr sim, PolicySimulator.init None)
         /\ SimulationResult.mode_share sim = r.
Proof.
  eexists. split; [vm_compute; reflexivity |].
  split; [vm_compute; reflexivity |].
  split; [reflexivity |].
  split; [repeat constructor |].
  split; [vm_compute; reflexivity |].
  eexists. split; [vm_compute; reflexivity | reflexivity].
Qed.

(** *** The sum of the projected shares *)

Lemma sum_same_shares d1 d2 :
  same_shares d1 d2 -> Py.sum (Dict.values d1) == Py.sum (Dict.values d2).
Proof.
  induction 1 as [| a b d1 d2 [_ Hv] _ IH].
  - reflexivity.
  - change (Dict.values (a :: d1)) with (snd a :: Dict.values d1).
    change (Dict.values (b :: d2)) with (snd b :: Dict.values d2).
    rewrite !sum_cons, Hv, IH. reflexivity.
Qed.

(** The levers of the mode-share model within the ranges the policy
    catalogue documents. *)
Lemma default_total_positive policy :
  levers_in_range policy ->
  0 < Py.sum (Dict.values (default_shifted policy)).
Proof.
  intros [[Hf0 Hf100] [[Hs0 Hs100] [Hc0 Hc50]]].
  unfold default_shifted, car_price_change.
  change (Dict.values ?d) with (map snd d). cbv beta iota delta [map snd].
  rewrite sum_four.
  destruct (percent_bounds _ Hf0 Hf100) as [Hf Hf'].
  destruct (percent_bounds _ Hs0 Hs100) as [Hs Hs'].
  assert (Et : - Dict.get policy "pt_subsidy_percent" 0 / 100
               == - (Dict.get policy "pt_subsidy_percent" 0 / 100)) by field.
  rewrite Et.
  set (f := Dict.get policy "fuel_tax_percent" 0 / 100) in *.
  set (u := Dict.get policy "pt_subsidy_percent" 0 / 100) in *.
  set (cp := Dict.get policy "congestion_price" 0) in *.
  clearbody f u cp.
  assert (Hcar : forall car, 0 <= car -> car <= 6 ->
            0 < 0.45 * (1 + -0.3 * car) * (1 + 0.3 * - u)
                + 0.25 * (1 + -0.4 * f)
                + 0.20 * (1 + -0.4 * - u) * (1 + 0.2 * car) + 0.10).
  { intros car H0 H6.
    assert (E : 0.45 * (1 + -0.3 * car) * (1 + 0.3 * - u)
                + 0.25 * (1 + -0.4 * f)
                + 0.20 * (1 + -0.4 * - u) * (1 + 0.2 * car) + 0.10
                == 1 - 0.055 * u - 0.1 * f - car * (0.095 - 0.0565 * u)) by ring.
    rewrite E.
    assert (Hw : 0 <= 0.095 - 0.0565 * u) by lra.
    assert (Hw' : 0.095 - 0.0565 * u <= 0.095) by lra.
    assert (Hp : car * (0.095 - 0.0565 * u) <= 6 * 0.095) by nra.
    lra. }
  destruct (Py.lt 0 cp); apply Hcar; lra.
Qed.

(** C2, as the code has it.  Whenever the elasticity loops return
    shares whose total is positive, [calculate] returns, the normalised
    shares sum to 1 exactly, and the projected shares, which are their
    roundings to 4 decimals, sum to 1 within 0.00005 per mode of the
    parameter set, that is within 0.0002 for four modes.  For the default
    parameter set the total is positive for every fuel tax and transit
    subsidy in [0, 100] and congestion price in [0, 50]. *)
Theorem projected_shares_sum_near_one :
  (forall (s : Store) (adj : option (dict Q)) (shifted : dict Q),
     ModeShareModel.shifted_shares (or_empty adj)
       (Local (ParameterSet.mode_share (params s)))
       (Local (ParameterSet.mode_share (params s))) s
     = (inr (Local shifted), s) ->
     0 < Py.sum (Dict.values shifted) ->
     exists r,
       ModeShareModel.calculate adj s = (inr r, s)
       /\ ModeShareResult.projected_shares r
          = ModeShareModel.round_shares (ModeShareModel.normalize shifted)
       /\ Py.sum (Dict.values (ModeShareModel.normalize shifted)) == 1
       /\ Qabs (Py.sum (Dict.values (ModeShareResult.projected_shares r)) - 1)
          <= inject_Z (Z.of_nat (List.length (ParameterSet.mode_share (params s))))
             * 0.00005)
  /\ (forall adj : dict Q,
        levers_in_range adj ->
        exists r,
          ModeShareModel.calculate (Some adj) (PolicySimulator.init None)
          = (inr r, PolicySimulator.init None)
          /\ Qabs (Py.sum (Dict.values (ModeShareResult.projected_shares r)) - 1)
             <= 0.0002).
Proof.
  split.
  - intros s adj shifted Hs Htotal.
    destruct (normalized_rounded_shares_sum s adj shifted Hs Htotal)
      as [r [Hr [Hp [Hone [Hbound _]]]]].
    exists r. auto.
  - intros adj Hrange.
    destruct (shifted_shares_default adj) as [shifted [Hs Hsame]].
    destruct (normalized_rounded_shares_sum (PolicySimulator.init None) (Some adj)
                shifted Hs) as [r [Hr [_ [_ [_ H4]]]]].
    + rewrite (sum_same_shares _ _ Hsame). apply default_total_positive. exact Hrange.
    + exists r. split; [exact Hr | apply H4; reflexivity].
Qed.

Lemma projected_shares_sum_near_one_witness :
  (exists r,
     ModeShareModel.calculate (Some [("congestion_price", 104)])
       (PolicySimulator.init None) = (inr r, PolicySimulator.init None)
     /\ Qabs (Py.sum (Dict.values (ModeShareResult.projected_shares r)) - 1)
        <= 4 * 0.00005)
  /\ (exists r,
        ModeShareModel.calculate (Some [("fuel_tax_percent", 10)])
          (PolicySimulator.init None) = (inr r, PolicySimulator.init None)
        /\ Qabs (Py.sum (Dict.values (ModeShareResult.projected_shares r)) - 1)
           <= 0.0002).
Proof.
  split.
  - edestruct (proj1 projected_shares_sum_near_one (PolicySimulator.init None)
                 (Some [("congestion_price", 104)]))
      as [r [Hr [_ [_ H]]]].
    + vm_compute. reflexivity.
    + vm_compute. reflexivity.
    + exists r. split; [exact Hr | exact H].
  - apply (proj2 projected_shares_sum_near_one [("fuel_tax_percent", 10)]).
    repeat split; discriminate.
Defined.

(** C2 as stated fails.  With the default parameter set, a fuel tax of
    10 % gives rounded shares 0.4452, 0.2448, 0.2081 and 0.1020, whose
    sum is 1.0001; and a congestion price of 200 makes the total of the
    shifted shares negative, so that they are not normalised and sum to
    -0.9. *)
Lemma projected_shares_sum_off_one :
  (exists r,
     ModeShareModel.calculate (Some [("fuel_tax_percent", 10)])
       (PolicySimulator.init None) = (inr r, PolicySimulator.init None)
     /\ Py.sum (Dict.values (ModeShareResult.projected_shares r)) == 1.0001
     /\ ~ Qabs (Py.sum (Dict.values (ModeShareResult.projected_shares r)) - 1)
          <= 0.000001)
  /\ (exists r,
        ModeShareModel.calculate (Some [("congestion_price", 200)])
          (PolicySimulator.init None) = (inr r, PolicySimulator.init None)
        /\ Py.sum (Dict.values (ModeShareResult.projected_shares r)) == -0.9
        /\ ~ Qabs (Py.sum (Dict.values (ModeShareResult.projected_shares r)) - 1)
             <= 0.000001).
Proof.
  split; eexists; (split; [vm_compute; reflexivity |]);
    (split; [reflexivity |]); intro H; apply H; reflexivity.
Qed.

(** *** The private-car share under a fuel tax *)

Lemma car_price_change_fuel_tax_only adj t :
  fuel_tax_only adj t -> car_price_change adj == t / 100.
Proof.
  intros [Hf [_ Hc]]. unfold car_price_change.
  rewrite (proj2 (lt_false 0 (Dict.get adj "congestion_price" 0))) by lra.
  rewrite Hf. reflexivity.
Qed.

(** The projected private-car share of four shifted shares whose total
    is positive. *)
Lemma projected_car_share v1 v2 v3 v4 :
  0 < v1 + v2 + v3 + v4 ->
  Dict.lookup
    (ModeShareModel.round_shares
       (ModeShareModel.normalize
          [("private_car", v1); ("motorcycle", v2);
           ("public_transit", v3); ("walking_cycling", v4)]))
    "private_car"
  = Some (Py.round (v1 / (v1 + v2 + v3 + v4)) 4).
Proof.
  intro H. unfold ModeShareModel.normalize.
  change (Dict.values [("private_car", v1); ("motorcycle", v2);
                       ("public_transit", v3); ("walking_cycling", v4)])
    with [v1; v2; v3; v4].
  assert (Hlt : Py.lt 0 (Py.sum [v1; v2; v3; v4]) = true)
    by (apply lt_true; rewrite sum_four; exact H).
  rewrite Hlt. simpl. f_equal.
  apply round_compat; [| reflexivity].
  rewrite sum_four. reflexivity.
Qed.

(** Before rounding the share falls by at least 0.0004725 per percent
    of fuel tax. *)
Lemma car_share_under_fuel_tax_slope t1 t2 :
  0 <= t1 -> t1 <= t2 -> t2 <= 100 ->
  car_share_under_fuel_tax t2 + 0.0004725 * (t2 - t1)
  <= car_share_under_fuel_tax t1.
Proof.
  intros H0 H12 H100. unfold car_share_under_fuel_tax.
  assert (E1 : t1 == 100 * (t1 / 100)) by field.
  assert (E2 : t2 == 100 * (t2 / 100)) by field.
  set (f1 := t1 / 100) in *. set (f2 := t2 / 100) in *.
  set (d1 := 1 - 0.195 * f1). set (d2 := 1 - 0.195 * f2).
  assert (Hd1 : 0 < d1) by (unfold d1; lra).
  assert (Hd2 : 0 < d2) by (unfold d2; lra).
  assert (Hd1' : d1 <= 1) by (unfold d1; lra).
  assert (Hd2' : d2 <= 1) by (unfold d2; lra).
  assert (E : 0.45 * (1 - 0.3 * f1) / d1 - 0.45 * (1 - 0.3 * f2) / d2
              == 0.04725 * (f2 - f1) / (d1 * d2)).
  { unfold d1, d2. field. split; lra. }
  clearbody d1 d2.
  assert (Hprod : 0 < d1 * d2) by nra.
  assert (Hprod' : d1 * d2 <= 1) by nra.
  assert (Hgap : 0 <= f2 - f1) by lra.
  assert (Hge : 0.04725 * (f2 - f1) <= 0.04725 * (f2 - f1) / (d1 * d2)).
  { apply Qle_shift_div_l; [exact Hprod |]. nra. }
  lra.
Qed.

(** C5, as the code has it.  With the default parameter set and the
    fuel tax as the only lever, the projected private-car share is,
    to the fourth decimal it is rounded to,
    [0.45 (1 - 0.3 t/100) / (1 - 0.195 t/100)].  That quotient decreases
    strictly as [t] grows over [0, 100]; the returned share is no higher
    at the higher of two taxes that are at least a thousandth of a
    percent apart (closer taxes can sit on either side of a rounding
    boundary in floating point), and it is strictly lower when they are
    at least one percent apart. *)
Theorem car_share_never_increases_with_fuel_tax
    (adj1 adj2 : dict Q) (t1 t2 : Q) :
  fuel_tax_only adj1 t1 -> fuel_tax_only adj2 t2 ->
  0 <= t1 -> t1 < t2 -> t2 <= 100 ->
  exists r1 r2 c1 c2,
    ModeShareModel.calculate (Some adj1) (PolicySimulator.init None)
    = (inr r1, PolicySimulator.init None)
    /\ ModeShareModel.calculate (Some adj2) (PolicySimulator.init None)
       = (inr r2, PolicySimulator.init None)
    /\ Dict.lookup (ModeShareResult.projected_shares r1) "private_car" = Some c1
    /\ Dict.lookup (ModeShareResult.projected_shares r2) "private_car" = Some c2
    /\ Qabs (c1 - car_share_under_fuel_tax t1) <= 0.0001
    /\ Qabs (c2 - car_share_under_fuel_tax t2) <= 0.0001
    /\ car_share_under_fuel_tax t2 < car_share_under_fuel_tax t1
    /\ (t1 + 0.001 <= t2 -> c2 <= c1)
    /\ (t1 + 1 <= t2 -> c2 < c1).
Proof.
  intros Ha1 Ha2 H0 H12 H100.
  assert (Hshare : forall adj t, fuel_tax_only adj t -> 0 <= t -> t <= 100 ->
            exists r,
              ModeShareModel.calculate (Some adj) (PolicySimulator.init None)
              = (inr r, PolicySimulator.init None)
              /\ Dict.lookup (ModeShareResult.projected_shares r) "private_car"
                 = Some (Py.round (car_share_under_fuel_tax t) 4)).
  { intros adj t Ha Ht0 Ht100.
    pose proof (car_price_change_fuel_tax_only adj t Ha) as Hcar.
    destruct Ha as [Hf [Hs _]].
    destruct (shifted_shares_default adj) as [shifted [Hrun Hsame]].
    destruct (ModeShareModel_calculate_returns (Some adj) (PolicySimulator.init None)
                shifted Hrun) as [r [Hr [_ [Hp _]]]].
    exists r. split; [exact Hr |]. rewrite Hp.
    unfold default_shifted in Hsame.
    inversion Hsame as [| [k1 v1] b1 l1 l1' [Hk1 Hv1] Hsame1]; subst; clear Hsame.
    inversion Hsame1 as [| [k2 v2] b2 l2 l2' [Hk2 Hv2] Hsame2]; subst; clear Hsame1.
    inversion Hsame2 as [| [k3 v3] b3 l3 l3' [Hk3 Hv3] Hsame3]; subst; clear Hsame2.
    inversion Hsame3 as [| [k4 v4] b4 l4 l4' [Hk4 Hv4] Hsame4]; subst; clear Hsame3.
    inversion Hsame4; subst; clear Hsame4.
    simpl in Hk1, Hk2, Hk3, Hk4, Hv1, Hv2, Hv3, Hv4. subst k1 k2 k3 k4.
    rewrite Hcar, Hs in Hv1. rewrite Hf in Hv2. rewrite Hcar, Hs in Hv3.
    assert (Htotal : v1 + v2 + v3 + v4 == 1 - 0.195 * (t / 100))
      by (rewrite Hv1, Hv2, Hv3, Hv4; field).
    destruct (percent_bounds t Ht0 Ht100) as [Hf0 Hf1].
    rewrite projected_car_share by (rewrite Htotal; lra).
    f_equal. apply round_compat; [| reflexivity].
    unfold car_share_under_fuel_tax. rewrite Htotal, Hv1. field. lra. }
  destruct (Hshare adj1 t1 Ha1) as [r1 [Hr1 Hc1]]; [lra | lra |].
  destruct (Hshare adj2 t2 Ha2) as [r2 [Hr2 Hc2]]; [lra | lra |].
  pose proof (car_share_under_fuel_tax_slope t1 t2) as Hslope.
  exists r1, r2, (Py.round (car_share_under_fuel_tax t1) 4),
    (Py.round (car_share_under_fuel_tax t2) 4).
  repeat (split; [assumption || reflexivity |]).
  split; [exact (round_within _ 4) |].
  split; [exact (round_within _ 4) |].
  split; [lra |]. split.
  - intros _. apply round_mono. lra.
  - intro Hgap. apply round_strict.
    assert (E : (1 # Py.pow10 4) == 0.0001) by reflexivity.
    rewrite E. lra.
Qed.

Lemma car_share_never_increases_with_fuel_tax_witness :
  exists r1 r2 c1 c2,
    ModeShareModel.calculate (Some [("fuel_tax_percent", 10)])
      (PolicySimulator.init None) = (inr r1, PolicySimulator.init None)
    /\ ModeShareModel.calculate (Some [("fuel_tax_percent", 30)])
         (PolicySimulator.init None) = (inr r2, PolicySimulator.init None)
    /\ Dict.lookup (ModeShareResult.projected_shares r1) "private_car" = Some c1
    /\ Dict.lookup (ModeShareResult.projected_shares r2) "private_car" = Some c2
    /\ c2 < c1.
Proof.
  destruct (car_share_never_increases_with_fuel_tax
              [("fuel_tax_percent", 10)] [("fuel_tax_percent", 30)] 10 30)
    as [r1 [r2 [c1 [c2 [H1 [H2 [H3 [H4 [_ [_ [_ [_ H5]]]]]]]]]]]].
  - repeat split; reflexivity.
  - repeat split; reflexivity.
  - discriminate.
  - reflexivity.
  - discriminate.
  - exists r1, r2, c1, c2. repeat (split; [assumption |]).
    apply H5. discriminate.
Defined.

(** C5 as stated fails.  With the default parameter set, fuel taxes of
    0 % and 0.01 % both give a projected private-car share of 0.4500:
    the shares differ before rounding, not after. *)
Lemma car_share_not_strictly_decreasing :
  exists r1 r2 c1 c2,
    0 <= 0 /\ 0 < 0.01 /\ 0.01 <= 100
    /\ ModeShareModel.calculate (Some [("fuel_tax_percent", 0)])
         (PolicySimulator.init None) = (inr r1, PolicySimulator.init None)
    /\ ModeShareModel.calculate (Some [("fuel_tax_percent", 0.01)])
         (PolicySimulator.init None) = (inr r2, PolicySimulator.init None)
    /\ Dict.lookup (ModeShareResult.projected_shares r1) "private_car" = Some c1
    /\ Dict.lookup (ModeShareResult.projected_shares r2) "private_car" = Some c2
    /\ ~ c2 < c1.
Proof.
  do 4 eexists.
  split; [discriminate |]. split; [reflexivity |]. split; [discriminate |].
  split; [vm_compute; reflexivity |].
  split; [vm_compute; reflexivity |].
  split; [reflexivity |]. split; [reflexivity |].
  intro H. discriminate H.
Qed.

(** ** The overall score *)

(** C6 fails on the code.  With the default parameter set a congestion
    price of 100 makes the private-car share 0.45 (1 - 0.3 * 10) = -0.9;
    the total 0.05 is positive, the normalised shares are -18, 5, 12 and
    2, the per-trip CO2 is negative, the emissions sub-score is above 1
    ([max(0, .)] clips from below only) and the overall score is 159.8.
    A congestion price of 200 makes the total negative: the shares are left
    as they are, the user cost is negative too, the Gini index of the
    negative burdens is negative, the equity score is 1.331 and the
    overall score is 128.1. *)
Theorem overall_score_above_100 :
  (exists r,
     PolicySimulator.simulate (Some [("congestion_price", 100)])
       (PolicySimulator.init None) = (inr r, PolicySimulator.init None)
     /\ Dict.lookup
          (ModeShareResult.projected_shares (SimulationResult.mode_share r))
          "private_car" = Some (Py.round (-18) 4)
     /\ EmissionsResult.per_trip_co2_kg (SimulationResult.emissions r) == -21.6923
     /\ 1 < Py.max 0
               (1 - EmissionsResult.per_trip_co2_kg (SimulationResult.emissions r) / 5)
     /\ SimulationResult.overall_score r == 159.8
     /\ ~ SimulationResult.overall_score r <= 100)
  /\ (exists r,
        PolicySimulator.simulate (Some [("congestion_price", 200)])
          (PolicySimulator.init None) = (inr r, PolicySimulator.init None)
        /\ Dict.lookup
             (ModeShareResult.projected_shares (SimulationResult.mode_share r))
             "private_car" = Some (Py.round (-2.25) 4)
        /\ EmissionsResult.per_trip_co2_kg (SimulationResult.emissions r) == -3.4615
        /\ CostResult.user_cost_per_trip (SimulationResult.cost r) == -2.34
        /\ EquityResult.equity_score (SimulationResult.equity r) == 1.331
        /\ SimulationResult.overall_score r == 128.1
        /\ ~ SimulationResult.overall_score r <= 100).
Proof.
  split; (eexists; split; [vm_compute; reflexivity |]);
    repeat (split; [reflexivity |]); intro H; apply H; reflexivity.
Qed.

(** * Further properties of the code *)

(** ** EquityModel._calculate_gini *)

(** [sorted] returns the values it was given, in ascending order. *)
Lemma insert_perm x xs : Permutation (Py.insert x xs) (x :: xs).
Proof.
  induction xs as [| y ys IH]; simpl.
  - apply Permutation_refl.
  - destruct (Py.lt x y).
    + apply Permutation_refl.
    + apply perm_trans with (y :: x :: ys).
      * apply perm_skip. exact IH.
      * apply perm_swap.
Qed.

Lemma sorted_from_perm xs acc :
  Permutation (fold_left (fun acc x => Py.insert x acc) xs acc) (xs ++ acc)%list.
Proof.
  revert acc. induction xs as [| x xs IH]; intro acc; simpl.
  - apply Permutation_refl.
  - apply perm_trans with (xs ++ Py.insert x acc)%list; [apply IH |].
    apply perm_trans with (xs ++ x :: acc)%list.
    + apply Permutation_app_head. apply insert_perm.
    + apply Permutation_sym. apply Permutation_middle.
Qed.

Lemma sorted_perm xs : Permutation (Py.sorted xs) xs.
Proof.
  unfold Py.sorted. rewrite <- (app_nil_r xs) at 2. apply sorted_from_perm.
Qed.

Lemma insert_ascending x xs :
  StronglySorted Qle xs -> StronglySorted Qle (Py.insert x xs).
Proof.
  induction 1 as [| y ys Hs IH Hy]; simpl.
  - constructor; constructor.
  - destruct (Py.lt x y) eqn:E.
    + apply lt_true in E. constructor.
      * constructor; assumption.
      * constructor; [lra |].
        eapply Forall_impl; [| exact Hy]. intros z Hz. simpl in Hz. lra.
    + apply lt_false in E. constructor; [exact IH |].
      apply (Permutation_Forall (Permutation_sym (insert_perm x ys))).
      constructor; assumption.
Qed.

Lemma sorted_ascending xs : StronglySorted Qle (Py.sorted xs).
Proof.
  unfold Py.sorted.
  assert (H : forall acc, StronglySorted Qle acc ->
              StronglySorted Qle (fold_left (fun acc x => Py.insert x acc) xs acc)).
  { induction xs as [| x xs IH]; intros acc Hacc; simpl.
    - exact Hacc.
    - apply IH. apply insert_ascending. exact Hacc. }
  apply H. constructor.
Qed.

Lemma sum_perm xs ys : Permutation xs ys -> Py.sum xs == Py.sum ys.
Proof.
  induction 1 as [| x xs ys _ IH | x y xs | xs ys zs _ IH1 _ IH2].
  - reflexivity.
  - rewrite !sum_cons, IH. reflexivity.
  - rewrite !sum_cons. ring.
  - rewrite IH1. exact IH2.
Qed.

(** [numpy.cumsum]: the running totals, their sum and the last one. *)
Lemma sum_cumsum_from a xs :
  Py.sum (Py.cumsum_from a xs)
  == inject_Z (Z.of_nat (List.length xs)) * a + Py.sum (Py.cumsum xs).
Proof.
  unfold Py.cumsum. revert a.
  induction xs as [| x xs IH]; intro a.
  - cbn [Py.cumsum_from List.length]. change (inject_Z (Z.of_nat 0)) with 0.
    rewrite sum_nil. ring.
  - cbn [Py.cumsum_from]. rewrite !sum_cons, length_as_number.
    rewrite (IH (a + x)), (IH (0 + x)). ring.
Qed.

Lemma sum_cumsum_cons x xs :
  Py.sum (Py.cumsum (x :: xs))
  == (inject_Z (Z.of_nat (List.length xs)) + 1) * x + Py.sum (Py.cumsum xs).
Proof.
  change (Py.cumsum (x :: xs)) with ((0 + x) :: Py.cumsum_from (0 + x) xs).
  rewrite sum_cons, sum_cumsum_from. ring.
Qed.

Lemma last_cumsum_from a x xs d :
  List.last (Py.cumsum_from a (x :: xs)) d == a + Py.sum (x :: xs).
Proof.
  revert a x. induction xs as [| y ys IH]; intros a x.
  - simpl. rewrite sum_cons, sum_nil. ring.
  - change (Py.cumsum_from a (x :: y :: ys))
      with ((a + x) :: Py.cumsum_from (a + x) (y :: ys)).
    assert (E : forall (h : Q) t, t <> [] -> List.last (h :: t) d = List.last t d).
    { intros h [| t0 t] Ht; [contradiction | reflexivity]. }
    rewrite E by (simpl; discriminate).
    rewrite IH, (sum_cons x). ring.
Qed.

(** In an ascending list the running totals add up to at most
    [(n + 1) / 2] times the total. *)
Lemma least_times_length x xs :
  Forall (Qle x) xs -> inject_Z (Z.of_nat (List.length xs)) * x <= Py.sum xs.
Proof.
  induction 1 as [| y ys Hy _ IH].
  - cbn [List.length]. change (inject_Z (Z.of_nat 0)) with 0. rewrite sum_nil. lra.
  - rewrite length_as_number, sum_cons. lra.
Qed.

Lemma ascending_cumsum_le xs :
  StronglySorted Qle xs ->
  2 * Py.sum (Py.cumsum xs)
  <= (inject_Z (Z.of_nat (List.length xs)) + 1) * Py.sum xs.
Proof.
  induction 1 as [| x xs _ IH Hx].
  - change (Py.cumsum []) with (@nil Q). cbn [List.length].
    change (inject_Z (Z.of_nat 0)) with 0. rewrite sum_nil. lra.
  - rewrite sum_cumsum_cons, length_as_number, sum_cons.
    pose proof (least_times_length x xs Hx).
    set (n := inject_Z (Z.of_nat (List.length xs))) in *. nra.
Qed.

Lemma nonneg_cumsum_ge xs :
  Forall (fun v => 0 <= v) xs -> Py.sum xs <= Py.sum (Py.cumsum xs).
Proof.
  induction 1 as [| x xs Hx _ IH].
  - change (Py.cumsum []) with (@nil Q). lra.
  - rewrite sum_cumsum_cons, sum_cons.
    assert (0 <= inject_Z (Z.of_nat (List.length xs))).
    { change 0 with (inject_Z 0). rewrite <- Zle_Qle. lia. }
    nra.
Qed.

Lemma sum_nonneg xs : Forall (fun v => 0 <= v) xs -> 0 <= Py.sum xs.
Proof.
  induction 1 as [| x xs Hx _ IH]; [rewrite sum_nil | rewrite sum_cons]; lra.
Qed.

(** The value [_calculate_gini] returns, on the sorted values. *)
Lemma gini_run values :
  let sorted := Py.sorted values in
  let n := inject_Z (Z.of_nat (List.length values)) in
  Permutation sorted values /\ StronglySorted Qle sorted
  /\ ((values = [] \/ Py.sum values == 0) /\ EquityModel._calculate_gini values = 0.0
      \/ (0 < n /\ ~ Py.sum values == 0
          /\ EquityModel._calculate_gini values
             == (n + 1 - 2 * Py.sum (Py.cumsum sorted) / Py.sum values) / n)).
Proof.
  intros sorted n.
  pose proof (sorted_perm values) as Hp. pose proof (sorted_ascending values) as Hs.
  fold sorted in Hp, Hs. split; [exact Hp |]. split; [exact Hs |].
  unfold EquityModel._calculate_gini. fold sorted.
  rewrite (Permutation_length Hp). fold n.
  destruct (Nat.eqb (List.length values) 0) eqn:Hn.
  - left. split; [| reflexivity]. left. apply Nat.eqb_eq in Hn.
    destruct values; [reflexivity | discriminate].
  - cbn [orb]. apply Nat.eqb_neq in Hn.
    destruct (Py.eq (Py.sum sorted) 0) eqn:E0.
    + left. apply eq_true in E0. rewrite (sum_perm _ _ Hp) in E0.
      split; [right; exact E0 | reflexivity].
    + right. apply eq_false in E0. rewrite (sum_perm _ _ Hp) in E0.
      assert (Hpos : 0 < n).
      { unfold n. change 0 with (inject_Z 0). rewrite <- Zlt_Qlt. lia. }
      split; [exact Hpos |]. split; [exact E0 |].
      destruct sorted as [| x xs] eqn:Es.
      { apply Permutation_nil in Hp. rewrite Hp in Hn. elim Hn. reflexivity. }
      unfold Py.cumsum. rewrite last_cumsum_from.
      rewrite <- (sum_perm _ _ Hp).
      assert (E : 0 + Py.sum (x :: xs) == Py.sum (x :: xs)) by ring.
      rewrite E. reflexivity.
Qed.

Lemma gini_bounds (values : list Q) :
  Forall (fun v => 0 <= v) values ->
  0 <= EquityModel._calculate_gini values
  /\ EquityModel._calculate_gini values < 1
  /\ (values <> [] ->
      EquityModel._calculate_gini values
      <= 1 - 1 / inject_Z (Z.of_nat (List.length values))).
Proof.
  intro Hnn.
  assert (Hlen : values <> [] -> 1 <= inject_Z (Z.of_nat (List.length values))).
  { intro Hne. change 1 with (inject_Z 1). rewrite <- Zle_Qle.
    destruct values; [contradiction | simpl; lia]. }
  destruct (gini_run values) as [Hp [Hs [[_ ->] | [Hn [HT ->]]]]].
  - split; [discriminate |]. split; [reflexivity |].
    intro Hne. specialize (Hlen Hne).
    set (n := inject_Z (Z.of_nat (List.length values))) in *.
    assert (1 / n <= 1) by (apply Qle_shift_div_r; lra).
    assert (E : (0.0 : Q) == 0) by reflexivity. lra.
  - pose proof (ascending_cumsum_le _ Hs) as Hup.
    pose proof (nonneg_cumsum_ge (Py.sorted values)
                  (Permutation_Forall (Permutation_sym Hp) Hnn)) as Hlo.
    rewrite (Permutation_length Hp), (sum_perm _ _ Hp) in Hup.
    rewrite (sum_perm _ _ Hp) in Hlo.
    pose proof (sum_nonneg values Hnn) as HT0.
    set (n := inject_Z (Z.of_nat (List.length values))) in *.
    set (T := Py.sum values) in *.
    set (S := Py.sum (Py.cumsum (Py.sorted values))) in *.
    assert (HTpos : 0 < T) by (destruct (Qlt_le_dec 0 T); [assumption | exfalso; apply HT; lra]).
    assert (Hq : S == T * (S / T)) by (field; lra).
    set (q := S / T) in *.
    assert (Hq1 : 1 <= q) by nra.
    assert (Hq2 : 2 * q <= n + 1) by nra.
    assert (E1 : 2 * S / T == 2 * q) by (unfold q; field; lra).
    rewrite E1.
    assert (Hupper : (n + 1 - 2 * q) / n <= 1 - 1 / n).
    { assert (E : 1 - 1 / n == (n - 1) / n) by (field; lra).
      rewrite E. apply Qle_shift_div_l; [exact Hn |].
      assert (E' : (n + 1 - 2 * q) / n * n == n + 1 - 2 * q) by (field; lra). lra. }
    assert (Hinv : 0 < 1 / n) by (apply Qlt_shift_div_l; lra).
    split; [apply Qle_shift_div_l; lra |].
    split; [lra | intros _; exact Hupper].
Qed.

(** ** EquityModel.calculate *)

Lemma div_nonzero x y : ~ y == 0 -> div x y = ret (x / y).
Proof. intro H. unfold div. apply eq_false in H. rewrite H. reflexivity. Qed.

Lemma div_zero x y : y == 0 -> div x y = raise ZeroDivisionError.
Proof. intro H. unfold div. apply eq_true in H. rewrite H. reflexivity. Qed.

(** On a simulator as [__init__] builds it, the loop over the five
    income groups fills the two dictionaries group by group. *)
Lemma EquityModel_calculate_run p user_cost ms adj :
  ~ ParameterSet.population p == 0 ->
  ~ ParameterSet.avg_hourly_wage p == 0 ->
  let burdens := per_income_group (burden p user_cost) in
  let gini := EquityModel._calculate_gini (Dict.values burdens) in
  exists r,
    EquityModel.calculate user_cost ms adj (PolicySimulator.init (Some p))
    = (inr r, PolicySimulator.init (Some p))
    /\ EquityResult.burden_by_income r = burdens
    /\ EquityResult.accessibility_by_income r
       = per_income_group (accessibility (or_empty adj))
    /\ EquityResult.gini_index r = Py.round gini 3
    /\ EquityResult.equity_score r = Py.round (1 - gini) 3.
Proof.
  intros Hpop Hwage burdens gini.
  unfold EquityModel.calculate.
  cbv beta iota zeta delta
    [bind param gets params income_groups PolicySimulator.init
     EquityModel.init_income_groups for_each EquityModel.calculate_body
     income_multiplier].
  rewrite (div_nonzero _ _ Hpop). cbv beta iota delta [ret].
  do 5 (rewrite div_nonzero by (intro E; apply Hwage; lra);
        cbv beta iota delta [ret]).
  eexists. split; [reflexivity |].
  repeat split.
Qed.

Lemma inject_Z_sub (x y : Z) : inject_Z (x - y) = inject_Z x - inject_Z y.
Proof. unfold Z.sub. rewrite inject_Z_plus, inject_Z_opp. reflexivity. Qed.

(** Rounding [m - x] for an even integer [m] mirrors the rounding of
    [x]: a tie goes to the even neighbour on both sides. *)
Lemma round_half_even_mirror (m : Z) (x : Q) :
  Z.even m = true ->
  Py.round_half_even (inject_Z m - x) = (m - Py.round_half_even x)%Z.
Proof.
  intro Hm. unfold Py.round_half_even.
  pose proof (Qfloor_le x) as Hlo. pose proof (Qlt_floor x) as Hhi.
  pose proof (Qfloor_le (inject_Z m - x)) as Hlo'.
  pose proof (Qlt_floor (inject_Z m - x)) as Hhi'.
  remember (Qfloor x) as f eqn:Ef. remember (Qfloor (inject_Z m - x)) as f' eqn:Ef'.
  clear Ef Ef'.
  rewrite inject_Z_plus in Hhi, Hhi'. change (inject_Z 1) with 1 in Hhi, Hhi'.
  assert (Hcase : f' = (m - f)%Z \/ f' = (m - f - 1)%Z).
  { assert (H1 : (f' <= m - f)%Z).
    { rewrite Zle_Qle, inject_Z_sub. lra. }
    assert (H2 : (m - f - 1 < f' + 1)%Z).
    { rewrite Zlt_Qlt, inject_Z_plus, !inject_Z_sub. change (inject_Z 1) with 1. lra. }
    lia. }
  destruct Hcase as [-> | ->].
  - rewrite inject_Z_sub in *.
    destruct (Qcompare_spec (x - inject_Z f) (1 # 2)) as [E | E | E];
      destruct (Qcompare_spec (inject_Z m - x - (inject_Z m - inject_Z f)) (1 # 2))
        as [E' | E' | E'];
      try (exfalso; lra); try lia.
  - rewrite !inject_Z_sub in *. change (inject_Z 1) with 1 in *.
    assert (Hpar : Z.even (m - f - 1) = negb (Z.even f)).
    { rewrite !Z.even_sub, Hm. destruct (Z.even f); reflexivity. }
    rewrite Hpar.
    destruct (Qcompare_spec (x - inject_Z f) (1 # 2)) as [E | E | E];
      destruct (Qcompare_spec (inject_Z m - x - (inject_Z m - inject_Z f - 1)) (1 # 2))
        as [E' | E' | E'];
      try (exfalso; lra); try (destruct (Z.even f); simpl; lia); try lia.
Qed.

Lemma round_complement x : Py.round (1 - x) 3 == 1 - Py.round x 3.
Proof.
  rewrite !round_as_quotient.
  assert (E : (1 - x) * inject_Z (Zpos (Py.pow10 3))
              == inject_Z 1000 - x * inject_Z (Zpos (Py.pow10 3))).
  { change (inject_Z (Zpos (Py.pow10 3))) with (inject_Z 1000). ring. }
  rewrite E, round_half_even_mirror by reflexivity.
  rewrite inject_Z_sub.
  change (inject_Z (Zpos (Py.pow10 3))) with (inject_Z 1000).
  set (k := inject_Z (Py.round_half_even (x * inject_Z 1000))).
  assert (E1 : inject_Z 1000 == 1000) by reflexivity. rewrite E1.
  field.
Qed.

Lemma EquityModel_calculate_zero p user_cost ms adj :
  ParameterSet.population p == 0 \/ ParameterSet.avg_hourly_wage p == 0 ->
  EquityModel.calculate user_cost ms adj (PolicySimulator.init (Some p))
  = (inl ZeroDivisionError, PolicySimulator.init (Some p)).
Proof.
  intro Hzero.
  destruct (Qeq_dec (ParameterSet.population p) 0) as [Hpop | Hpop].
  - unfold EquityModel.calculate.
    cbv beta iota zeta delta [bind param gets params PolicySimulator.init].
    rewrite (div_zero _ _ Hpop). reflexivity.
  - destruct Hzero as [Hpop' | Hwage]; [contradiction |].
    unfold EquityModel.calculate.
    cbv beta iota zeta delta
      [bind param gets params income_groups PolicySimulator.init
       EquityModel.init_income_groups for_each EquityModel.calculate_body
       income_multiplier].
    rewrite (div_nonzero _ _ Hpop). cbv beta iota delta [ret].
    rewrite div_zero by (rewrite Hwage; reflexivity). reflexivity.
Qed.

(** X3.  On a simulator as [__init__] builds it, [EquityModel.calculate]
    raises [ZeroDivisionError] exactly when the population or the
    hourly wage of the parameter set is zero (trips per person, and the
    daily income of the first income group, are divisors); it raises
    nothing else.  Otherwise it returns, with one burden and one
    accessibility entry per income group, in the order of
    [self.income_groups].  The accessibility entries depend on nothing
    but the adjustments: another user cost, mode share or parameter set
    gives the same ones.  (Numbers of moderate size.) *)
Theorem equity_raises_iff_population_or_wage_is_zero
    (p : ParameterSet.t) (user_cost : Q) (mode_share adj : option (dict Q)) :
  let s := PolicySimulator.init (Some p) in
  moderate_parameters p -> moderate user_cost ->
  moderate (Dict.get (or_empty adj) "pt_subsidy_percent" 0) ->
  (ParameterSet.population p == 0 \/ ParameterSet.avg_hourly_wage p == 0 ->
   EquityModel.calculate user_cost mode_share adj s = (inl ZeroDivisionError, s))
  /\ (~ ParameterSet.population p == 0 ->
      ~ ParameterSet.avg_hourly_wage p == 0 ->
      exists r,
        EquityModel.calculate user_cost mode_share adj s = (inr r, s)
        /\ Dict.keys (EquityResult.burden_by_income r)
           = ["low"; "lower_middle"; "middle"; "upper_middle"; "high"]
        /\ Dict.keys (EquityResult.accessibility_by_income r)
           = ["low"; "lower_middle"; "middle"; "upper_middle"; "high"]
        /\ forall p' user_cost' mode_share' r',
             fst (EquityModel.calculate user_cost' mode_share' adj
                    (PolicySimulator.init (Some p'))) = inr r' ->
             EquityResult.accessibility_by_income r'
             = EquityResult.accessibility_by_income r).
Proof.
  intros s _ _ _. split.
  - apply EquityModel_calculate_zero.
  - intros Hpop Hwage.
    destruct (EquityModel_calculate_run p user_cost mode_share adj Hpop Hwage)
      as [r [Hr [Hb [Ha _]]]].
    exists r. split; [exact Hr |].
    split; [rewrite Hb; reflexivity |]. split; [rewrite Ha; reflexivity |].
    intros p' user_cost' mode_share' r' Hr'.
    destruct (Qeq_dec (ParameterSet.population p') 0) as [Hpop' | Hpop'].
    { rewrite (EquityModel_calculate_zero p' user_cost' mode_share' adj
                 (or_introl Hpop')) in Hr'. discriminate Hr'. }
    destruct (Qeq_dec (ParameterSet.avg_hourly_wage p') 0) as [Hwage' | Hwage'].
    { rewrite (EquityModel_calculate_zero p' user_cost' mode_share' adj
                 (or_intror Hwage')) in Hr'. discriminate Hr'. }
    destruct (EquityModel_calculate_run p' user_cost' mode_share' adj Hpop' Hwage')
      as [r'' [Hr'' [_ [Ha' _]]]].
    rewrite Hr'' in Hr'. cbn [fst] in Hr'. injection Hr' as <-.
    rewrite Ha, Ha'. reflexivity.
Qed.

Lemma equity_raises_iff_population_or_wage_is_zero_witness :
  EquityModel.calculate 2.5 None None
    (PolicySimulator.init
       (Some (ParameterSet.mk 0 2500000 [("private_car", 1)] 12 35 1.3 12 1.2 1.5 8
                [("private_car", 0.21)])))
  = (inl ZeroDivisionError,
     PolicySimulator.init
       (Some (ParameterSet.mk 0 2500000 [("private_car", 1)] 12 35 1.3 12 1.2 1.5 8
                [("private_car", 0.21)])))
  /\ exists r,
       EquityModel.calculate 2.5 None None (PolicySimulator.init (Some DEFAULT_PARAMS))
       = (inr r, PolicySimulator.init (Some DEFAULT_PARAMS))
       /\ Dict.keys (EquityResult.burden_by_income r)
          = ["low"; "lower_middle"; "middle"; "upper_middle"; "high"].
Proof.
  split.
  - apply (proj1 (equity_raises_iff_population_or_wage_is_zero
                    (ParameterSet.mk 0 2500000 [("private_car", 1)] 12 35 1.3 12 1.2
                       1.5 8 [("private_car", 0.21)]) 2.5 None None
                    ltac:(moderate_numbers) ltac:(moderate_numbers)
                    ltac:(moderate_numbers))).
    left. reflexivity.
  - destruct (proj2 (equity_raises_iff_population_or_wage_is_zero
                       DEFAULT_PARAMS 2.5 None None
                       ltac:(moderate_numbers) ltac:(moderate_numbers)
                       ltac:(moderate_numbers)))
      as [r [Hr [Hk _]]].
    + discriminate.
    + discriminate.
    + exists r. split; [exact Hr | exact Hk].
Defined.

(** What [EquityModel.calculate] returns, when it returns: both
    reported figures are roundings taken from one Gini coefficient,
    that of the burdens it reports. *)
Lemma EquityModel_calculate_inv s user_cost ms adj r :
  fst (EquityModel.calculate user_cost ms adj s) = inr r ->
  let gini := EquityModel._calculate_gini (Dict.values (EquityResult.burden_by_income r)) in
  EquityResult.gini_index r = Py.round gini 3
  /\ EquityResult.equity_score r = Py.round (1 - gini) 3.
Proof.
  assert (H : ensures (EquityModel.calculate user_cost ms adj) s
                (fun r =>
                   let gini :=
                     EquityModel._calculate_gini
                       (Dict.values (EquityResult.burden_by_income r)) in
                   EquityResult.gini_index r = Py.round gini 3
                   /\ EquityResult.equity_score r = Py.round (1 - gini) 3)).
  { unfold EquityModel.calculate.
    do 5 (apply (ensures_bind _ _ _ (fun _ => True));
          [apply ensures_reads_only; auto with frame | intros ? _]).
    apply (ensures_bind _ _ _ (fun _ => True)).
    - apply ensures_reads_only. unfold EquityModel.calculate_body. frame.
    - intros [burdens access] _. apply ensures_ret. split; reflexivity. }
  intro E. exact (proj2 H r E).
Qed.

(** X4.  The two figures [EquityModel.calculate] reports add up to 1:
    [equity_score], the rounding of [1 - gini] to 3 decimals, is 1
    minus [gini_index], the rounding of [gini] to 3 decimals (ties go
    to the even neighbour on both sides; numbers are exact). *)
Theorem equity_score_complements_gini_index
    (s : Store) (user_cost : Q) (mode_share adj : option (dict Q))
    (r : EquityResult.t) :
  fst (EquityModel.calculate user_cost mode_share adj s) = inr r ->
  EquityResult.gini_index r + EquityResult.equity_score r == 1
  /\ EquityResult.gini_index r
     = Py.round
         (EquityModel._calculate_gini (Dict.values (EquityResult.burden_by_income r))) 3.
Proof.
  intro H. destruct (EquityModel_calculate_inv _ _ _ _ _ H) as [Hg He].
  split; [| exact Hg]. rewrite Hg, He, round_complement. ring.
Qed.

Lemma equity_score_complements_gini_index_witness :
  exists r,
    fst (EquityModel.calculate 2.94 None None (PolicySimulator.init None)) = inr r
    /\ EquityResult.gini_index r + EquityResult.equity_score r == 1.
Proof.
  eexists. split; [vm_compute; reflexivity |].
  apply (equity_score_complements_gini_index (PolicySimulator.init None) 2.94 None None).
  vm_compute. reflexivity.
Defined.

Lemma round_zero n : Py.round 0 n == 0.
Proof.
  rewrite round_as_quotient.
  assert (E : 0 * inject_Z (Zpos (Py.pow10 n)) == 0) by ring.
  rewrite E. reflexivity.
Qed.

Lemma round_nonneg x n : 0 <= x -> 0 <= Py.round x n.
Proof. intro H. rewrite <- (round_zero n). apply round_mono. exact H. Qed.

(** The higher the income of a group, the smaller the share of it that
    a non-negative transport cost takes. *)
Lemma burden_antitone p user_cost m1 m2 :
  0 <= user_cost ->
  0 < ParameterSet.population p -> 0 <= ParameterSet.daily_trips p ->
  0 < ParameterSet.avg_hourly_wage p ->
  0 < m1 -> m1 <= m2 ->
  0 <= burden p user_cost m2 /\ burden p user_cost m2 <= burden p user_cost m1.
Proof.
  intros Hu Hpop Htrips Hw Hm1 Hm.
  unfold burden.
  set (w := ParameterSet.avg_hourly_wage p) in *.
  set (c := user_cost * (ParameterSet.daily_trips p / ParameterSet.population p)).
  assert (Hc : 0 <= c).
  { unfold c. apply Qmult_le_0_compat; [exact Hu |].
    apply Qle_shift_div_l; [exact Hpop | lra]. }
  assert (Hd1 : 0 < w * 8 * m1) by nra.
  assert (Hd2 : 0 < w * 8 * m2) by nra.
  assert (Hq2 : 0 <= c / (w * 8 * m2)) by (apply Qle_shift_div_l; lra).
  assert (Hq : c / (w * 8 * m2) <= c / (w * 8 * m1)).
  { apply Qle_shift_div_l; [exact Hd1 |].
    assert (E : c / (w * 8 * m2) * (w * 8 * m1) == c * (m1 / m2)) by (field; lra).
    rewrite E.
    assert (m1 / m2 <= 1) by (apply Qle_shift_div_r; lra).
    assert (0 <= m1 / m2) by (apply Qle_shift_div_l; lra). nra. }
  split; [apply round_nonneg; lra | apply round_mono; lra].
Qed.

(** X5.  With a non-negative user cost, a positive population and
    wage and a non-negative number of trips, the burdens
    [EquityModel.calculate] reports are non-negative and never rise
    from one income group to the next richer one: the transport cost
    weighs most on the lowest incomes. *)
Theorem transport_burden_falls_with_income
    (p : ParameterSet.t) (user_cost : Q) (mode_share adj : option (dict Q)) :
  0 <= user_cost ->
  0 < ParameterSet.population p -> 0 <= ParameterSet.daily_trips p ->
  0 < ParameterSet.avg_hourly_wage p ->
  exists r low lower_middle middle upper_middle high,
    EquityModel.calculate user_cost mode_share adj (PolicySimulator.init (Some p))
    = (inr r, PolicySimulator.init (Some p))
    /\ EquityResult.burden_by_income r
       = [("low", low); ("lower_middle", lower_middle); ("middle", middle);
          ("upper_middle", upper_middle); ("high", high)]
    /\ 0 <= high /\ high <= upper_middle /\ upper_middle <= middle
    /\ middle <= lower_middle /\ lower_middle <= low.
Proof.
  intros Hu Hpop Htrips Hw.
  destruct (EquityModel_calculate_run p user_cost mode_share adj)
    as [r [Hr [Hb _]]]; [lra | lra |].
  exists r. do 5 eexists. split; [exact Hr |]. split; [exact Hb |].
  pose proof (fun m1 m2 => burden_antitone p user_cost m1 m2 Hu Hpop Htrips Hw) as H.
  split; [apply (H 0.4 2.5); [reflexivity | discriminate] |].
  split; [apply (H 1.5 2.5); [reflexivity | discriminate] |].
  split; [apply (H 1.0 1.5); [reflexivity | discriminate] |].
  split; [apply (H 0.7 1.0); [reflexivity | discriminate] |].
  apply (H 0.4 0.7); [reflexivity | discriminate].
Qed.

Lemma transport_burden_falls_with_income_witness :
  exists r low lower_middle middle upper_middle high,
    EquityModel.calculate 2.94 None None (PolicySimulator.init (Some DEFAULT_PARAMS))
    = (inr r, PolicySimulator.init (Some DEFAULT_PARAMS))
    /\ EquityResult.burden_by_income r
       = [("low", low); ("lower_middle", lower_middle); ("middle", middle);
          ("upper_middle", upper_middle); ("high", high)]
    /\ 0 <= high /\ high <= upper_middle /\ upper_middle <= middle
    /\ middle <= lower_middle /\ lower_middle <= low.
Proof.
  apply (transport_burden_falls_with_income DEFAULT_PARAMS 2.94 None None);
    first [discriminate | reflexivity].
Defined.

Lemma EquityModel_calculate_range
    (p : ParameterSet.t) (user_cost : Q) (mode_share adj : option (dict Q)) :
  0 <= user_cost ->
  0 < ParameterSet.population p -> 0 <= ParameterSet.daily_trips p ->
  0 < ParameterSet.avg_hourly_wage p ->
  exists r,
    EquityModel.calculate user_cost mode_share adj (PolicySimulator.init (Some p))
    = (inr r, PolicySimulator.init (Some p))
    /\ 0 <= EquityResult.gini_index r /\ EquityResult.gini_index r <= 0.8
    /\ 0.2 <= EquityResult.equity_score r /\ EquityResult.equity_score r <= 1.
Proof.
  intros Hu Hpop Htrips Hw.
  destruct (EquityModel_calculate_run p user_cost mode_share adj)
    as [r [Hr [Hb [_ [Hg He]]]]]; [lra | lra |].
  exists r. split; [exact Hr |].
  assert (Hnn : Forall (fun v => 0 <= v)
                  (Dict.values (per_income_group (burden p user_cost)))).
  { pose proof (fun m Hm => proj1 (burden_antitone p user_cost 0.4 m Hu Hpop Htrips Hw
                                      eq_refl Hm)) as H.
    repeat (apply Forall_cons; [apply H; discriminate |]).
    apply Forall_nil. }
  destruct (gini_bounds _ Hnn) as [H0 [_ H1]].
  specialize (H1 ltac:(discriminate)).
  change (1 - 1 / inject_Z (Z.of_nat
            (List.length (Dict.values (per_income_group (burden p user_cost))))))
    with (1 - 1 / 5) in H1.
  set (g := EquityModel._calculate_gini
              (Dict.values (per_income_group (burden p user_cost)))) in *.
  assert (Hlo : 0 <= Py.round g 3) by (apply round_nonneg; exact H0).
  assert (Hhi : Py.round g 3 <= 0.8).
  { assert (E : 0.8 == Py.round 0.8 3) by reflexivity.
    rewrite E. apply round_mono.
    assert (E' : 1 - 1 / 5 == 0.8) by reflexivity. lra. }
  rewrite He, Hg, round_complement.
  assert (E2 : (0.2 : Q) == 1 - 0.8) by reflexivity.
  repeat split; lra.
Qed.

(** X6.  Under the same conditions the reported [gini_index] lies
    between 0 and 0.8 and the reported [equity_score] between 0.2 and
    1: the Gini coefficient of five non-negative burdens is at most
    [1 - 1/5]. *)
Theorem equity_score_between_fifth_and_one
    (p : ParameterSet.t) (user_cost : Q) (mode_share adj : option (dict Q)) :
  0 <= user_cost ->
  0 < ParameterSet.population p -> 0 <= ParameterSet.daily_trips p ->
  0 < ParameterSet.avg_hourly_wage p ->
  exists r,
    EquityModel.calculate user_cost mode_share adj (PolicySimulator.init (Some p))
    = (inr r, PolicySimulator.init (Some p))
    /\ 0 <= EquityResult.gini_index r /\ EquityResult.gini_index r <= 0.8
    /\ 0.2 <= EquityResult.equity_score r /\ EquityResult.equity_score r <= 1.
Proof. apply EquityModel_calculate_range. Qed.

Lemma equity_score_between_fifth_and_one_witness :
  exists r,
    EquityModel.calculate 2.94 None None (PolicySimulator.init (Some DEFAULT_PARAMS))
    = (inr r, PolicySimulator.init (Some DEFAULT_PARAMS))
    /\ 0 <= EquityResult.gini_index r /\ EquityResult.gini_index r <= 0.8
    /\ 0.2 <= EquityResult.equity_score r /\ EquityResult.equity_score r <= 1.
Proof.
  apply (equity_score_between_fifth_and_one DEFAULT_PARAMS 2.94 None None);
    first [discriminate | reflexivity].
Defined.
(** ** EfficiencyModel.calculate *)

Lemma weighted_sum_from table items acc s :
  Forall (fun k => Dict.lookup table k <> None) (Dict.keys items) ->
  for_each items (weighted_sum_body table) acc s
  = (inr (fold_left (fun acc item => acc + Dict.get table (fst item) 0 * snd item)
            items acc), s).
Proof.
  revert acc. induction items as [| [k share] items IH]; intros acc H.
  - reflexivity.
  - inversion H as [| k' ks Hk Hks]; subst.
    destruct (Dict.lookup table k) as [entry |] eqn:E; [| contradiction].
    rewrite for_each_cons, (weighted_sum_body_some _ _ _ _ _ _ E).
    rewrite (IH _ Hks). cbn [fold_left fst snd].
    assert (Eg : Dict.get table k 0 = entry) by (unfold Dict.get; rewrite E; reflexivity).
    rewrite Eg. reflexivity.
Qed.

Lemma weighted_sum_returns table items s :
  Forall (fun k => Dict.lookup table k <> None) (Dict.keys items) ->
  weighted_sum table items s = (inr (weighted_average table items), s).
Proof. apply weighted_sum_from. Qed.

Lemma weighted_sum_raises table items s :
  ~ Forall (fun k => Dict.lookup table k <> None) (Dict.keys items) ->
  exists k,
    In k (Dict.keys items) /\ Dict.lookup table k = None
    /\ weighted_sum table items s = (inl (KeyError k), s).
Proof.
  intro H. destruct (weighted_sum_run table items 0 s) as [[Hall _] | Hk].
  - contradiction.
  - exact Hk.
Qed.

Lemma lookup_travel_times cf k :
  canonical k <-> Dict.lookup (travel_times cf) k <> None.
Proof.
  unfold canonical, canonical_modes, travel_times. cbn [Dict.lookup In].
  split.
  - intros [<- | [<- | [<- | [<- | []]]]]; cbn; discriminate.
  - destruct (String.eqb_spec k "private_car"); [auto |].
    destruct (String.eqb_spec k "motorcycle"); [auto |].
    destruct (String.eqb_spec k "public_transit"); [auto |].
    destruct (String.eqb_spec k "walking_cycling"); [auto 6 |].
    intro H. elim H. reflexivity.
Qed.

Lemma lookup_base_times k :
  canonical k <-> Dict.lookup EfficiencyModel.init_base_times k <> None.
Proof.
  unfold canonical, canonical_modes, EfficiencyModel.init_base_times.
  cbn [Dict.lookup In].
  split.
  - intros [<- | [<- | [<- | [<- | []]]]]; cbn; discriminate.
  - destruct (String.eqb_spec k "private_car"); [auto |].
    destruct (String.eqb_spec k "motorcycle"); [auto |].
    destruct (String.eqb_spec k "public_transit"); [auto |].
    destruct (String.eqb_spec k "walking_cycling"); [auto 6 |].
    intro H. elim H. reflexivity.
Qed.


Lemma bind_returns {A B} (c : M A) (f : A -> M B) s a s' :
  c s = (inr a, s') -> bind c f s = f a s'.
Proof. intro H. unfold bind. rewrite H. reflexivity. Qed.

Lemma bind_raises {A B} (c : M A) (f : A -> M B) s e s' :
  c s = (inl e, s') -> bind c f s = (inl e, s').
Proof. intro H. unfold bind. rewrite H. reflexivity. Qed.

(** On a simulator as [__init__] builds it and for a mode share with
    canonical modes only, [EfficiencyModel.calculate] can only fail in
    the throughput quotient. *)
Lemma EfficiencyModel_calculate_canonical p ms cf :
  let s := PolicySimulator.init (Some p) in
  let items := deref (or_params_mode_share ms) s in
  let avg_time := weighted_average (travel_times cf) items in
  let free_flow_time := weighted_average EfficiencyModel.init_base_times items in
  Forall canonical (Dict.keys items) ->
  (0 < avg_time -> ParameterSet.daily_trips p == 0 ->
   EfficiencyModel.calculate ms cf s = (inl ZeroDivisionError, s))
  /\ (avg_time <= 0 \/ ~ ParameterSet.daily_trips p == 0 ->
      exists r,
        EfficiencyModel.calculate ms cf s = (inr r, s)
        /\ EfficiencyResult.avg_travel_time_minutes r = Py.round avg_time 1
        /\ EfficiencyResult.travel_time_by_mode r = travel_times cf
        /\ EfficiencyResult.congestion_index r
           = Py.round (if Py.lt 0 free_flow_time
                       then avg_time / free_flow_time else 1.0) 3
        /\ EfficiencyResult.system_throughput r
           = Py.round (if Py.lt 0 avg_time
                       then ParameterSet.avg_trip_distance_km p * 60 / avg_time
                       else 0) 2).
Proof.
  intros s items avg_time free_flow_time Hcanon.
  assert (H1 : weighted_sum (travel_times cf) items s = (inr avg_time, s)).
  { apply weighted_sum_returns. eapply Forall_impl; [| exact Hcanon].
    intros k Hk. apply lookup_travel_times. exact Hk. }
  assert (H2 : weighted_sum EfficiencyModel.init_base_times items s
               = (inr free_flow_time, s)).
  { apply weighted_sum_returns. eapply Forall_impl; [| exact Hcanon].
    intros k Hk. apply lookup_base_times. exact Hk. }
  assert (Hhours : Py.lt 0 (avg_time / 60) = Py.lt 0 avg_time).
  { destruct (Py.lt 0 avg_time) eqn:E.
    - apply lt_true in E. apply lt_true. apply Qlt_shift_div_l; lra.
    - apply lt_false in E. apply lt_false. apply Qle_shift_div_r; lra. }
  unfold EfficiencyModel.calculate.
  do 3 (erewrite bind_returns by reflexivity).
  erewrite bind_returns by reflexivity.
  erewrite bind_returns by reflexivity.
  erewrite bind_returns by exact H1.
  do 2 (erewrite bind_returns by reflexivity).
  erewrite bind_returns by exact H2.
  cbv zeta. rewrite Hhours.
  split.
  - intros Hpos Hzero. apply lt_true in Hpos. rewrite Hpos.
    rewrite div_zero; [reflexivity |].
    change (params s) with p. rewrite Hzero. ring.
  - intros Hok. destruct (Py.lt 0 avg_time) eqn:E.
    + apply lt_true in E. destruct Hok as [Hle | Hnz]; [lra |].
      rewrite div_nonzero.
      * eexists. split; [reflexivity |]. repeat split.
        apply round_compat; [| reflexivity].
        change (params s) with p. field. split; [lra | exact Hnz].
      * change (params s) with p. intro E0. apply Hnz.
        assert (Eh : avg_time / 60 == avg_time * (1 # 60)) by (field; lra).
        rewrite Eh in E0.
        destruct (Qeq_dec (ParameterSet.daily_trips p) 0) as [Ez | Ez]; [exact Ez |].
        exfalso. apply (Qmult_integral) in E0. destruct E0 as [E0 | E0]; [contradiction |].
        lra.
    + eexists. split; [reflexivity |]. repeat split.
Qed.

Lemma EfficiencyModel_calculate_raises p ms cf :
  let s := PolicySimulator.init (Some p) in
  let items := deref (or_params_mode_share ms) s in
  ~ Forall canonical (Dict.keys items) ->
  exists k,
    In k (Dict.keys items) /\ ~ canonical k
    /\ EfficiencyModel.calculate ms cf s = (inl (KeyError k), s).
Proof.
  intros s items Hnot.
  destruct (weighted_sum_raises (travel_times cf) items s) as [k [Hin [Hk Hrun]]].
  { intro H. apply Hnot. eapply Forall_impl; [| exact H].
    intros k Hk. apply lookup_travel_times in Hk. exact Hk. }
  exists k. split; [exact Hin |]. split.
  - intro Hc. apply (lookup_travel_times cf) in Hc. contradiction.
  - unfold EfficiencyModel.calculate.
    do 5 (erewrite bind_returns by reflexivity).
    erewrite bind_raises by exact Hrun. reflexivity.
Qed.

Lemma travel_times_nonneg cf k : 0 <= cf -> 0 <= Dict.get (travel_times cf) k 0.
Proof.
  intro H. unfold travel_times, Dict.get. cbn [Dict.lookup].
  destruct (String.eqb k "private_car"); [apply round_nonneg; lra |].
  destruct (String.eqb k "motorcycle"); [apply round_nonneg; lra |].
  destruct (String.eqb k "public_transit"); [discriminate |].
  destruct (String.eqb k "walking_cycling"); [discriminate | lra].
Qed.

(** From a congestion factor of a hundredth on, every mode takes time. *)
Lemma travel_times_pos cf k :
  0.01 <= cf -> canonical k -> 0 < Dict.get (travel_times cf) k 0.
Proof.
  intros H Hk.
  assert (H30 : Py.round 0.3 1 <= Py.round (30 * cf) 1) by (apply round_mono; lra).
  assert (H25 : Py.round 0.25 1 <= Py.round (25 * cf) 1) by (apply round_mono; lra).
  assert (E30 : Py.round 0.3 1 == 0.3) by reflexivity.
  assert (E25 : Py.round 0.25 1 == 0.2) by reflexivity.
  unfold travel_times, Dict.get. cbn [Dict.lookup].
  destruct Hk as [<- | [<- | [<- | [<- | []]]]]; cbn; try reflexivity; lra.
Qed.

Lemma weighted_average_from_pos table items acc :
  Forall (fun k => 0 < Dict.get table k 0) (Dict.keys items) ->
  Forall (fun share => 0 <= share) (Dict.values items) ->
  acc <= fold_left (fun acc item => acc + Dict.get table (fst item) 0 * snd item)
           items acc
  /\ (Exists (fun share => 0 < share) (Dict.values items) ->
      acc < fold_left (fun acc item => acc + Dict.get table (fst item) 0 * snd item)
              items acc).
Proof.
  revert acc. induction items as [| [k share] items IH]; intros acc Hk Hv.
  - cbn [fold_left]. split; [lra | intro H; inversion H].
  - inversion Hk as [| ? ? Hk0 Hks]; inversion Hv as [| ? ? Hv0 Hvs]; subst.
    cbn [fold_left fst snd]. cbn [fst] in Hk0. cbn [snd] in Hv0.
    destruct (IH (acc + Dict.get table k 0 * share) Hks Hvs) as [Hle Hlt].
    set (t := Dict.get table k 0) in *.
    assert (Hterm : 0 <= t * share) by nra.
    split; [lra |].
    intro Hex. inversion Hex as [? ? Hpos | ? ? Hrest]; subst.
    + cbn [snd] in Hpos. assert (0 < t * share) by nra. lra.
    + specialize (Hlt Hrest). lra.
Qed.

Lemma weighted_average_nonpos table items :
  (forall k, 0 <= Dict.get table k 0) ->
  Forall (fun share => share <= 0) (Dict.values items) ->
  weighted_average table items <= 0.
Proof.
  intro Ht. unfold weighted_average.
  assert (H : forall acc, acc <= 0 ->
            Forall (fun share => share <= 0) (Dict.values items) ->
            fold_left (fun acc item => acc + Dict.get table (fst item) 0 * snd item)
              items acc <= 0).
  { induction items as [| [k share] items IH]; intros acc Ha Hv.
    - exact Ha.
    - inversion Hv as [| ? ? Hv0 Hvs]; subst. cbn [fold_left fst snd].
      cbn [snd] in Hv0. apply IH; [| exact Hvs]. specialize (Ht k). nra. }
  intro Hv. apply H; [lra | exact Hv].
Qed.

(** X7.  On a simulator as [__init__] builds it,
    [EfficiencyModel.calculate] raises [KeyError] exactly when the mode
    share has a mode outside the four of [self.base_times], with that
    mode as key.  With canonical modes only, it can fail in the
    throughput quotient alone: it raises [ZeroDivisionError] when
    [daily_trips] is zero while the travel time is positive (shares
    between 0 and 1, one of them a thousandth at least, under a
    congestion factor between 0.01 and 100), and it returns, under a
    congestion factor that is not negative, when there is one daily
    trip at least, or when no share is positive, whatever the number
    of trips.  (Numbers of moderate size.) *)
Theorem efficiency_raises_iff_unknown_mode_or_no_trips
    (p : ParameterSet.t) (mode_share : option (dict Q)) (congestion_factor : Q) :
  let s := PolicySimulator.init (Some p) in
  let items := deref (or_params_mode_share mode_share) s in
  moderate (ParameterSet.daily_trips p) ->
  moderate (ParameterSet.avg_trip_distance_km p) ->
  moderate congestion_factor -> moderate_mapping items ->
  (~ Forall canonical (Dict.keys items) ->
   exists k,
     In k (Dict.keys items) /\ ~ canonical k
     /\ EfficiencyModel.calculate mode_share congestion_factor s
        = (inl (KeyError k), s))
  /\ (Forall canonical (Dict.keys items) ->
      forall k,
        fst (EfficiencyModel.calculate mode_share congestion_factor s)
        <> inl (KeyError k))
  /\ (Forall canonical (Dict.keys items) ->
      ParameterSet.daily_trips p == 0 ->
      0.01 <= congestion_factor -> congestion_factor <= 100 ->
      Forall (fun share => 0 <= share /\ share <= 1) (Dict.values items) ->
      Exists (fun share => 0.001 <= share) (Dict.values items) ->
      EfficiencyModel.calculate mode_share congestion_factor s
      = (inl ZeroDivisionError, s))
  /\ (Forall canonical (Dict.keys items) ->
      0 <= congestion_factor ->
      1 <= ParameterSet.daily_trips p
      \/ Forall (fun share => share <= 0) (Dict.values items) ->
      exists r,
        EfficiencyModel.calculate mode_share congestion_factor s = (inr r, s)).
Proof.
  intros s items _ _ _ _. split; [| split; [| split]].
  - apply EfficiencyModel_calculate_raises.
  - intros Hc k.
    destruct (EfficiencyModel_calculate_canonical p mode_share congestion_factor Hc)
      as [Hzero Hret].
    destruct (Qlt_le_dec 0 (weighted_average (travel_times congestion_factor) items))
      as [Hpos | Hle].
    + destruct (Qeq_dec (ParameterSet.daily_trips p) 0) as [Hz | Hnz].
      * fold s in Hzero. rewrite (Hzero Hpos Hz). discriminate.
      * destruct (Hret (or_intror Hnz)) as [r [Hr _]].
        fold s in Hr. rewrite Hr. discriminate.
    + destruct (Hret (or_introl Hle)) as [r [Hr _]].
      fold s in Hr. rewrite Hr. discriminate.
  - intros Hc Hzero Hcf _ Hshares Hone.
    apply (EfficiencyModel_calculate_canonical p mode_share congestion_factor Hc);
      [| exact Hzero].
    apply weighted_average_from_pos.
    + eapply Forall_impl; [| exact Hc]. intros k Hk.
      apply travel_times_pos; assumption.
    + eapply Forall_impl; [| exact Hshares]. intros share [H0 _]. exact H0.
    + eapply Exists_impl; [| exact Hone]. intros share H. cbv beta in H. lra.
  - intros Hc Hcf Hok.
    destruct (proj2 (EfficiencyModel_calculate_canonical p mode_share congestion_factor Hc))
      as [r [Hr _]].
    + destruct Hok as [Htrips | Hshares].
      * right. intro E. lra.
      * left. apply weighted_average_nonpos; [| exact Hshares].
        intro k. apply travel_times_nonneg. exact Hcf.
    + exists r. exact Hr.
Qed.

Lemma efficiency_raises_iff_unknown_mode_or_no_trips_witness :
  (exists k,
     EfficiencyModel.calculate (Some [("private_car", 0.5); ("tram", 0.5)]) 1
       (PolicySimulator.init (Some DEFAULT_PARAMS))
     = (inl (KeyError k), PolicySimulator.init (Some DEFAULT_PARAMS)))
  /\ EfficiencyModel.calculate (Some [("private_car", 1)]) 1
       (PolicySimulator.init
          (Some (ParameterSet.mk 1000000 0 [("private_car", 1)] 12 35 1.3 12 1.2 1.5 8
                   [("private_car", 0.21)])))
     = (inl ZeroDivisionError,
        PolicySimulator.init
          (Some (ParameterSet.mk 1000000 0 [("private_car", 1)] 12 35 1.3 12 1.2 1.5 8
                   [("private_car", 0.21)])))
  /\ (exists r,
        EfficiencyModel.calculate (Some [("private_car", -1)]) 1
          (PolicySimulator.init
             (Some (ParameterSet.mk 1000000 0 [("private_car", 1)] 12 35 1.3 12 1.2 1.5
                      8 [("private_car", 0.21)])))
        = (inr r,
           PolicySimulator.init
             (Some (ParameterSet.mk 1000000 0 [("private_car", 1)] 12 35 1.3 12 1.2 1.5
                      8 [("private_car", 0.21)])))).
Proof.
  split; [| split].
  - destruct (proj1 (efficiency_raises_iff_unknown_mode_or_no_trips DEFAULT_PARAMS
                       (Some [("private_car", 0.5); ("tram", 0.5)]) 1
                       ltac:(moderate_numbers) ltac:(moderate_numbers)
                       ltac:(moderate_numbers) ltac:(moderate_numbers)))
      as [k [_ [_ Hk]]].
    + intro H. inversion H as [| ? ? _ H']. inversion H' as [| ? ? Ht _].
      vm_compute in Ht.
      repeat (destruct Ht as [Ht | Ht]; [discriminate Ht |]). exact Ht.
    + exists k. exact Hk.
  - apply (proj1 (proj2 (proj2 (efficiency_raises_iff_unknown_mode_or_no_trips
                           (ParameterSet.mk 1000000 0 [("private_car", 1)] 12 35 1.3 12
                              1.2 1.5 8 [("private_car", 0.21)])
                           (Some [("private_car", 1)]) 1
                           ltac:(moderate_numbers) ltac:(moderate_numbers)
                           ltac:(moderate_numbers) ltac:(moderate_numbers))))).
    + canonical_keys.
    + reflexivity.
    + discriminate.
    + discriminate.
    + apply Forall_cons; [split; discriminate | apply Forall_nil].
    + apply Exists_cons_hd. discriminate.
  - apply (proj2 (proj2 (proj2 (efficiency_raises_iff_unknown_mode_or_no_trips
                           (ParameterSet.mk 1000000 0 [("private_car", 1)] 12 35 1.3 12
                              1.2 1.5 8 [("private_car", 0.21)])
                           (Some [("private_car", -1)]) 1
                           ltac:(moderate_numbers) ltac:(moderate_numbers)
                           ltac:(moderate_numbers) ltac:(moderate_numbers))))).
    + canonical_keys.
    + discriminate.
    + right. apply Forall_cons; [discriminate | apply Forall_nil].
Defined.

(** X8.  With canonical modes, shares between 0 and 1 and one daily
    trip at least, [EfficiencyModel.calculate] returns; its
    [avg_travel_time_minutes] is, to the decimal it is rounded to, the
    average of the travel times it reports weighted by the shares, and
    the number of daily trips cancels in [system_throughput], which is,
    to the cent, the average speed in km/h,
    [avg_trip_distance_km * 60 / avg_time], whenever the average travel
    time is a minute at least.  (Up to 10^9 daily trips, 10^4 km and a
    congestion factor of 100, where the floating-point evaluation stays
    within the same last digit.) *)
Theorem throughput_is_average_speed
    (p : ParameterSet.t) (mode_share : option (dict Q)) (congestion_factor : Q) :
  let s := PolicySimulator.init (Some p) in
  let items := deref (or_params_mode_share mode_share) s in
  Forall canonical (Dict.keys items) ->
  Forall (fun share => 0 <= share /\ share <= 1) (Dict.values items) ->
  1 <= ParameterSet.daily_trips p -> ParameterSet.daily_trips p <= 1000000000 ->
  0 <= ParameterSet.avg_trip_distance_km p ->
  ParameterSet.avg_trip_distance_km p <= 10000 ->
  0 <= congestion_factor -> congestion_factor <= 100 ->
  exists r,
    EfficiencyModel.calculate mode_share congestion_factor s = (inr r, s)
    /\ let avg_time :=
         weighted_average (EfficiencyResult.travel_time_by_mode r) items in
       Qabs (EfficiencyResult.avg_travel_time_minutes r - avg_time) <= 0.1
       /\ (1 <= avg_time ->
           Qabs (EfficiencyResult.system_throughput r
                 - ParameterSet.avg_trip_distance_km p * 60 / avg_time) <= 0.01).
Proof.
  intros s items Hc _ Htrips _ _ _ _ _.
  destruct (proj2 (EfficiencyModel_calculate_canonical p mode_share congestion_factor Hc))
    as [r [Hr [Ht [Htimes [_ Hth]]]]].
  { right. intro E. lra. }
  exists r. split; [exact Hr |]. cbv zeta. rewrite Htimes, Ht, Hth.
  split; [exact (round_within _ 1) |].
  intro Havg.
  assert (Hlt : Py.lt 0 (weighted_average (travel_times congestion_factor)
                            (deref (or_params_mode_share mode_share)
                               (PolicySimulator.init (Some p)))) = true)
    by (apply lt_true; fold s items; lra).
  rewrite Hlt. apply round_within_cent.
Qed.

Lemma throughput_is_average_speed_witness :
  exists r,
    EfficiencyModel.calculate None 1 (PolicySimulator.init (Some DEFAULT_PARAMS))
    = (inr r, PolicySimulator.init (Some DEFAULT_PARAMS))
    /\ Qabs (EfficiencyResult.avg_travel_time_minutes r - 33.75) <= 0.1
    /\ Qabs (EfficiencyResult.system_throughput r - 12.0 * 60 / 33.75) <= 0.01.
Proof.
  destruct (throughput_is_average_speed DEFAULT_PARAMS None 1) as [r [Hr Hfig]].
  - canonical_keys.
  - repeat (apply Forall_cons; [split; discriminate |]). apply Forall_nil.
  - discriminate.
  - discriminate.
  - discriminate.
  - discriminate.
  - discriminate.
  - discriminate.
  - exists r. split; [exact Hr |].
    pose proof Hr as Hr'. vm_compute in Hr'. injection Hr' as <-.
    cbv zeta in Hfig. destruct Hfig as [Ht Hs]. split.
    + exact Ht.
    + apply Hs. discriminate.
Defined.

Lemma weighted_average_from_le t1 t2 items a1 a2 :
  (forall k, Dict.get t1 k 0 <= Dict.get t2 k 0) ->
  Forall (fun share => 0 <= share) (Dict.values items) ->
  a1 <= a2 ->
  fold_left (fun acc item => acc + Dict.get t1 (fst item) 0 * snd item) items a1
  <= fold_left (fun acc item => acc + Dict.get t2 (fst item) 0 * snd item) items a2.
Proof.
  intros Ht. revert a1 a2.
  induction items as [| [k share] items IH]; intros a1 a2 Hnn Ha.
  - exact Ha.
  - inversion Hnn as [| ? ? Hs Hrest]; subst. cbn [fold_left fst snd].
    apply IH; [exact Hrest |]. cbn [snd] in Hs. specialize (Ht k). nra.
Qed.

Lemma weighted_average_le t1 t2 items :
  (forall k, Dict.get t1 k 0 <= Dict.get t2 k 0) ->
  Forall (fun share => 0 <= share) (Dict.values items) ->
  weighted_average t1 items <= weighted_average t2 items.
Proof.
  intros Ht Hnn. apply weighted_average_from_le; [exact Ht | exact Hnn | lra].
Qed.

Lemma weighted_average_from_eq t1 t2 items a1 a2 :
  (forall k, Dict.get t1 k 0 == Dict.get t2 k 0) ->
  a1 == a2 ->
  fold_left (fun acc item => acc + Dict.get t1 (fst item) 0 * snd item) items a1
  == fold_left (fun acc item => acc + Dict.get t2 (fst item) 0 * snd item) items a2.
Proof.
  intros Ht. revert a1 a2.
  induction items as [| [k share] items IH]; intros a1 a2 Ha.
  - exact Ha.
  - cbn [fold_left fst snd]. apply IH. rewrite Ha, (Ht k). reflexivity.
Qed.

(** The travel times under a congestion factor against the free-flow
    times of [self.base_times], mode by mode. *)
Lemma travel_times_against_base cf k :
  (cf == 1 ->
   Dict.get (travel_times cf) k 0 == Dict.get EfficiencyModel.init_base_times k 0)
  /\ (cf <= 1 ->
      Dict.get (travel_times cf) k 0 <= Dict.get EfficiencyModel.init_base_times k 0)
  /\ (1 <= cf ->
      Dict.get EfficiencyModel.init_base_times k 0 <= Dict.get (travel_times cf) k 0).
Proof.
  assert (E30 : Py.round 30 1 == 30) by reflexivity.
  assert (E25 : Py.round 25 1 == 25) by reflexivity.
  assert (E45 : Py.round 45 1 == 45) by reflexivity.
  assert (E50 : Py.round 50 1 == 50) by reflexivity.
  unfold travel_times, EfficiencyModel.init_base_times, Dict.get.
  cbn [Dict.lookup].
  destruct (String.eqb k "private_car");
    [| destruct (String.eqb k "motorcycle");
       [| destruct (String.eqb k "public_transit");
          [| destruct (String.eqb k "walking_cycling")]]].
  - split; [| split]; intro H.
    + rewrite H. exact E30.
    + rewrite <- E30 at 2. apply round_mono. lra.
    + rewrite <- E30 at 1. apply round_mono. lra.
  - split; [| split]; intro H.
    + rewrite H. exact E25.
    + rewrite <- E25 at 2. apply round_mono. lra.
    + rewrite <- E25 at 1. apply round_mono. lra.
  - split; [| split]; intros _; rewrite E45; lra.
  - split; [| split]; intros _; rewrite E50; lra.
  - split; [| split]; intros _; lra.
Qed.

(** X9.  With canonical modes and a non-zero number of daily trips
    the reported [congestion_index] is exactly 1 for a congestion
    factor of 1 (the default), whatever the shares: the base times
    have one decimal at most, so the weighted travel time is the
    free-flow time, and a free-flow time that is not positive gives 1
    by the guard.  With non-negative shares and a positive free-flow
    time the index is at most 1 for a factor of at most 1, and at
    least 1 for a factor of at least 1. *)
Theorem congestion_index_follows_factor
    (p : ParameterSet.t) (mode_share : option (dict Q)) (congestion_factor : Q) :
  let s := PolicySimulator.init (Some p) in
  let items := deref (or_params_mode_share mode_share) s in
  let free_flow_time := weighted_average EfficiencyModel.init_base_times items in
  Forall canonical (Dict.keys items) ->
  ~ ParameterSet.daily_trips p == 0 ->
  exists r,
    EfficiencyModel.calculate mode_share congestion_factor s = (inr r, s)
    /\ (congestion_factor == 1 -> EfficiencyResult.congestion_index r == 1)
    /\ (Forall (fun share => 0 <= share) (Dict.values items) ->
        0 < free_flow_time ->
        (congestion_factor <= 1 -> EfficiencyResult.congestion_index r <= 1)
        /\ (1 <= congestion_factor -> 1 <= EfficiencyResult.congestion_index r)).
Proof.
  intros s items free_flow_time Hc Hnz.
  destruct (proj2 (EfficiencyModel_calculate_canonical p mode_share congestion_factor Hc))
    as [r [Hr [_ [_ [Hi _]]]]]; [right; exact Hnz |].
  exists r. split; [exact Hr |].
  fold s items in Hi. fold free_flow_time in Hi.
  set (avg_time := weighted_average (travel_times congestion_factor) items) in *.
  assert (E1 : Py.round 1 3 == 1) by reflexivity.
  split.
  - intro Hcf. rewrite Hi.
    assert (Eavg : avg_time == free_flow_time).
    { apply weighted_average_from_eq; [| reflexivity].
      intro k. apply (travel_times_against_base congestion_factor k). exact Hcf. }
    destruct (Py.lt 0 free_flow_time) eqn:E.
    + apply lt_true in E.
      assert (Eq1 : avg_time / free_flow_time == 1) by (rewrite Eavg; field; lra).
      rewrite (round_compat _ _ Eq1 3%nat 3%nat eq_refl). exact E1.
    + reflexivity.
  - intros Hnn Hff. rewrite Hi.
    assert (E : Py.lt 0 free_flow_time = true) by (apply lt_true; exact Hff).
    rewrite E. split; intro Hcf.
    + apply Qle_trans with (Py.round 1 3); [| rewrite E1; lra].
      apply round_mono. apply Qle_shift_div_r; [exact Hff |].
      assert (avg_time <= free_flow_time).
      { apply weighted_average_le; [| exact Hnn].
        intro k. apply (travel_times_against_base congestion_factor k). exact Hcf. }
      lra.
    + apply Qle_trans with (Py.round 1 3); [rewrite E1; lra |].
      apply round_mono. apply Qle_shift_div_l; [exact Hff |].
      assert (free_flow_time <= avg_time).
      { apply weighted_average_le; [| exact Hnn].
        intro k. apply (travel_times_against_base congestion_factor k). exact Hcf. }
      lra.
Qed.

Lemma congestion_index_follows_factor_witness :
  exists r,
    EfficiencyModel.calculate (Some [("private_car", 0.3); ("public_transit", 0.7)]) 1
      (PolicySimulator.init (Some DEFAULT_PARAMS))
    = (inr r, PolicySimulator.init (Some DEFAULT_PARAMS))
    /\ EfficiencyResult.congestion_index r == 1.
Proof.
  destruct (congestion_index_follows_factor DEFAULT_PARAMS
              (Some [("private_car", 0.3); ("public_transit", 0.7)]) 1)
    as [r [Hr [H1 _]]].
  - canonical_keys.
  - discriminate.
  - exists r. split; [exact Hr |]. apply H1. reflexivity.
Defined.
(** ** EmissionsModel.calculate, for every mode share *)

Lemma emissions_loop s items d t :
  ~ In "private_car" (Dict.keys items)
  \/ ~ ParameterSet.avg_vehicle_occupancy (params s) == 0 ->
  for_each items
    (EmissionsModel.calculate_body (ParameterSet.daily_trips (params s))
       (ParameterSet.avg_trip_distance_km (params s)) ParamsEmissionFactors)
    (d, t) s
  = (inr (fold_left
            (fun d item =>
               Dict.set d (fst item) (Py.round (mode_emissions (params s) item) 2))
            items d,
          fold_left (fun acc item => acc + mode_emissions (params s) item) items t),
     s).
Proof.
  revert d t. induction items as [| [mode share] items IH]; intros d t Hok.
  - reflexivity.
  - rewrite for_each_cons, EmissionsModel_calculate_body_run.
    cbn [fold_left fst snd]. unfold mode_emissions at 2 4, effective_factor.
    cbn [fst snd]. cbv zeta.
    assert (Hok' : ~ In "private_car" (Dict.keys items)
                   \/ ~ ParameterSet.avg_vehicle_occupancy (params s) == 0).
    { destruct Hok as [H | H]; [left | right; exact H].
      intro Hin. apply H. right. exact Hin. }
    destruct (String.eqb_spec mode "private_car") as [-> | Hne].
    + destruct Hok as [H | H]; [elim H; left; reflexivity |].
      apply eq_false in H. rewrite H. apply IH. exact Hok'.
    + apply IH. exact Hok'.
Qed.

Lemma emissions_loop_raises s items d t :
  In "private_car" (Dict.keys items) ->
  ParameterSet.avg_vehicle_occupancy (params s) == 0 ->
  for_each items
    (EmissionsModel.calculate_body (ParameterSet.daily_trips (params s))
       (ParameterSet.avg_trip_distance_km (params s)) ParamsEmissionFactors)
    (d, t) s
  = (inl ZeroDivisionError, s).
Proof.
  intros Hin Hocc. revert d t.
  induction items as [| [mode share] items IH]; intros d t.
  - contradiction.
  - rewrite for_each_cons, EmissionsModel_calculate_body_run. cbv zeta.
    destruct (String.eqb_spec mode "private_car") as [-> | Hne].
    + apply eq_true in Hocc. rewrite Hocc. reflexivity.
    + apply IH. destruct Hin as [E | Hin]; [| exact Hin].
      cbn in E. congruence.
Qed.

(** What [EmissionsModel.calculate] does on every store and every mode
    share: the loop can only fail on the occupancy, the two quotients
    after it on the population and on the number of trips. *)
Lemma EmissionsModel_calculate_run ms s :
  let p := params s in
  let items := deref (or_params_mode_share ms) s in
  let total := total_emissions p items in
  (In "private_car" (Dict.keys items) ->
   ParameterSet.avg_vehicle_occupancy p == 0 ->
   EmissionsModel.calculate ms s = (inl ZeroDivisionError, s))
  /\ (ParameterSet.population p == 0 \/ ParameterSet.daily_trips p == 0 ->
      EmissionsModel.calculate ms s = (inl ZeroDivisionError, s))
  /\ (~ In "private_car" (Dict.keys items)
      \/ ~ ParameterSet.avg_vehicle_occupancy p == 0 ->
      ~ ParameterSet.population p == 0 -> ~ ParameterSet.daily_trips p == 0 ->
      exists r,
        EmissionsModel.calculate ms s = (inr r, s)
        /\ EmissionsResult.total_co2_kg_per_day r = Py.round total 2
        /\ EmissionsResult.co2_by_mode r = emissions_by_mode p items
        /\ EmissionsResult.per_capita_co2_kg r
           = Py.round (total / ParameterSet.population p) 4
        /\ EmissionsResult.per_trip_co2_kg r
           = Py.round (total / ParameterSet.daily_trips p) 4).
Proof.
  intros p items total. subst p items total.
  split; [| split].
  - intros Hin Hocc. unfold EmissionsModel.calculate.
    do 4 (erewrite bind_returns by reflexivity).
    erewrite bind_raises by (apply emissions_loop_raises; assumption).
    reflexivity.
  - intros Hzero. unfold EmissionsModel.calculate.
    do 4 (erewrite bind_returns by reflexivity).
    destruct (Qeq_dec (ParameterSet.avg_vehicle_occupancy (params s)) 0) as [Hocc | Hocc].
    + destruct (in_dec string_dec "private_car" (Dict.keys (deref (or_params_mode_share ms) s))) as [Hin | Hin].
      * erewrite bind_raises by (apply emissions_loop_raises; assumption).
        reflexivity.
      * erewrite bind_returns by (apply emissions_loop; left; exact Hin).
        cbv beta iota.
        destruct (Qeq_dec (ParameterSet.population (params s)) 0) as [Hpop | Hpop].
        -- rewrite (div_zero _ _ Hpop). reflexivity.
        -- destruct Hzero as [Hz | Hz]; [contradiction |].
           rewrite (div_nonzero _ _ Hpop). erewrite bind_returns by reflexivity.
           rewrite (div_zero _ _ Hz). reflexivity.
    + erewrite bind_returns by (apply emissions_loop; right; exact Hocc).
      cbv beta iota.
      destruct (Qeq_dec (ParameterSet.population (params s)) 0) as [Hpop | Hpop].
      * rewrite (div_zero _ _ Hpop). reflexivity.
      * destruct Hzero as [Hz | Hz]; [contradiction |].
        rewrite (div_nonzero _ _ Hpop). erewrite bind_returns by reflexivity.
        rewrite (div_zero _ _ Hz). reflexivity.
  - intros Hok Hpop Htrips. unfold EmissionsModel.calculate.
    do 4 (erewrite bind_returns by reflexivity).
    erewrite bind_returns by (apply emissions_loop; exact Hok).
    cbv beta iota.
    rewrite (div_nonzero _ _ Hpop). erewrite bind_returns by reflexivity.
    rewrite (div_nonzero _ _ Htrips). erewrite bind_returns by reflexivity.
    eexists. split; [reflexivity |]. repeat split.
Qed.

Lemma lookup_set_same {V} (d : dict V) k v : Dict.lookup (Dict.set d k v) k = Some v.
Proof.
  induction d as [| [k' v'] d IH]; cbn [Dict.set Dict.lookup].
  - rewrite String.eqb_refl. reflexivity.
  - destruct (String.eqb k k') eqn:E; cbn [Dict.lookup]; rewrite E; [reflexivity | exact IH].
Qed.

Lemma lookup_set_other {V} (d : dict V) k k' v :
  k' <> k -> Dict.lookup (Dict.set d k v) k' = Dict.lookup d k'.
Proof.
  intro Hne. induction d as [| [k0 v0] d IH]; cbn [Dict.set Dict.lookup].
  - destruct (String.eqb_spec k' k); [contradiction | reflexivity].
  - destruct (String.eqb_spec k k0) as [-> | Hk]; cbn [Dict.lookup].
    + destruct (String.eqb_spec k' k0); [contradiction | reflexivity].
    + destruct (String.eqb k' k0); [reflexivity | exact IH].
Qed.

Lemma total_from_shift p items a :
  fold_left (fun acc item => acc + mode_emissions p item) items a
  == a + fold_left (fun acc item => acc + mode_emissions p item) items 0.
Proof.
  revert a. induction items as [| x items IH]; intro a; cbn [fold_left].
  - ring.
  - rewrite (IH (a + _)), (IH (0 + _)). ring.
Qed.

Lemma total_emissions_insert p items1 items2 x :
  mode_emissions p x == 0 ->
  total_emissions p (items1 ++ x :: items2)%list
  == total_emissions p (items1 ++ items2)%list.
Proof.
  intro H. unfold total_emissions. rewrite !fold_left_app. cbn [fold_left].
  rewrite total_from_shift, (total_from_shift p items2 (fold_left _ items1 _)).
  rewrite H. ring.
Qed.

Lemma emissions_by_mode_from_lookup p items d k v :
  ~ In k (Dict.keys items) -> Dict.lookup d k = Some v ->
  Dict.lookup
    (fold_left
       (fun d item => Dict.set d (fst item) (Py.round (mode_emissions p item) 2))
       items d) k = Some v.
Proof.
  revert d. induction items as [| [k' s'] items IH]; intros d Hnot Hd.
  - exact Hd.
  - cbn [fold_left fst]. apply IH.
    + intro Hin. apply Hnot. right. exact Hin.
    + rewrite lookup_set_other; [exact Hd |].
      intro E. apply Hnot. left. symmetry. exact E.
Qed.

(** [co2_by_mode] has an entry for the modes of the mode share, and for
    no other. *)
Lemma emissions_by_mode_modes p items d k :
  Dict.lookup
    (fold_left
       (fun d item => Dict.set d (fst item) (Py.round (mode_emissions p item) 2))
       items d) k <> None
  <-> In k (Dict.keys items) \/ Dict.lookup d k <> None.
Proof.
  revert d. induction items as [| [k' share] items IH]; intro d.
  - cbn [fold_left Dict.keys map In]. tauto.
  - cbn [fold_left fst snd]. rewrite IH.
    change (Dict.keys ((k', share) :: items)) with (k' :: Dict.keys items).
    cbn [In].
    destruct (string_dec k k') as [-> | Hne].
    + rewrite lookup_set_same. split; [auto | intros _; right; discriminate].
    + rewrite (lookup_set_other d k' k _ Hne).
      split; [tauto | intros [[E | H] | H]; [congruence | tauto | tauto]].
Qed.

(** X10.  [EmissionsModel.calculate] never raises [KeyError], on any
    store and for any mode share: a mode without an emission factor
    counts with factor 0.  On numbers of moderate size it raises
    [ZeroDivisionError] exactly when the occupancy is zero and the mode
    share has [private_car], or the population or the number of daily
    trips is zero; otherwise it returns, and [co2_by_mode] has an entry
    for each mode of the mode share and for no other. *)
Theorem emissions_raises_only_on_zero_divisor
    (s : Store) (mode_share : option (dict Q)) :
  let p := params s in
  let items := deref (or_params_mode_share mode_share) s in
  (forall k, fst (EmissionsModel.calculate mode_share s) <> inl (KeyError k))
  /\ (moderate_parameters p -> moderate_mapping items ->
      ((In "private_car" (Dict.keys items)
        /\ ParameterSet.avg_vehicle_occupancy p == 0)
       \/ ParameterSet.population p == 0 \/ ParameterSet.daily_trips p == 0 ->
       EmissionsModel.calculate mode_share s = (inl ZeroDivisionError, s))
      /\ (~ (In "private_car" (Dict.keys items)
             /\ ParameterSet.avg_vehicle_occupancy p == 0) ->
          ~ ParameterSet.population p == 0 -> ~ ParameterSet.daily_trips p == 0 ->
          exists r,
            EmissionsModel.calculate mode_share s = (inr r, s)
            /\ forall mode,
                 Dict.lookup (EmissionsResult.co2_by_mode r) mode <> None
                 <-> In mode (Dict.keys items))).
Proof.
  intros p items.
  destruct (EmissionsModel_calculate_run mode_share s) as [Hocc [Hzero Hret]].
  fold p items in Hocc, Hzero, Hret.
  assert (Hcases :
            (In "private_car" (Dict.keys items)
             /\ ParameterSet.avg_vehicle_occupancy p == 0)
            \/ ParameterSet.population p == 0 \/ ParameterSet.daily_trips p == 0
            \/ (~ (In "private_car" (Dict.keys items)
                   /\ ParameterSet.avg_vehicle_occupancy p == 0)
                /\ ~ ParameterSet.population p == 0
                /\ ~ ParameterSet.daily_trips p == 0)).
  { destruct (in_dec string_dec "private_car" (Dict.keys items)) as [Hin | Hin];
      destruct (Qeq_dec (ParameterSet.avg_vehicle_occupancy p) 0) as [Ho | Ho];
      destruct (Qeq_dec (ParameterSet.population p) 0) as [Hp | Hp];
      destruct (Qeq_dec (ParameterSet.daily_trips p) 0) as [Ht | Ht];
      tauto. }
  assert (Hgood : ~ (In "private_car" (Dict.keys items)
                     /\ ParameterSet.avg_vehicle_occupancy p == 0) ->
                  ~ In "private_car" (Dict.keys items)
                  \/ ~ ParameterSet.avg_vehicle_occupancy p == 0).
  { intro H. destruct (in_dec string_dec "private_car" (Dict.keys items)); tauto. }
  split; [| intros _ _; split].
  - intros k.
    destruct Hcases as [[Hin Ho] | [Hp | [Ht | [Hn [Hp Ht]]]]].
    + rewrite (Hocc Hin Ho). discriminate.
    + rewrite (Hzero (or_introl Hp)). discriminate.
    + rewrite (Hzero (or_intror Ht)). discriminate.
    + destruct (Hret (Hgood Hn) Hp Ht) as [r [Hr _]]. rewrite Hr. discriminate.
  - intros [[Hin Ho] | H]; [exact (Hocc Hin Ho) | exact (Hzero H)].
  - intros Hn Hp Ht.
    destruct (Hret (Hgood Hn) Hp Ht) as [r [Hr [_ [Hmodes _]]]].
    exists r. split; [exact Hr |]. intro mode. rewrite Hmodes.
    unfold emissions_by_mode. rewrite emissions_by_mode_modes.
    cbn [Dict.lookup]. tauto.
Qed.

Lemma emissions_raises_only_on_zero_divisor_witness :
  EmissionsModel.calculate (Some [("tram", 1)])
    (PolicySimulator.init
       (Some (ParameterSet.mk 0 2500000 [("private_car", 1)] 12 35 1.3 12 1.2 1.5 8
                [("private_car", 0.21)])))
  = (inl ZeroDivisionError,
     PolicySimulator.init
       (Some (ParameterSet.mk 0 2500000 [("private_car", 1)] 12 35 1.3 12 1.2 1.5 8
                [("private_car", 0.21)])))
  /\ exists r,
       EmissionsModel.calculate (Some [("tram", 0.5); ("public_transit", 0.5)])
         (PolicySimulator.init None)
       = (inr r, PolicySimulator.init None)
       /\ Dict.lookup (EmissionsResult.co2_by_mode r) "tram" <> None.
Proof.
  split.
  - apply (proj1 (proj2 (emissions_raises_only_on_zero_divisor
                           (PolicySimulator.init
                              (Some (ParameterSet.mk 0 2500000 [("private_car", 1)] 12 35
                                       1.3 12 1.2 1.5 8 [("private_car", 0.21)])))
                           (Some [("tram", 1)]))
                    ltac:(moderate_numbers) ltac:(moderate_numbers))).
    right. left. reflexivity.
  - destruct (proj2 (proj2 (emissions_raises_only_on_zero_divisor
                              (PolicySimulator.init None)
                              (Some [("tram", 0.5); ("public_transit", 0.5)]))
                       ltac:(moderate_numbers) ltac:(moderate_numbers)))
      as [r [Hr Hmodes]].
    + intros [_ H]. discriminate H.
    + discriminate.
    + discriminate.
    + exists r. split; [exact Hr |]. apply Hmodes. left. reflexivity.
Defined.

Lemma deref_given_mode_share (l : list (string * Q)) s :
  l <> [] -> deref (or_params_mode_share (Some l)) s = l.
Proof. destruct l; [contradiction | reflexivity]. Qed.

(** X11.  A mode that has no entry in [emission_factors] (and is not
    [private_car]) adds nothing: with such a mode put anywhere into a
    mode share on which [EmissionsModel.calculate] returns, it returns
    again, with the same total, per-capita and per-trip emissions, and
    reports 0 for the mode, whatever its share. *)
Theorem mode_without_emission_factor_adds_nothing
    (s : Store) (items1 items2 : dict Q) (mode : string) (share : Q)
    (r : EmissionsResult.t) :
  Dict.lookup (ParameterSet.emission_factors (params s)) mode = None ->
  mode <> "private_car" ->
  (items1 ++ items2)%list <> [] ->
  EmissionsModel.calculate (Some (items1 ++ items2)%list) s = (inr r, s) ->
  exists r',
    EmissionsModel.calculate (Some (items1 ++ (mode, share) :: items2)%list) s
    = (inr r', s)
    /\ EmissionsResult.total_co2_kg_per_day r' = EmissionsResult.total_co2_kg_per_day r
    /\ EmissionsResult.per_capita_co2_kg r' = EmissionsResult.per_capita_co2_kg r
    /\ EmissionsResult.per_trip_co2_kg r' = EmissionsResult.per_trip_co2_kg r
    /\ (~ In mode (Dict.keys items2) ->
        Dict.lookup (EmissionsResult.co2_by_mode r') mode = Some (Py.round 0 2)).
Proof.
  intros Hef Hcar Hne Hr.
  assert (Hne' : (items1 ++ (mode, share) :: items2)%list <> []).
  { destruct items1; discriminate. }
  pose proof (EmissionsModel_calculate_run (Some (items1 ++ items2)%list) s) as H.
  pose proof (EmissionsModel_calculate_run
                (Some (items1 ++ (mode, share) :: items2)%list) s) as H'.
  cbv zeta in H, H'.
  rewrite (deref_given_mode_share _ s Hne) in H.
  rewrite (deref_given_mode_share _ s Hne') in H'.
  destruct H as [Hocc [Hzero Hret]]. destruct H' as [_ [_ Hret']].
  set (p := params s) in *.
  assert (Hzero_mode : mode_emissions p (mode, share) == 0).
  { unfold mode_emissions, effective_factor, Dict.get. cbn [fst snd].
    fold p. rewrite Hef.
    destruct (String.eqb_spec mode "private_car"); [contradiction |].
    assert (E : (0.0 : Q) == 0) by reflexivity. rewrite E. ring. }
  assert (Hpop : ~ ParameterSet.population p == 0).
  { intro E. rewrite (Hzero (or_introl E)) in Hr. discriminate Hr. }
  assert (Htrips : ~ ParameterSet.daily_trips p == 0).
  { intro E. rewrite (Hzero (or_intror E)) in Hr. discriminate Hr. }
  assert (Hok : ~ In "private_car" (Dict.keys (items1 ++ items2)%list)
                \/ ~ ParameterSet.avg_vehicle_occupancy p == 0).
  { destruct (in_dec string_dec "private_car" (Dict.keys (items1 ++ items2)%list))
      as [Hin | Hin]; [| left; exact Hin].
    right. intro E. rewrite (Hocc Hin E) in Hr. discriminate Hr. }
  assert (Hok' : ~ In "private_car" (Dict.keys (items1 ++ (mode, share) :: items2)%list)
                 \/ ~ ParameterSet.avg_vehicle_occupancy p == 0).
  { destruct Hok as [Hin | Ho]; [left | right; exact Ho].
    intro H. apply Hin. unfold Dict.keys in *. rewrite map_app in *.
    apply in_app_or in H. apply in_or_app.
    destruct H as [H | [H | H]]; [left; exact H | | right; exact H].
    cbn in H. congruence. }
  destruct (Hret Hok Hpop Htrips) as [r0 [Hr0 [Ht [_ [Hc Hp]]]]].
  assert (r0 = r) by congruence. subst r0.
  destruct (Hret' Hok' Hpop Htrips) as [r' [Hr' [Ht' [Hd' [Hc' Hp']]]]].
  pose proof (total_emissions_insert p items1 items2 (mode, share) Hzero_mode) as Etot.
  exists r'. split; [exact Hr' |].
  split; [rewrite Ht, Ht'; apply round_compat; [exact Etot | reflexivity] |].
  split; [rewrite Hc, Hc'; apply round_compat; [rewrite Etot | ]; reflexivity |].
  split; [rewrite Hp, Hp'; apply round_compat; [rewrite Etot | ]; reflexivity |].
  intro Hnot. rewrite Hd'. unfold emissions_by_mode.
  rewrite fold_left_app. cbn [fold_left fst].
  apply emissions_by_mode_from_lookup; [exact Hnot |].
  rewrite lookup_set_same. f_equal. apply round_compat; [exact Hzero_mode | reflexivity].
Qed.

Lemma mode_without_emission_factor_adds_nothing_witness :
  exists r r',
    EmissionsModel.calculate (Some [("private_car", 0.5); ("public_transit", 0.5)])
      (PolicySimulator.init None) = (inr r, PolicySimulator.init None)
    /\ EmissionsModel.calculate
         (Some [("private_car", 0.5); ("e_scooter", 7); ("public_transit", 0.5)])
         (PolicySimulator.init None) = (inr r', PolicySimulator.init None)
    /\ EmissionsResult.total_co2_kg_per_day r' = EmissionsResult.total_co2_kg_per_day r
    /\ Dict.lookup (EmissionsResult.co2_by_mode r') "e_scooter" = Some (Py.round 0 2).
Proof.
  eexists.
  edestruct (mode_without_emission_factor_adds_nothing (PolicySimulator.init None)
               [("private_car", 0.5)] [("public_transit", 0.5)] "e_scooter" 7)
    as [r' [Hr' [Ht [_ [_ Hz]]]]].
  - reflexivity.
  - discriminate.
  - discriminate.
  - vm_compute. reflexivity.
  - exists r'. split; [vm_compute; reflexivity |].
    split; [exact Hr' |]. split; [exact Ht |].
    apply Hz. intros [H | []]. discriminate H.
Defined.
(** ** PolicySimulator._calculate_overall_score *)

Lemma max_zero_spec y : 0 <= Py.max 0 y /\ y <= Py.max 0 y /\ (y <= 1 -> Py.max 0 y <= 1).
Proof.
  unfold Py.max. destruct (Py.lt 0 y) eqn:E.
  - apply lt_true in E. repeat split; lra.
  - apply lt_false in E. repeat split; lra.
Qed.

Lemma max_zero_mono x y : x <= y -> Py.max 0 x <= Py.max 0 y.
Proof.
  intro H. unfold Py.max.
  destruct (Py.lt 0 x) eqn:Ex; destruct (Py.lt 0 y) eqn:Ey;
    try apply lt_true in Ex; try apply lt_false in Ex;
    try apply lt_true in Ey; try apply lt_false in Ey; lra.
Qed.

(** The score is the rounding of 25 times the sum of the four
    normalised scores. *)
Lemma overall_score_as_sum emissions cost equity efficiency :
  PolicySimulator._calculate_overall_score emissions cost equity efficiency
  = Py.round
      ((0.25 * Py.max 0 (1 - EmissionsResult.per_trip_co2_kg emissions / 5)
        + 0.25 * Py.max 0 (1 - CostResult.user_cost_per_trip cost / 20)
        + 0.25 * EquityResult.equity_score equity
        + 0.25 * Py.max 0 (1 - EfficiencyResult.avg_travel_time_minutes efficiency / 60))
       * 100) 1.
Proof. reflexivity. Qed.

Lemma score_bounds emissions cost equity efficiency :
  0 <= EmissionsResult.per_trip_co2_kg emissions ->
  0 <= CostResult.user_cost_per_trip cost ->
  0 <= EfficiencyResult.avg_travel_time_minutes efficiency ->
  0 <= EquityResult.equity_score equity -> EquityResult.equity_score equity <= 1 ->
  0 <= PolicySimulator._calculate_overall_score emissions cost equity efficiency
  /\ PolicySimulator._calculate_overall_score emissions cost equity efficiency <= 100.
Proof.
  intros He Hc Hf Hq0 Hq1. rewrite overall_score_as_sum.
  set (e := EmissionsResult.per_trip_co2_kg emissions) in *.
  set (c := CostResult.user_cost_per_trip cost) in *.
  set (f := EfficiencyResult.avg_travel_time_minutes efficiency) in *.
  set (q := EquityResult.equity_score equity) in *.
  assert (Ee : e == 5 * (e / 5)) by (field; lra).
  assert (Ec : c == 20 * (c / 20)) by (field; lra).
  assert (Ef : f == 60 * (f / 60)) by (field; lra).
  set (e5 := e / 5) in *. set (c20 := c / 20) in *. set (f60 := f / 60) in *.
  destruct (max_zero_spec (1 - e5)) as [He0 [_ He1]].
  destruct (max_zero_spec (1 - c20)) as [Hc0 [_ Hc1]].
  destruct (max_zero_spec (1 - f60)) as [Hf0 [_ Hf1]].
  specialize (He1 ltac:(lra)). specialize (Hc1 ltac:(lra)). specialize (Hf1 ltac:(lra)).
  set (me := Py.max 0 (1 - e5)) in *. set (mc := Py.max 0 (1 - c20)) in *.
  set (mf := Py.max 0 (1 - f60)) in *.
  assert (E0 : Py.round 0 1 == 0) by reflexivity.
  assert (E100 : Py.round 100 1 == 100) by reflexivity.
  split.
  - apply Qle_trans with (Py.round 0 1); [rewrite E0; lra |].
    apply round_mono. lra.
  - apply Qle_trans with (Py.round 100 1); [| rewrite E100; lra].
    apply round_mono. lra.
Qed.

(** X12.  [_calculate_overall_score] stays within 0 and 100 whenever
    the per-trip emissions, the user cost and the travel time it is
    given are non-negative and the equity score lies between 0 and 1:
    each of the four normalised scores is then between 0 and 1.  (The
    three scores it computes are clipped at 0 from below only, and the
    equity score is taken as it is, so the range depends on these
    conditions.) *)
Theorem overall_score_within_0_and_100
    (emissions : EmissionsResult.t) (cost : CostResult.t)
    (equity : EquityResult.t) (efficiency : EfficiencyResult.t) :
  0 <= EmissionsResult.per_trip_co2_kg emissions ->
  0 <= CostResult.user_cost_per_trip cost ->
  0 <= EfficiencyResult.avg_travel_time_minutes efficiency ->
  0 <= EquityResult.equity_score equity -> EquityResult.equity_score equity <= 1 ->
  0 <= PolicySimulator._calculate_overall_score emissions cost equity efficiency
  /\ PolicySimulator._calculate_overall_score emissions cost equity efficiency <= 100.
Proof. apply score_bounds. Qed.

Lemma overall_score_within_0_and_100_witness :
  0 <= PolicySimulator._calculate_overall_score
         (EmissionsResult.mk 3230769.23 [] 3.2308 1.2923 "")
         (CostResult.mk 2.94 7350000 0 [] "")
         (EquityResult.mk 0.331 [] [] 0.669 "")
         (EfficiencyResult.mk 33.8 [] 1 21.33 "")
  /\ PolicySimulator._calculate_overall_score
       (EmissionsResult.mk 3230769.23 [] 3.2308 1.2923 "")
       (CostResult.mk 2.94 7350000 0 [] "")
       (EquityResult.mk 0.331 [] [] 0.669 "")
       (EfficiencyResult.mk 33.8 [] 1 21.33 "") <= 100.
Proof.
  apply (overall_score_within_0_and_100
           (EmissionsResult.mk 3230769.23 [] 3.2308 1.2923 "")
           (CostResult.mk 2.94 7350000 0 [] "")
           (EquityResult.mk 0.331 [] [] 0.669 "")
           (EfficiencyResult.mk 33.8 [] 1 21.33 "")); discriminate.
Defined.

(** X13.  The score never falls when a metric improves: with per-trip
    emissions, user cost and travel time that are no higher and an
    equity score that is no lower, [_calculate_overall_score] is no
    lower.  From 5 kg per trip on, where the emissions score is
    clipped at 0, a further rise of the emissions changes nothing. *)
Theorem overall_score_never_falls_when_metrics_improve
    (e1 e2 : EmissionsResult.t) (c1 c2 : CostResult.t)
    (q1 q2 : EquityResult.t) (f1 f2 : EfficiencyResult.t) :
  EmissionsResult.per_trip_co2_kg e1 <= EmissionsResult.per_trip_co2_kg e2 ->
  CostResult.user_cost_per_trip c1 <= CostResult.user_cost_per_trip c2 ->
  EquityResult.equity_score q2 <= EquityResult.equity_score q1 ->
  EfficiencyResult.avg_travel_time_minutes f1
  <= EfficiencyResult.avg_travel_time_minutes f2 ->
  PolicySimulator._calculate_overall_score e2 c2 q2 f2
  <= PolicySimulator._calculate_overall_score e1 c1 q1 f1
  /\ (5 <= EmissionsResult.per_trip_co2_kg e1 ->
      PolicySimulator._calculate_overall_score e2 c1 q1 f1
      = PolicySimulator._calculate_overall_score e1 c1 q1 f1).
Proof.
  intros He Hc Hq Hf. rewrite !overall_score_as_sum.
  set (a1 := EmissionsResult.per_trip_co2_kg e1) in *.
  set (a2 := EmissionsResult.per_trip_co2_kg e2) in *.
  set (b1 := CostResult.user_cost_per_trip c1) in *.
  set (b2 := CostResult.user_cost_per_trip c2) in *.
  set (t1 := EfficiencyResult.avg_travel_time_minutes f1) in *.
  set (t2 := EfficiencyResult.avg_travel_time_minutes f2) in *.
  assert (Ha : 1 - a2 / 5 <= 1 - a1 / 5).
  { assert (a1 == 5 * (a1 / 5)) by (field; lra).
    assert (a2 == 5 * (a2 / 5)) by (field; lra). lra. }
  assert (Hb : 1 - b2 / 20 <= 1 - b1 / 20).
  { assert (b1 == 20 * (b1 / 20)) by (field; lra).
    assert (b2 == 20 * (b2 / 20)) by (field; lra). lra. }
  assert (Ht : 1 - t2 / 60 <= 1 - t1 / 60).
  { assert (t1 == 60 * (t1 / 60)) by (field; lra).
    assert (t2 == 60 * (t2 / 60)) by (field; lra). lra. }
  apply max_zero_mono in Ha, Hb, Ht.
  split.
  - apply round_mono. lra.
  - intro H5. apply round_compat; [| reflexivity].
    assert (E1 : Py.max 0 (1 - a1 / 5) == 0).
    { unfold Py.max.
      assert (E : Py.lt 0 (1 - a1 / 5) = false).
      { apply lt_false. assert (a1 == 5 * (a1 / 5)) by (field; lra). lra. }
      rewrite E. reflexivity. }
    assert (E2 : Py.max 0 (1 - a2 / 5) == 0).
    { destruct (max_zero_spec (1 - a2 / 5)) as [H0 _]. lra. }
    rewrite E1, E2. reflexivity.
Qed.

Lemma overall_score_never_falls_when_metrics_improve_witness :
  PolicySimulator._calculate_overall_score
    (EmissionsResult.mk 0 [] 0 1.3 "") (CostResult.mk 3 0 0 [] "")
    (EquityResult.mk 0.4 [] [] 0.6 "") (EfficiencyResult.mk 34 [] 1 0 "")
  <= PolicySimulator._calculate_overall_score
       (EmissionsResult.mk 0 [] 0 1.2 "") (CostResult.mk 2.5 0 0 [] "")
       (EquityResult.mk 0.3 [] [] 0.7 "") (EfficiencyResult.mk 30 [] 1 0 "").
Proof.
  apply (overall_score_never_falls_when_metrics_improve
           (EmissionsResult.mk 0 [] 0 1.2 "") (EmissionsResult.mk 0 [] 0 1.3 "")
           (CostResult.mk 2.5 0 0 [] "") (CostResult.mk 3 0 0 [] "")
           (EquityResult.mk 0.3 [] [] 0.7 "") (EquityResult.mk 0.4 [] [] 0.6 "")
           (EfficiencyResult.mk 30 [] 1 0 "") (EfficiencyResult.mk 34 [] 1 0 ""));
    discriminate.
Defined.
(** ** The adjustments the simulation reads *)

Lemma same_levers_get a b k default :
  same_levers a b -> In k levers -> Dict.get a k default = Dict.get b k default.
Proof. intros H Hk. unfold Dict.get. rewrite (H k Hk). reflexivity. Qed.

Lemma same_levers_getitem a b k :
  same_levers a b -> In k levers -> getitem a k = getitem b k.
Proof. intros H Hk. unfold getitem. rewrite (H k Hk). reflexivity. Qed.

Lemma same_levers_price_changes a b :
  same_levers a b -> ModeShareModel.price_changes a = ModeShareModel.price_changes b.
Proof.
  intro H. unfold ModeShareModel.price_changes.
  rewrite (same_levers_get a b "fuel_tax_percent" 0 H) by (simpl; tauto).
  rewrite (same_levers_get a b "pt_subsidy_percent" 0 H) by (simpl; tauto).
  rewrite (same_levers_get a b "congestion_price" 0 H) by (simpl; tauto).
  rewrite (same_levers_getitem a b "congestion_price" H) by (simpl; tauto).
  reflexivity.
Qed.

Lemma same_levers_mode_share a b :
  same_levers a b ->
  ModeShareModel.calculate (Some a) = ModeShareModel.calculate (Some b).
Proof.
  intro H. unfold ModeShareModel.calculate, ModeShareModel.shifted_shares.
  cbn [or_empty]. rewrite (same_levers_price_changes a b H). reflexivity.
Qed.

Lemma same_levers_cost a b ms :
  same_levers a b ->
  CostBenefitModel.calculate ms (Some a) = CostBenefitModel.calculate ms (Some b).
Proof.
  intro H. unfold CostBenefitModel.calculate. cbn [or_empty].
  rewrite (same_levers_get a b "fuel_tax_percent" 0 H) by (simpl; tauto).
  rewrite (same_levers_get a b "pt_subsidy_percent" 0 H) by (simpl; tauto).
  reflexivity.
Qed.

Lemma same_levers_equity a b user_cost ms :
  same_levers a b ->
  EquityModel.calculate user_cost ms (Some a)
  = EquityModel.calculate user_cost ms (Some b).
Proof.
  intro H. unfold EquityModel.calculate, EquityModel.calculate_body. cbn [or_empty].
  rewrite (same_levers_get a b "pt_subsidy_percent" 0 H) by (simpl; tauto).
  reflexivity.
Qed.

Lemma bind_ext {A B} (c : M A) (f g : A -> M B) s :
  (forall a s', f a s' = g a s') -> bind c f s = bind c g s.
Proof. intro H. unfold bind. destruct (c s) as [[e | a] s']; [reflexivity | apply H]. Qed.

Lemma simulate_same_levers a b s :
  same_levers a b ->
  PolicySimulator.simulate (Some a) s = PolicySimulator.simulate (Some b) s.
Proof.
  intro H. unfold PolicySimulator.simulate. cbn [or_empty].
  rewrite (same_levers_mode_share a b H).
  apply bind_ext. intros mode_result s1.
  apply bind_ext. intros emissions_result s2.
  rewrite (same_levers_cost a b _ H).
  apply bind_ext. intros cost_result s3.
  rewrite (same_levers_equity a b _ _ H). reflexivity.
Qed.

(** X14.  [simulate] reads its adjustments through three keys only,
    [fuel_tax_percent], [pt_subsidy_percent] and [congestion_price]:
    two adjustment maps that agree on these give the same result (or
    the same exception) on every simulator, whatever else they hold.
    Adjustments without any of the three keys, such as the parameters
    of the EV-incentive and parking policies, give the result of the
    baseline [simulate({})]. *)
Theorem simulate_reads_three_levers_only (a b : dict Q) (s : Store) :
  same_levers a b ->
  PolicySimulator.simulate (Some a) s = PolicySimulator.simulate (Some b) s
  /\ ((forall k, In k levers -> Dict.lookup b k = None) ->
      PolicySimulator.simulate (Some a) s = PolicySimulator.simulate (Some []) s
      /\ PolicySimulator.simulate (Some a) s = PolicySimulator.simulate None s).
Proof.
  intro H. split; [exact (simulate_same_levers a b s H) |].
  intro Hnone.
  assert (Ha : same_levers a []).
  { intros k Hk. rewrite (H k Hk). apply Hnone. exact Hk. }
  split; exact (simulate_same_levers a [] s Ha).
Qed.

Lemma simulate_reads_three_levers_only_witness :
  PolicySimulator.simulate
    (Some [("ev_purchase_subsidy", 5000); ("ev_tax_reduction_percent", 50)])
    (PolicySimulator.init None)
  = PolicySimulator.simulate None (PolicySimulator.init None).
Proof.
  apply (simulate_reads_three_levers_only
           [("ev_purchase_subsidy", 5000); ("ev_tax_reduction_percent", 50)] []
           (PolicySimulator.init None)).
  - intros k Hk. simpl in Hk.
    destruct Hk as [<- | [<- | [<- | []]]]; reflexivity.
  - intros k _. reflexivity.
Defined.
(** ** ModeShareModel.calculate, for every parameter set *)

Lemma set_absent {V} (d : dict V) k v :
  Dict.lookup d k = None -> Dict.set d k v = (d ++ [(k, v)])%list.
Proof.
  induction d as [| [k' v'] d IH]; cbn [Dict.lookup Dict.set app].
  - reflexivity.
  - destruct (String.eqb k k'); [discriminate |].
    intro H. rewrite (IH H). reflexivity.
Qed.

Lemma lookup_app_absent {V} (d d' : dict V) k :
  Dict.lookup d k = None -> Dict.lookup (d ++ d')%list k = Dict.lookup d' k.
Proof.
  induction d as [| [k' v'] d IH]; cbn [Dict.lookup app].
  - reflexivity.
  - destruct (String.eqb k k'); [discriminate | exact IH].
Qed.

(** Assignments under keys that are new and distinct append to the
    dictionary, in the order of the loop. *)
Lemma fold_set_fresh {V X} (key : X -> string) (val : X -> V) xs (d : dict V) :
  NoDup (map key xs) ->
  (forall x, In x xs -> Dict.lookup d (key x) = None) ->
  fold_left (fun d x => Dict.set d (key x) (val x)) xs d
  = (d ++ map (fun x => (key x, val x)) xs)%list.
Proof.
  revert d. induction xs as [| x xs IH]; intros d Hnd Hfresh.
  - cbn. rewrite app_nil_r. reflexivity.
  - cbn [fold_left map]. inversion Hnd as [| ? ? Hx Hnd']; subst.
    rewrite set_absent by (apply Hfresh; left; reflexivity).
    rewrite IH.
    + rewrite <- app_assoc. reflexivity.
    + exact Hnd'.
    + intros y Hy. rewrite lookup_app_absent by (apply Hfresh; right; exact Hy).
      cbn [Dict.lookup].
      destruct (String.eqb_spec (key y) (key x)) as [E | _]; [| reflexivity].
      exfalso. apply Hx. rewrite <- E. apply in_map. exact Hy.
Qed.

(** When the loop of the shift percentages returns, it has assigned
    [shift_of] under every mode. *)
Lemma shift_loop_inv baseline projected modes shift s shift' s' :
  for_each modes (ModeShareModel.shift_body (Local baseline) projected) shift s
  = (inr shift', s') ->
  shift'
  = fold_left (fun d mode => Dict.set d mode (shift_of baseline projected mode))
      modes shift.
Proof.
  revert shift. induction modes as [| mode modes IH]; intros shift H.
  - cbn in H. injection H as <- _. reflexivity.
  - rewrite for_each_cons in H. cbn [fold_left].
    unfold ModeShareModel.shift_body in H at 1.
    cbv beta iota delta [bind getitem dict_getitem gets deref] in H.
    unfold shift_of at 2. unfold Dict.get.
    destruct (Dict.lookup baseline mode) as [base |]; [| discriminate H].
    cbv beta iota delta [ret] in H. cbv zeta.
    destruct (Py.lt 0 base).
    + cbv beta iota delta [bind getitem] in H.
      destruct (Dict.lookup projected mode) as [proj |]; [| discriminate H].
      cbv beta iota delta [ret] in H. apply IH. exact H.
    + apply IH. exact H.
Qed.

(** What [ModeShareModel.calculate] returns, when it returns. *)
Lemma ModeShareModel_calculate_inv adj s r :
  fst (ModeShareModel.calculate adj s) = inr r ->
  let baseline := ParameterSet.mode_share (params s) in
  ModeShareResult.baseline_shares r = baseline
  /\ Dict.keys (ModeShareResult.projected_shares r) = Dict.keys baseline
  /\ ModeShareResult.shift_percentage r
     = fold_left
         (fun d mode =>
            Dict.set d mode (shift_of baseline (ModeShareResult.projected_shares r) mode))
         (Dict.keys baseline) [].
Proof.
  intros H baseline. unfold ModeShareModel.calculate in H.
  cbv beta iota zeta delta [bind dict_copy dict_items gets deref] in H.
  fold baseline in H.
  destruct (shifted_shares_keys (or_empty adj) baseline s) as [Hs Hk].
  destruct (ModeShareModel.shifted_shares (or_empty adj) (Local baseline)
              (Local baseline) s) as [[e | projected] s1] eqn:E;
    [discriminate H |].
  cbn [snd] in Hs. subst s1.
  destruct (Hk projected eq_refl) as [d [-> Hd]].
  cbv beta iota in H.
  destruct (for_each (Dict.keys baseline)
              (ModeShareModel.shift_body (Local baseline)
                 (ModeShareModel.round_shares (ModeShareModel.normalize d))) [] s)
    as [[e | shift] s2] eqn:E2; [discriminate H |].
  apply shift_loop_inv in E2.
  cbv beta iota delta [ret fst] in H. injection H as <-.
  cbn [ModeShareResult.baseline_shares ModeShareResult.projected_shares
       ModeShareResult.shift_percentage].
  split; [reflexivity |].
  split; [rewrite keys_round_shares, keys_normalize; exact Hd | exact E2].
Qed.

(** X15.  When [ModeShareModel.calculate] returns, [baseline_shares]
    is the mode share of the parameter set, [projected_shares] has the
    same modes in the same order, and (modes being distinct)
    [shift_percentage] has them too, each with the relative change in
    percent rounded to 2 decimals; a mode whose baseline share is zero
    or negative gets the shift 0 instead of a division by it. *)
Theorem mode_share_result_keeps_the_modes
    (adj : option (dict Q)) (s : Store) (r : ModeShareResult.t) :
  fst (ModeShareModel.calculate adj s) = inr r ->
  let baseline := ParameterSet.mode_share (params s) in
  ModeShareResult.baseline_shares r = baseline
  /\ Dict.keys (ModeShareResult.projected_shares r) = Dict.keys baseline
  /\ (NoDup (Dict.keys baseline) ->
      ModeShareResult.shift_percentage r
      = map (fun mode =>
               (mode, shift_of baseline (ModeShareResult.projected_shares r) mode))
          (Dict.keys baseline)
      /\ Dict.keys (ModeShareResult.shift_percentage r) = Dict.keys baseline
      /\ forall mode base,
           Dict.lookup baseline mode = Some base -> base <= 0 ->
           shift_of baseline (ModeShareResult.projected_shares r) mode = 0).
Proof.
  intros H baseline.
  destruct (ModeShareModel_calculate_inv adj s r H) as [Hb [Hk Hs]].
  fold baseline in Hb, Hk, Hs.
  split; [exact Hb |]. split; [exact Hk |].
  intro Hnd.
  assert (E : ModeShareResult.shift_percentage r
              = map (fun mode =>
                       (mode, shift_of baseline (ModeShareResult.projected_shares r) mode))
                  (Dict.keys baseline)).
  { rewrite Hs.
    rewrite (fold_set_fresh (fun mode : string => mode)
               (shift_of baseline (ModeShareResult.projected_shares r))).
    - reflexivity.
    - rewrite map_id. exact Hnd.
    - reflexivity. }
  split; [exact E |]. split.
  - rewrite E. unfold Dict.keys at 1. rewrite map_map. cbn [fst]. apply map_id.
  - intros mode base Hl Hle. unfold shift_of, Dict.get. rewrite Hl.
    apply lt_false in Hle. rewrite Hle. reflexivity.
Qed.

Lemma mode_share_result_keeps_the_modes_witness :
  exists r,
    fst (ModeShareModel.calculate (Some [("fuel_tax_percent", 20)])
           (PolicySimulator.init
              (Some (ParameterSet.mk 1000000 2500000
                       [("private_car", 0.6); ("motorcycle", 0); ("public_transit", 0.4)]
                       12 35 1.3 12 1.2 1.5 8 [("private_car", 0.21)]))))
    = inr r
    /\ Dict.keys (ModeShareResult.projected_shares r)
       = ["private_car"; "motorcycle"; "public_transit"]
    /\ Dict.lookup (ModeShareResult.shift_percentage r) "motorcycle" = Some 0.
Proof.
  eexists. split; [vm_compute; reflexivity |].
  match goal with
  | |- Dict.keys (ModeShareResult.projected_shares ?r) = _ /\ _ =>
      destruct (mode_share_result_keeps_the_modes (Some [("fuel_tax_percent", 20)])
                  (PolicySimulator.init
                     (Some (ParameterSet.mk 1000000 2500000
                              [("private_car", 0.6); ("motorcycle", 0);
                               ("public_transit", 0.4)]
                              12 35 1.3 12 1.2 1.5 8 [("private_car", 0.21)])))
                  r) as [_ [Hk Hs]]
  end.
  - vm_compute. reflexivity.
  - split; [exact Hk |].
    destruct Hs as [E _].
    + repeat constructor; simpl; intuition discriminate.
    + rewrite E. vm_compute. reflexivity.
Defined.

(** Without a price change neither elasticity loop assigns anything,
    whatever the tables of the model hold. *)
Lemma own_price_loop_without_change baseline changes projected s :
  Forall (fun item => snd item == 0) changes ->
  for_each changes (ModeShareModel.own_price_body baseline) projected s
  = (inr projected, s).
Proof.
  induction 1 as [| [mode change] changes Hc _ IH].
  - reflexivity.
  - rewrite for_each_cons. unfold ModeShareModel.own_price_body at 1.
    cbn [snd] in Hc. apply ne_false in Hc. rewrite Hc. exact IH.
Qed.

Lemma cross_price_loop_without_change changes pairs projected s :
  (forall mode, Dict.get changes mode 0 == 0) ->
  for_each pairs (ModeShareModel.cross_price_body changes) projected s
  = (inr projected, s).
Proof.
  intro Hc. induction pairs as [| [[mode_a mode_b] cross_e] pairs IH].
  - reflexivity.
  - rewrite for_each_cons. unfold ModeShareModel.cross_price_body at 1.
    pose proof (Hc mode_b) as H0. apply ne_false in H0. rewrite H0. exact IH.
Qed.

Lemma shifted_shares_without_change adj baseline projected s :
  Dict.get adj "fuel_tax_percent" 0 == 0 ->
  Dict.get adj "pt_subsidy_percent" 0 == 0 ->
  Dict.get adj "congestion_price" 0 <= 0 ->
  ModeShareModel.shifted_shares adj baseline projected s = (inr projected, s).
Proof.
  intros Hf Hs Hc. unfold ModeShareModel.shifted_shares, ModeShareModel.price_changes.
  apply lt_false in Hc. rewrite Hc.
  set (changes := [("private_car", Dict.get adj "fuel_tax_percent" 0 / 100);
                   ("motorcycle", Dict.get adj "fuel_tax_percent" 0 / 100);
                   ("public_transit", - Dict.get adj "pt_subsidy_percent" 0 / 100);
                   ("walking_cycling", 0)]).
  assert (Hzero : Forall (fun item : string * Q => snd item == 0) changes).
  { unfold changes. repeat (apply Forall_cons; [cbn [snd] |]); try apply Forall_nil.
    - rewrite Hf. reflexivity.
    - rewrite Hf. reflexivity.
    - rewrite Hs. reflexivity.
    - reflexivity. }
  erewrite bind_returns by reflexivity.
  erewrite bind_returns by (apply own_price_loop_without_change; exact Hzero).
  erewrite bind_returns by reflexivity.
  apply cross_price_loop_without_change.
  intro mode. unfold changes, Dict.get. cbn [Dict.lookup].
  destruct (String.eqb mode "private_car"); [rewrite Hf; reflexivity |].
  destruct (String.eqb mode "motorcycle"); [rewrite Hf; reflexivity |].
  destruct (String.eqb mode "public_transit"); [rewrite Hs; reflexivity |].
  destruct (String.eqb mode "walking_cycling"); reflexivity.
Qed.

Lemma lookup_map_values {V W} (f : V -> W) (d : dict V) k :
  Dict.lookup (Dict.map_values f d) k = option_map f (Dict.lookup d k).
Proof.
  unfold Dict.map_values.
  induction d as [| [k' v] d IH]; cbn [map Dict.lookup fst snd option_map].
  - reflexivity.
  - destruct (String.eqb k k'); [reflexivity | exact IH].
Qed.

Lemma lookup_in_values (d : dict Q) k v (P : Q -> Prop) :
  Forall P (Dict.values d) -> Dict.lookup d k = Some v -> P v.
Proof.
  induction d as [| [k' v'] d IH]; cbn [Dict.lookup]; intros Hall E.
  - discriminate E.
  - inversion Hall as [| ? ? Hv Hrest]; subst.
    destruct (String.eqb k k'); [injection E as <-; exact Hv | exact (IH Hrest E)].
Qed.

(** A share of a baseline with shares between 0 and 1, normalised and
    rounded to 4 decimals. *)
Lemma normalized_share_near baseline mode share :
  Forall (fun share => 0 <= share /\ share <= 1) (Dict.values baseline) ->
  Dict.lookup baseline mode = Some share ->
  let total := Py.sum (Dict.values baseline) in
  exists projected,
    Dict.lookup (ModeShareModel.round_shares (ModeShareModel.normalize baseline)) mode
    = Some projected
    /\ (0 < total -> Qabs (projected - share / total) <= 0.0001)
    /\ (Qabs (total - 1) <= 0.000001 -> Qabs (projected - share) <= 0.0001).
Proof.
  intros Hall Hlook total.
  pose proof (lookup_in_values baseline mode share _ Hall Hlook) as [Hs0 Hs1].
  cbv beta in Hs0, Hs1.
  unfold ModeShareModel.round_shares, ModeShareModel.normalize. fold total.
  destruct (Py.lt 0 total) eqn:Elt.
  - apply lt_true in Elt.
    rewrite !lookup_map_values, Hlook. cbn [option_map].
    eexists. split; [reflexivity |].
    split; [intros _; exact (round_within _ 4) |].
    intro Hone. apply Qabs_Qle_condition in Hone.
    pose proof (round_near (share / total) 4) as Hnear.
    apply Qabs_Qle_condition in Hnear.
    assert (Eh : (1 # 2 * Py.pow10 4) == 0.00005) by reflexivity.
    rewrite Eh in Hnear.
    assert (Ex : share == total * (share / total)) by (field; lra).
    set (x := share / total) in *.
    set (y := Py.round x 4) in *.
    assert (Hx0 : 0 <= x) by (unfold x; apply Qle_shift_div_l; lra).
    clearbody x y.
    assert (Hx2 : x <= 2) by nra.
    apply Qabs_Qle_condition. split; nra.
  - apply lt_false in Elt.
    rewrite lookup_map_values, Hlook. cbn [option_map].
    eexists. split; [reflexivity |].
    split; [intro H; lra |].
    intro Hone. apply Qabs_Qle_condition in Hone. lra.
Qed.

(** X16.  With no price change (no fuel tax, no transit subsidy, a
    congestion price that is absent, zero or negative)
    [ModeShareModel.calculate] returns on every simulator whose
    baseline shares are of moderate size, whatever the other
    parameters: [baseline_shares] is the mode share of the parameter
    set and the projected shares have its modes.  For baseline shares
    between 0 and 1 each projected share is, to the fourth decimal it is
    rounded to, the baseline share divided by the total of the shares,
    hence the baseline share itself when that total is 1 (to the sixth
    decimal).  A negative congestion price is ignored. *)
Theorem no_price_change_projects_the_baseline (s : Store) (adj : dict Q) :
  Dict.get adj "fuel_tax_percent" 0 == 0 ->
  Dict.get adj "pt_subsidy_percent" 0 == 0 ->
  Dict.get adj "congestion_price" 0 <= 0 ->
  let baseline := ParameterSet.mode_share (params s) in
  let total := Py.sum (Dict.values baseline) in
  moderate_mapping baseline ->
  exists r,
    ModeShareModel.calculate (Some adj) s = (inr r, s)
    /\ ModeShareResult.baseline_shares r = baseline
    /\ Dict.keys (ModeShareResult.projected_shares r) = Dict.keys baseline
    /\ (Forall (fun share => 0 <= share /\ share <= 1) (Dict.values baseline) ->
        forall mode share,
          Dict.lookup baseline mode = Some share ->
          exists projected,
            Dict.lookup (ModeShareResult.projected_shares r) mode = Some projected
            /\ (0 < total -> Qabs (projected - share / total) <= 0.0001)
            /\ (Qabs (total - 1) <= 0.000001 ->
                Qabs (projected - share) <= 0.0001)).
Proof.
  intros Hf Hs Hc baseline total _.
  destruct (ModeShareModel_calculate_returns (Some adj) s baseline)
    as [r [Hr [Hb [Hp _]]]].
  { apply shifted_shares_without_change; assumption. }
  exists r. split; [exact Hr |]. split; [exact Hb |]. split.
  - rewrite Hp, keys_round_shares, keys_normalize. reflexivity.
  - intros Hall mode share Hlook. rewrite Hp.
    exact (normalized_share_near baseline mode share Hall Hlook).
Qed.

Lemma no_price_change_projects_the_baseline_witness :
  exists r projected,
    ModeShareModel.calculate (Some [("congestion_price", -5); ("peak_multiplier", 2)])
      (PolicySimulator.init
         (Some (ParameterSet.mk 1000000 2500000 [("tram", 0.25); ("ferry", 0.75)]
                  12 35 1.3 12 1.2 1.5 8 [])))
    = (inr r,
       PolicySimulator.init
         (Some (ParameterSet.mk 1000000 2500000 [("tram", 0.25); ("ferry", 0.75)]
                  12 35 1.3 12 1.2 1.5 8 [])))
    /\ Dict.lookup (ModeShareResult.projected_shares r) "ferry" = Some projected
    /\ Qabs (projected - 0.75) <= 0.0001.
Proof.
  destruct (no_price_change_projects_the_baseline
              (PolicySimulator.init
                 (Some (ParameterSet.mk 1000000 2500000 [("tram", 0.25); ("ferry", 0.75)]
                          12 35 1.3 12 1.2 1.5 8 [])))
              [("congestion_price", -5); ("peak_multiplier", 2)])
    as [r [Hr [_ [_ Hp]]]].
  - reflexivity.
  - reflexivity.
  - discriminate.
  - moderate_numbers.
  - destruct (Hp ltac:(repeat (apply Forall_cons; [split; discriminate |]);
                       apply Forall_nil)
                "ferry" 0.75 eq_refl) as [projected [Hl [_ Hone]]].
    exists r, projected. split; [exact Hr |]. split; [exact Hl |].
    apply Hone. discriminate.
Defined.

(** The [price_changes] dictionary once the congestion price is added. *)
Lemma price_changes_run adj s :
  ModeShareModel.price_changes adj s
  = (inr [("private_car", car_price_change adj);
          ("motorcycle", Dict.get adj "fuel_tax_percent" 0 / 100);
          ("public_transit", - Dict.get adj "pt_subsidy_percent" 0 / 100);
          ("walking_cycling", 0)], s).
Proof.
  unfold ModeShareModel.price_changes, car_price_change.
  assert (Hcp : Py.lt 0 (Dict.get adj "congestion_price" 0) = true ->
                getitem adj "congestion_price"
                = ret (Dict.get adj "congestion_price" 0)).
  { unfold getitem, Dict.get.
    destruct (Dict.lookup adj "congestion_price"); [reflexivity |].
    intro H. vm_compute in H. discriminate H. }
  destruct (Py.lt 0 (Dict.get adj "congestion_price" 0)).
  - rewrite (Hcp eq_refl). reflexivity.
  - reflexivity.
Qed.

Lemma car_pricing_raises p adj :
  Dict.lookup (ParameterSet.mode_share p) "private_car" = None ->
  ~ car_price_change adj == 0 ->
  ModeShareModel.calculate (Some adj) (PolicySimulator.init (Some p))
  = (inl (KeyError "private_car"), PolicySimulator.init (Some p)).
Proof.
  intros Hmiss Hchange.
  unfold ModeShareModel.calculate.
  do 2 (erewrite bind_returns by reflexivity).
  cbn [or_empty deref].
  erewrite bind_raises; [reflexivity |].
  unfold ModeShareModel.shifted_shares.
  erewrite bind_returns by apply price_changes_run.
  erewrite bind_raises; [reflexivity |].
  rewrite for_each_cons. unfold ModeShareModel.own_price_body at 1.
  apply ne_true in Hchange. rewrite Hchange.
  do 2 (erewrite bind_returns by reflexivity).
  erewrite bind_raises; [reflexivity |].
  unfold dict_getitem, bind, gets, deref, getitem.
  cbn [params PolicySimulator.init]. rewrite Hmiss. reflexivity.
Qed.

(** X17.  A parameter set whose mode share has no [private_car] works
    as long as the price of driving does not change, but the first
    turn of the own-price loop reads [baseline["private_car"]] as soon
    as it does: with a fuel tax or a congestion price of a hundredth at
    least (neither of them negative, all three levers of moderate
    size), [ModeShareModel.calculate] raises [KeyError] with that
    key. *)
Theorem car_pricing_without_car_mode_raises_key_error
    (p : ParameterSet.t) (adj : dict Q) :
  let fuel_tax := Dict.get adj "fuel_tax_percent" 0 in
  let congestion_price := Dict.get adj "congestion_price" 0 in
  Dict.lookup (ParameterSet.mode_share p) "private_car" = None ->
  0 <= fuel_tax -> 0 <= congestion_price ->
  0.01 <= fuel_tax \/ 0.01 <= congestion_price ->
  moderate fuel_tax -> moderate congestion_price ->
  moderate (Dict.get adj "pt_subsidy_percent" 0) ->
  ModeShareModel.calculate (Some adj) (PolicySimulator.init (Some p))
  = (inl (KeyError "private_car"), PolicySimulator.init (Some p)).
Proof.
  intros fuel_tax congestion_price Hmiss Hf Hc Hone _ _ _.
  apply car_pricing_raises; [exact Hmiss |].
  unfold car_price_change. fold fuel_tax congestion_price.
  assert (Ef : fuel_tax == 100 * (fuel_tax / 100)) by field.
  set (f := fuel_tax / 100) in *.
  destruct (Py.lt 0 congestion_price) eqn:E.
  - apply lt_true in E. intro H. lra.
  - apply lt_false in E. intro H. destruct Hone; lra.
Qed.

Lemma car_pricing_without_car_mode_raises_key_error_witness :
  ModeShareModel.calculate (Some [("fuel_tax_percent", 10)])
    (PolicySimulator.init
       (Some (ParameterSet.mk 1000000 2500000 [("tram", 0.25); ("ferry", 0.75)]
                12 35 1.3 12 1.2 1.5 8 [])))
  = (inl (KeyError "private_car"),
     PolicySimulator.init
       (Some (ParameterSet.mk 1000000 2500000 [("tram", 0.25); ("ferry", 0.75)]
                12 35 1.3 12 1.2 1.5 8 []))).
Proof.
  apply (car_pricing_without_car_mode_raises_key_error
           (ParameterSet.mk 1000000 2500000 [("tram", 0.25); ("ferry", 0.75)]
              12 35 1.3 12 1.2 1.5 8 []) [("fuel_tax_percent", 10)]).
  - reflexivity.
  - discriminate.
  - discriminate.
  - left. discriminate.
  - moderate_numbers.
  - moderate_numbers.
  - moderate_numbers.
Defined.

(** The shares of the default parameter set after the elasticity
    loops, one by one. *)
Lemma default_shifted_entries adj :
  exists v1 v2 v3 v4,
    ModeShareModel.shifted_shares adj
      (Local (ParameterSet.mode_share DEFAULT_PARAMS))
      (Local (ParameterSet.mode_share DEFAULT_PARAMS))
      (PolicySimulator.init None)
    = (inr (Local [("private_car", v1); ("motorcycle", v2);
                   ("public_transit", v3); ("walking_cycling", v4)]),
       PolicySimulator.init None)
    /\ v1 == 0.45 * (1 + -0.3 * car_price_change adj)
             * (1 + 0.3 * (- Dict.get adj "pt_subsidy_percent" 0 / 100))
    /\ v2 == 0.25 * (1 + -0.4 * (Dict.get adj "fuel_tax_percent" 0 / 100))
    /\ v3 == 0.20 * (1 + -0.4 * (- Dict.get adj "pt_subsidy_percent" 0 / 100))
             * (1 + 0.2 * car_price_change adj)
    /\ v4 == 0.10.
Proof.
  destruct (shifted_shares_default adj) as [shifted [Hrun Hsame]].
  unfold default_shifted in Hsame.
  inversion Hsame as [| [k1 v1] b1 l1 l1' [Hk1 Hv1] Hsame1]; subst; clear Hsame.
  inversion Hsame1 as [| [k2 v2] b2 l2 l2' [Hk2 Hv2] Hsame2]; subst; clear Hsame1.
  inversion Hsame2 as [| [k3 v3] b3 l3 l3' [Hk3 Hv3] Hsame3]; subst; clear Hsame2.
  inversion Hsame3 as [| [k4 v4] b4 l4 l4' [Hk4 Hv4] Hsame4]; subst; clear Hsame3.
  inversion Hsame4; subst; clear Hsame4.
  simpl in Hk1, Hk2, Hk3, Hk4, Hv1, Hv2, Hv3, Hv4. subst k1 k2 k3 k4.
  exists v1, v2, v3, v4. split; [exact Hrun |].
  repeat split; assumption.
Qed.

Lemma car_share_negative_from_34 (adj : dict Q) :
  levers_in_range adj ->
  34 <= Dict.get adj "congestion_price" 0 ->
  exists r car,
    ModeShareModel.calculate (Some adj) (PolicySimulator.init None)
    = (inr r, PolicySimulator.init None)
    /\ Dict.lookup (ModeShareResult.projected_shares r) "private_car" = Some car
    /\ car <= -0.0063.
Proof.
  intros Hrange Hcp.
  pose proof (default_total_positive adj Hrange) as Htotal.
  destruct Hrange as [[Hf0 Hf100] [[Hs0 Hs100] [Hc0 Hc50]]].
  destruct (default_shifted_entries adj) as [v1 [v2 [v3 [v4 [Hrun [Hv1 [Hv2 [Hv3 Hv4]]]]]]]].
  destruct (ModeShareModel_calculate_returns (Some adj) (PolicySimulator.init None)
              _ Hrun) as [r [Hr [_ [Hp _]]]].
  unfold default_shifted in Htotal.
  change (Dict.values ?d) with (map snd d) in Htotal.
  cbv beta iota delta [map snd] in Htotal. rewrite sum_four in Htotal.
  assert (Et : - Dict.get adj "pt_subsidy_percent" 0 / 100
               == - (Dict.get adj "pt_subsidy_percent" 0 / 100)) by field.
  rewrite Et in Htotal, Hv1, Hv3.
  rewrite <- Hv1, <- Hv2, <- Hv3 in Htotal.
  assert (Ecar : car_price_change adj
                 == Dict.get adj "fuel_tax_percent" 0 / 100
                    + Dict.get adj "congestion_price" 0 * 0.1).
  { unfold car_price_change.
    assert (E : Py.lt 0 (Dict.get adj "congestion_price" 0) = true)
      by (apply lt_true; lra).
    rewrite E. reflexivity. }
  destruct (percent_bounds _ Hf0 Hf100) as [Hf Hf'].
  destruct (percent_bounds _ Hs0 Hs100) as [Hs Hs'].
  rewrite Ecar in Hv1, Hv3.
  set (f := Dict.get adj "fuel_tax_percent" 0 / 100) in *.
  set (u := Dict.get adj "pt_subsidy_percent" 0 / 100) in *.
  set (cp := Dict.get adj "congestion_price" 0) in *.
  clearbody f u cp.
  assert (Hneg : v1 <= -0.0063).
  { rewrite Hv1.
    assert (H1 : 1 + -0.3 * (f + cp * 0.1) <= -0.02) by lra.
    assert (H2 : 0.7 <= 1 + 0.3 * - u) by lra.
    assert (H3 : 1 + 0.3 * - u <= 1) by lra.
    nra. }
  assert (Hle1 : v1 + v2 + v3 + v4 <= 1).
  { rewrite Hv1, Hv2, Hv3, Hv4.
    assert (E : 0.45 * (1 + -0.3 * (f + cp * 0.1)) * (1 + 0.3 * - u)
                + 0.25 * (1 + -0.4 * f)
                + 0.20 * (1 + -0.4 * - u) * (1 + 0.2 * (f + cp * 0.1)) + 0.10
                == 1 - 0.055 * u - 0.1 * f
                   - (f + cp * 0.1) * (0.095 - 0.0565 * u)) by ring.
    rewrite E.
    assert (0 <= (f + cp * 0.1) * (0.095 - 0.0565 * u)) by nra.
    lra. }
  assert (Htot4 : 0 < v1 + v2 + v3 + v4) by (rewrite Hv4; exact Htotal).
  exists r, (Py.round (v1 / (v1 + v2 + v3 + v4)) 4).
  split; [exact Hr |]. split.
  - rewrite Hp. apply projected_car_share. exact Htot4.
  - apply Qle_trans with (Py.round (-0.0063) 4); [| discriminate].
    apply round_mono. apply Qle_shift_div_r; [exact Htot4 |].
    set (T := v1 + v2 + v3 + v4) in *. nra.
Qed.

(** X18.  With the default parameter set and the three levers within
    the ranges of the policy catalogue, a congestion price of 34 or
    more makes the projected private-car share negative (-0.0063 or
    lower): the price change of driving, a tenth of the congestion
    price plus the fuel tax, is then above 10/3, where the own-price
    factor [1 - 0.3 * change] changes sign, while the total by which
    the shares are divided stays positive. *)
Theorem congestion_price_from_34_makes_car_share_negative (adj : dict Q) :
  levers_in_range adj ->
  34 <= Dict.get adj "congestion_price" 0 ->
  exists r car,
    ModeShareModel.calculate (Some adj) (PolicySimulator.init None)
    = (inr r, PolicySimulator.init None)
    /\ Dict.lookup (ModeShareResult.projected_shares r) "private_car" = Some car
    /\ car <= -0.0063.
Proof. exact (car_share_negative_from_34 adj). Qed.

Lemma congestion_price_from_34_makes_car_share_negative_witness :
  exists r car,
    ModeShareModel.calculate (Some [("congestion_price", 50)])
      (PolicySimulator.init None) = (inr r, PolicySimulator.init None)
    /\ Dict.lookup (ModeShareResult.projected_shares r) "private_car" = Some car
    /\ car <= -0.0063.
Proof.
  apply (congestion_price_from_34_makes_car_share_negative [("congestion_price", 50)]).
  - repeat split; discriminate.
  - discriminate.
Defined.
(** ** What the models read of the parameter set *)

Lemma cost_blind_ret {A} (a : A) : cost_blind (ret a).
Proof. intros s1 s2 H. split; [reflexivity | exact H]. Qed.

Lemma cost_blind_raise {A} (e : exn) : cost_blind (@raise A e).
Proof. intros s1 s2 H. split; [reflexivity | exact H]. Qed.

(** A getter is blind when the blanked store is enough for it. *)
Lemma cost_blind_gets {A} (g : Store -> A) :
  (forall s, g s = g (without_cost_parameters s)) -> cost_blind (gets g).
Proof.
  intros Hg s1 s2 H. split; [| exact H].
  unfold gets. cbn [fst]. rewrite (Hg s1), (Hg s2), H. reflexivity.
Qed.

Lemma cost_blind_bind {A B} (c : M A) (f : A -> M B) :
  cost_blind c -> (forall a, cost_blind (f a)) -> cost_blind (bind c f).
Proof.
  intros Hc Hf s1 s2 H. destruct (Hc s1 s2 H) as [Hv Hs]. unfold bind.
  destruct (c s1) as [[e1 | a1] s1']; destruct (c s2) as [[e2 | a2] s2'];
    cbn [fst snd] in Hv, Hs; try discriminate Hv.
  - injection Hv as <-. split; [reflexivity | exact Hs].
  - injection Hv as <-. apply Hf. exact Hs.
Qed.

Lemma cost_blind_if {A} (b : bool) (c1 c2 : M A) :
  cost_blind c1 -> cost_blind c2 -> cost_blind (if b then c1 else c2).
Proof. destruct b; auto. Qed.

Lemma cost_blind_for_each {A X} (body : A -> X -> M A) (xs : list X) :
  (forall acc x, cost_blind (body acc x)) ->
  forall acc, cost_blind (for_each xs body acc).
Proof.
  intro Hbody. induction xs as [| x xs IH]; intro acc; cbn [for_each].
  - apply cost_blind_ret.
  - apply cost_blind_bind; [apply Hbody | exact IH].
Qed.

Lemma cost_blind_div x y : cost_blind (div x y).
Proof. unfold div. apply cost_blind_if; [apply cost_blind_raise | apply cost_blind_ret]. Qed.

Lemma cost_blind_getitem d k : cost_blind (getitem d k).
Proof.
  unfold getitem. destruct (Dict.lookup d k);
    [apply cost_blind_ret | apply cost_blind_raise].
Qed.

Lemma deref_blind r s : deref r s = deref r (without_cost_parameters s).
Proof. destruct r; reflexivity. Qed.

Lemma cost_blind_dict_items r : cost_blind (dict_items r).
Proof. apply cost_blind_gets. apply deref_blind. Qed.

Lemma cost_blind_dict_get r k v : cost_blind (dict_get r k v).
Proof. apply cost_blind_gets. intro s. rewrite <- deref_blind. reflexivity. Qed.

Lemma cost_blind_dict_copy r : cost_blind (dict_copy r).
Proof. apply cost_blind_gets. intro s. rewrite <- deref_blind. reflexivity. Qed.

Lemma cost_blind_dict_getitem r k : cost_blind (dict_getitem r k).
Proof.
  apply cost_blind_bind; [apply cost_blind_gets; apply deref_blind |].
  intro d. apply cost_blind_getitem.
Qed.

(** An assignment through a reference into the store changes a
    dictionary that is not blanked, in the same way on both stores. *)
Lemma cost_blind_dict_setitem r k v : cost_blind (dict_setitem r k v).
Proof.
  destruct r as [| | d]; [| | apply cost_blind_ret].
  - intros s1 s2 H. split; [reflexivity |]. cbn [dict_setitem snd].
    change (without_cost_parameters
              (with_params
                 (set_mode_share (Dict.set (ParameterSet.mode_share (params s1)) k v)
                    (params s1)) s1))
      with (with_params
              (set_mode_share
                 (Dict.set
                    (ParameterSet.mode_share (params (without_cost_parameters s1))) k v)
                 (params (without_cost_parameters s1)))
              (without_cost_parameters s1)).
    rewrite H. reflexivity.
  - intros s1 s2 H. split; [reflexivity |]. cbn [dict_setitem snd].
    change (without_cost_parameters
              (with_params
                 (set_emission_factors
                    (Dict.set (ParameterSet.emission_factors (params s1)) k v)
                    (params s1)) s1))
      with (with_params
              (set_emission_factors
                 (Dict.set
                    (ParameterSet.emission_factors (params (without_cost_parameters s1)))
                    k v)
                 (params (without_cost_parameters s1)))
              (without_cost_parameters s1)).
    rewrite H. reflexivity.
Qed.

Create HintDb blind.

#[export] Hint Resolve cost_blind_ret cost_blind_raise cost_blind_div
  cost_blind_getitem cost_blind_dict_items cost_blind_dict_get cost_blind_dict_copy
  cost_blind_dict_getitem cost_blind_dict_setitem : blind.

(** Walks a method body; a read of the parameter set or of a table
    passes when the blanked store gives the same value. *)
Ltac blind_step :=
  match goal with
  | |- cost_blind (bind _ _) => apply cost_blind_bind; [| intro]
  | |- cost_blind (for_each _ _ _) => apply cost_blind_for_each; intros
  | |- cost_blind (if _ then _ else _) => apply cost_blind_if
  | |- cost_blind (match ?x with (_, _) => _ end) => destruct x
  | |- cost_blind (let '(_, _) := ?x in _) => destruct x
  | |- cost_blind (param _) => apply cost_blind_gets; intro; reflexivity
  | |- cost_blind (gets _) => apply cost_blind_gets; intro; reflexivity
  | |- cost_blind _ => solve [auto with blind]
  end.

Ltac blind := repeat blind_step.

Lemma EmissionsModel_calculate_blind ms : cost_blind (EmissionsModel.calculate ms).
Proof. unfold EmissionsModel.calculate, EmissionsModel.calculate_body. blind. Qed.

Lemma EfficiencyModel_calculate_blind ms cf :
  cost_blind (EfficiencyModel.calculate ms cf).
Proof.
  unfold EfficiencyModel.calculate, EfficiencyModel.calculate_body,
    weighted_sum, weighted_sum_body.
  blind.
Qed.

Lemma ModeShareModel_calculate_blind adj : cost_blind (ModeShareModel.calculate adj).
Proof.
  unfold ModeShareModel.calculate, ModeShareModel.shifted_shares,
    ModeShareModel.price_changes, ModeShareModel.own_price_body,
    ModeShareModel.cross_price_body, ModeShareModel.shift_body.
  blind.
Qed.

Lemma blind_mode_share s1 s2 :
  without_cost_parameters s1 = without_cost_parameters s2 ->
  ParameterSet.mode_share (params s1) = ParameterSet.mode_share (params s2).
Proof.
  intro H.
  apply (f_equal (fun s => ParameterSet.mode_share (params s))) in H. exact H.
Qed.

(** The three sections of a simulation result that come from blind
    models. *)
Lemma simulate_blind_sections adj s1 s2 r1 r2 :
  without_cost_parameters s1 = without_cost_parameters s2 ->
  fst (PolicySimulator.simulate adj s1) = inr r1 ->
  fst (PolicySimulator.simulate adj s2) = inr r2 ->
  SimulationResult.mode_share r1 = SimulationResult.mode_share r2
  /\ SimulationResult.emissions r1 = SimulationResult.emissions r2
  /\ SimulationResult.efficiency r1 = SimulationResult.efficiency r2.
Proof.
  intros H H1 H2.
  destruct (simulate_pipeline adj s1 r1 H1) as [Hm1 [He1 [_ [_ [Hf1 _]]]]].
  destruct (simulate_pipeline adj s2 r2 H2) as [Hm2 [He2 [_ [_ [Hf2 _]]]]].
  assert (Em : SimulationResult.mode_share r1 = SimulationResult.mode_share r2).
  { pose proof (proj1 (ModeShareModel_calculate_blind (Some (or_empty adj)) s1 s2 H)) as E.
    rewrite Hm1, Hm2 in E. cbn [fst] in E. congruence. }
  rewrite <- Em in He2, Hf2.
  rewrite <- (blind_mode_share s1 s2 H) in Hf2.
  split; [exact Em |]. split.
  - match type of He1 with
    | EmissionsModel.calculate ?ms _ = _ =>
        pose proof (proj1 (EmissionsModel_calculate_blind ms s1 s2 H)) as E
    end.
    rewrite He1, He2 in E. cbn [fst] in E. congruence.
  - match type of Hf1 with
    | EfficiencyModel.calculate ?ms ?cf _ = _ =>
        pose proof (proj1 (EfficiencyModel_calculate_blind ms cf s1 s2 H)) as E
    end.
    rewrite Hf1, Hf2 in E. cbn [fst] in E. congruence.
Qed.

(** X19.  [ModeShareModel], [EmissionsModel] and [EfficiencyModel]
    read nothing of the fuel price, the transit fare, the hourly wage,
    the fuel efficiency and [avg_trip_time_minutes]: on two simulators
    that differ in these five parameters only, each [calculate] ends in
    the same way, and the [mode_share], [emissions] and [efficiency]
    sections of two results of [simulate] are equal.  (The travel times
    of [EfficiencyModel] come from its own [base_times], not from
    [avg_trip_time_minutes].) *)
Theorem emissions_modes_and_efficiency_ignore_cost_parameters (s1 s2 : Store) :
  without_cost_parameters s1 = without_cost_parameters s2 ->
  (forall adj,
     fst (ModeShareModel.calculate adj s1) = fst (ModeShareModel.calculate adj s2))
  /\ (forall mode_share,
        fst (EmissionsModel.calculate mode_share s1)
        = fst (EmissionsModel.calculate mode_share s2))
  /\ (forall mode_share congestion_factor,
        fst (EfficiencyModel.calculate mode_share congestion_factor s1)
        = fst (EfficiencyModel.calculate mode_share congestion_factor s2))
  /\ (forall adj r1 r2,
        fst (PolicySimulator.simulate adj s1) = inr r1 ->
        fst (PolicySimulator.simulate adj s2) = inr r2 ->
        SimulationResult.mode_share r1 = SimulationResult.mode_share r2
        /\ SimulationResult.emissions r1 = SimulationResult.emissions r2
        /\ SimulationResult.efficiency r1 = SimulationResult.efficiency r2).
Proof.
  intro H. split; [| split; [| split]].
  - intro adj. apply (ModeShareModel_calculate_blind adj s1 s2 H).
  - intro ms. apply (EmissionsModel_calculate_blind ms s1 s2 H).
  - intros ms cf. apply (EfficiencyModel_calculate_blind ms cf s1 s2 H).
  - intros adj r1 r2. apply simulate_blind_sections. exact H.
Qed.

Lemma emissions_modes_and_efficiency_ignore_cost_parameters_witness :
  fst (EmissionsModel.calculate None (PolicySimulator.init None))
  = fst (EmissionsModel.calculate None
           (PolicySimulator.init
              (Some (ParameterSet.mk 1000000 2500000
                       (ParameterSet.mode_share DEFAULT_PARAMS) 12.0 90 1.3 7 40 25 100
                       (ParameterSet.emission_factors DEFAULT_PARAMS))))).
Proof.
  apply (emissions_modes_and_efficiency_ignore_cost_parameters
           (PolicySimulator.init None)
           (PolicySimulator.init
              (Some (ParameterSet.mk 1000000 2500000
                       (ParameterSet.mode_share DEFAULT_PARAMS) 12.0 90 1.3 7 40 25 100
                       (ParameterSet.emission_factors DEFAULT_PARAMS))))).
  reflexivity.
Defined.

(** ** config.get_context_params *)

(** The parameter set of a context: only the malaysia and thailand
    templates have entries under keys of the parameter set. *)
Lemma get_context_params_cases name :
  exists p,
    Config.get_context_params name
    = Some {| ContextParams.parameters := p;
              ContextParams.context_info := Dict.lookup REGIONAL_CONTEXTS name |}
    /\ (name = "malaysia"
        /\ p = ParameterSet.mk 1000000 2500000 (ParameterSet.mode_share DEFAULT_PARAMS)
                 12.0 35.0 1.3 12.0 2.05 3.00 15.00
                 (ParameterSet.emission_factors DEFAULT_PARAMS)
        \/ name = "thailand"
           /\ p = ParameterSet.mk 1000000 2500000 (ParameterSet.mode_share DEFAULT_PARAMS)
                    12.0 35.0 1.3 12.0 40.0 25.0 100.0
                    (ParameterSet.emission_factors DEFAULT_PARAMS)
        \/ name <> "malaysia" /\ name <> "thailand" /\ p = DEFAULT_PARAMS).
Proof.
  unfold Config.get_context_params, REGIONAL_CONTEXTS. cbn [Dict.lookup].
  destruct (String.eqb_spec name "default") as [-> | Hd].
  { eexists. split; [reflexivity |]. right. right.
    repeat split; discriminate || reflexivity. }
  destruct (String.eqb_spec name "malaysia") as [-> | Hm].
  { eexists. split; [reflexivity |]. left. split; reflexivity. }
  destruct (String.eqb_spec name "thailand") as [-> | Ht].
  { eexists. split; [reflexivity |]. right. left. split; reflexivity. }
  destruct (String.eqb_spec name "custom") as [-> | Hc].
  { eexists. split; [reflexivity |]. right. right.
    repeat split; discriminate || reflexivity. }
  eexists. split; [reflexivity |]. right. right. repeat split; assumption.
Qed.

(** X20.  [get_context_params] returns for every context name, known
    or not.  The malaysia and thailand templates replace the fuel
    price, the transit fare and the hourly wage; every other entry of
    the parameter set is that of [DEFAULT_PARAMS] under every name,
    and so is the whole parameter set under any other name, for which
    [context_info] is the template when there is one and absent
    otherwise. *)
Theorem context_params_differ_in_prices_only (name : string) :
  exists p,
    Config.get_context_params name
    = Some {| ContextParams.parameters := p;
              ContextParams.context_info := Dict.lookup REGIONAL_CONTEXTS name |}
    /\ ParameterSet.population p = ParameterSet.population DEFAULT_PARAMS
    /\ ParameterSet.daily_trips p = ParameterSet.daily_trips DEFAULT_PARAMS
    /\ ParameterSet.mode_share p = ParameterSet.mode_share DEFAULT_PARAMS
    /\ ParameterSet.avg_trip_distance_km p
       = ParameterSet.avg_trip_distance_km DEFAULT_PARAMS
    /\ ParameterSet.avg_trip_time_minutes p
       = ParameterSet.avg_trip_time_minutes DEFAULT_PARAMS
    /\ ParameterSet.avg_vehicle_occupancy p
       = ParameterSet.avg_vehicle_occupancy DEFAULT_PARAMS
    /\ ParameterSet.fuel_efficiency_km_per_liter p
       = ParameterSet.fuel_efficiency_km_per_liter DEFAULT_PARAMS
    /\ ParameterSet.emission_factors p = ParameterSet.emission_factors DEFAULT_PARAMS
    /\ (name <> "malaysia" -> name <> "thailand" -> p = DEFAULT_PARAMS)
    /\ (name = "malaysia" ->
        ParameterSet.fuel_price_per_liter p = 2.05
        /\ ParameterSet.public_transit_fare p = 3.00
        /\ ParameterSet.avg_hourly_wage p = 15.00)
    /\ (name = "thailand" ->
        ParameterSet.fuel_price_per_liter p = 40.0
        /\ ParameterSet.public_transit_fare p = 25.0
        /\ ParameterSet.avg_hourly_wage p = 100.0).
Proof.
  destruct (get_context_params_cases name)
    as [p [Hp [[-> ->] | [[-> ->] | [Hm [Ht ->]]]]]];
    eexists; (split; [exact Hp |]);
    do 8 (split; [reflexivity |]).
  - split; [intro H; elim H; reflexivity |].
    split; [intros _; repeat split | discriminate].
  - split; [intros _ H; elim H; reflexivity |].
    split; [discriminate | intros _; repeat split].
  - split; [reflexivity |]. split; intro; contradiction.
Qed.

Lemma context_params_differ_in_prices_only_witness :
  exists p,
    Config.get_context_params "atlantis"
    = Some {| ContextParams.parameters := p; ContextParams.context_info := None |}
    /\ p = DEFAULT_PARAMS.
Proof.
  destruct (context_params_differ_in_prices_only "atlantis")
    as [p [Hp [_ [_ [_ [_ [_ [_ [_ [_ [Hd _]]]]]]]]]]].
  exists p. split; [exact Hp |]. apply Hd; discriminate.
Defined.

(** X21.  Whatever the regional context a [PolicyAgent] is built for,
    its simulator reports the mode shares, emissions and efficiency
    figures of the default context, for every policy: a simulation
    under a context and one under the default parameters that both
    return have equal [mode_share], [emissions] and [efficiency]
    sections.  The contexts change prices and wages, which these
    models do not read. *)
Theorem regional_context_leaves_physical_results_unchanged
    (name : string) (adj : option (dict Q)) :
  exists s,
    PolicyAgent.simulator name = Some s
    /\ forall r r0,
         fst (PolicySimulator.simulate adj s) = inr r ->
         fst (PolicySimulator.simulate adj (PolicySimulator.init None)) = inr r0 ->
         SimulationResult.mode_share r = SimulationResult.mode_share r0
         /\ SimulationResult.emissions r = SimulationResult.emissions r0
         /\ SimulationResult.efficiency r = SimulationResult.efficiency r0.
Proof.
  unfold PolicyAgent.simulator.
  destruct (get_context_params_cases name)
    as [p [Hp [[_ ->] | [[_ ->] | [_ [_ ->]]]]]];
    rewrite Hp; cbn [ContextParams.parameters]; eexists; (split; [reflexivity |]);
    intros r r0; apply simulate_blind_sections; reflexivity.
Qed.

Lemma regional_context_leaves_physical_results_unchanged_witness :
  exists s r r0,
    PolicyAgent.simulator "thailand" = Some s
    /\ fst (PolicySimulator.simulate (Some [("fuel_tax_percent", 20)]) s) = inr r
    /\ fst (PolicySimulator.simulate (Some [("fuel_tax_percent", 20)])
              (PolicySimulator.init None)) = inr r0
    /\ SimulationResult.emissions r = SimulationResult.emissions r0
    /\ CostResult.user_cost_per_trip (SimulationResult.cost r) == 66.08
    /\ CostResult.user_cost_per_trip (SimulationResult.cost r0) == 3.74.
Proof.
  destruct (regional_context_leaves_physical_results_unchanged "thailand"
              (Some [("fuel_tax_percent", 20)])) as [s [Hs H]].
  exists s. do 2 eexists. split; [exact Hs |].
  injection Hs as <-.
  split; [vm_compute; reflexivity |].
  split; [vm_compute; reflexivity |].
  split; [| split; vm_compute; reflexivity].
  eapply H; vm_compute; reflexivity.
Defined.
(** ** policies.py: validation and combination *)

Lemma validate_fold_raised policy defs e :
  fold_left (Policy.validate_body policy) defs (inl e) = inl e.
Proof.
  induction defs as [| [param definition] defs IH]; [reflexivity | exact IH].
Qed.

(** One turn of the loop of [validate] that does not raise: it appends
    the bounds the value is beyond, and nothing for a value within
    them. *)
Lemma validate_body_returns policy acc param definition errors :
  Policy.validate_body policy (inr acc) (param, definition) = inr errors ->
  exists more,
    errors = (acc ++ more)%list
    /\ (forall error, In error more ->
        match error with
        | MustBeAtLeast param' bound =>
            param' = param
            /\ exists value x,
                 ParameterDefinition.min definition = Some bound
                 /\ Dict.lookup (Policy.parameters policy) param = Some value
                 /\ PolicyValue.as_number value = Some x /\ x < bound
        | MustBeAtMost param' bound =>
            param' = param
            /\ exists value x,
                 ParameterDefinition.max definition = Some bound
                 /\ Dict.lookup (Policy.parameters policy) param = Some value
                 /\ PolicyValue.as_number value = Some x /\ bound < x
        end)
    /\ (more = [] <->
        forall value x,
          Dict.lookup (Policy.parameters policy) param = Some value ->
          PolicyValue.as_number value = Some x -> within_bounds definition x).
Proof.
  unfold Policy.validate_body, within_bounds.
  destruct (Dict.lookup (Policy.parameters policy) param) as [value |].
  2:{ intro H. injection H as <-. exists []. rewrite app_nil_r.
      split; [reflexivity |]. split; [intros error [] |].
      split; [intros _ value x Hv; discriminate Hv | reflexivity]. }
  destruct (ParameterDefinition.min definition) as [lo |];
    destruct (ParameterDefinition.max definition) as [hi |];
    destruct (PolicyValue.as_number value) as [x |] eqn:Ex; try discriminate;
    try destruct (Py.lt x lo) eqn:Elo; try destruct (Py.lt hi x) eqn:Ehi;
    try apply lt_true in Elo; try apply lt_false in Elo;
    try apply lt_true in Ehi; try apply lt_false in Ehi;
    intro H; injection H as <-.
  - exists [MustBeAtLeast param lo; MustBeAtMost param hi].
    rewrite <- app_assoc. split; [reflexivity |]. split.
    + intros error [<- | [<- | []]]; (split; [reflexivity |]); exists value, x; (do 2 (split; [reflexivity |])); (split; assumption).
    + split; [discriminate |]. intro Hw.
      destruct (Hw value x eq_refl Ex) as [Hmin _].
      specialize (Hmin lo eq_refl). lra.
  - exists [MustBeAtLeast param lo]. split; [reflexivity |]. split.
    + intros error [<- | []]. split; [reflexivity |]. exists value, x. do 2 (split; [reflexivity |]). split; assumption.
    + split; [discriminate |]. intro Hw.
      destruct (Hw value x eq_refl Ex) as [Hmin _].
      specialize (Hmin lo eq_refl). lra.
  - exists [MustBeAtMost param hi]. split; [reflexivity |]. split.
    + intros error [<- | []]. split; [reflexivity |]. exists value, x. do 2 (split; [reflexivity |]). split; assumption.
    + split; [discriminate |]. intro Hw.
      destruct (Hw value x eq_refl Ex) as [_ Hmax].
      specialize (Hmax hi eq_refl). lra.
  - exists []. rewrite app_nil_r. split; [reflexivity |]. split; [intros error [] |].
    split; [| reflexivity]. intros _ v y Hv Hy.
    injection Hv as <-. rewrite Ex in Hy. injection Hy as <-.
    split; intros bound Hb; injection Hb as <-; assumption.
  - exists [MustBeAtLeast param lo]. split; [reflexivity |]. split.
    + intros error [<- | []]. split; [reflexivity |]. exists value, x. do 2 (split; [reflexivity |]). split; assumption.
    + split; [discriminate |]. intro Hw.
      destruct (Hw value x eq_refl Ex) as [Hmin _].
      specialize (Hmin lo eq_refl). lra.
  - exists []. rewrite app_nil_r. split; [reflexivity |]. split; [intros error [] |].
    split; [| reflexivity]. intros _ v y Hv Hy.
    injection Hv as <-. rewrite Ex in Hy. injection Hy as <-.
    split; intros bound Hb; [injection Hb as <-; assumption | discriminate Hb].
  - exists [MustBeAtMost param hi]. split; [reflexivity |]. split.
    + intros error [<- | []]. split; [reflexivity |]. exists value, x. do 2 (split; [reflexivity |]). split; assumption.
    + split; [discriminate |]. intro Hw.
      destruct (Hw value x eq_refl Ex) as [_ Hmax].
      specialize (Hmax hi eq_refl). lra.
  - exists []. rewrite app_nil_r. split; [reflexivity |]. split; [intros error [] |].
    split; [| reflexivity]. intros _ v y Hv Hy.
    injection Hv as <-. rewrite Ex in Hy. injection Hy as <-.
    split; intros bound Hb; [discriminate Hb | injection Hb as <-; assumption].
  - exists []. rewrite app_nil_r. split; [reflexivity |]. split; [intros error [] |].
    split; [| reflexivity]. intros _ v y _ _. split; intros bound Hb; discriminate Hb.
  - exists []. rewrite app_nil_r. split; [reflexivity |]. split; [intros error [] |].
    split; [| reflexivity]. intros _ v y Hv Hy.
    injection Hv as <-. rewrite Ex in Hy. discriminate Hy.
Qed.

Lemma validate_fold policy defs acc errors :
  fold_left (Policy.validate_body policy) defs (inr acc) = inr errors ->
  exists more,
    errors = (acc ++ more)%list
    /\ (forall error, In error more ->
        match error with
        | MustBeAtLeast param bound =>
            exists definition value x,
              In (param, definition) defs
              /\ ParameterDefinition.min definition = Some bound
              /\ Dict.lookup (Policy.parameters policy) param = Some value
              /\ PolicyValue.as_number value = Some x /\ x < bound
        | MustBeAtMost param bound =>
            exists definition value x,
              In (param, definition) defs
              /\ ParameterDefinition.max definition = Some bound
              /\ Dict.lookup (Policy.parameters policy) param = Some value
              /\ PolicyValue.as_number value = Some x /\ bound < x
        end)
    /\ (more = [] <->
        forall param definition value x,
          In (param, definition) defs ->
          Dict.lookup (Policy.parameters policy) param = Some value ->
          PolicyValue.as_number value = Some x -> within_bounds definition x).
Proof.
  revert acc. induction defs as [| [param definition] defs IH]; intros acc H.
  - cbn in H. injection H as <-. exists []. rewrite app_nil_r.
    split; [reflexivity |]. split; [intros error [] |].
    split; [intros _ ? ? ? ? [] | reflexivity].
  - cbn [fold_left] in H.
    destruct (Policy.validate_body policy (inr acc) (param, definition))
      as [e | acc1] eqn:E.
    { rewrite validate_fold_raised in H. discriminate H. }
    destruct (validate_body_returns _ _ _ _ _ E) as [more1 [-> [Hj1 Hw1]]].
    destruct (IH _ H) as [more2 [-> [Hj2 Hw2]]].
    exists (more1 ++ more2)%list. rewrite app_assoc. split; [reflexivity |]. split.
    + intros error Hin. apply in_app_or in Hin. destruct Hin as [Hin | Hin].
      * specialize (Hj1 error Hin).
        destruct error as [param' bound | param' bound];
          destruct Hj1 as [-> [value [x Hx]]];
          exists definition, value, x; (split; [left; reflexivity | exact Hx]).
      * specialize (Hj2 error Hin).
        destruct error as [param' bound | param' bound];
          destruct Hj2 as [definition' [value [x [Hd Hx]]]];
          exists definition', value, x; (split; [right; exact Hd | exact Hx]).
    + split.
      * intros Hnil. apply app_eq_nil in Hnil. destruct Hnil as [H1 H2].
        intros param' definition' value x [Hd | Hd].
        -- injection Hd as <- <-. apply (proj1 Hw1 H1).
        -- apply (proj1 Hw2 H2). exact Hd.
      * intro Hall.
        assert (E1 : more1 = []).
        { apply Hw1. intros value x. apply Hall. left. reflexivity. }
        assert (E2 : more2 = []).
        { apply Hw2. intros param' definition' value x Hd. apply Hall. right. exact Hd. }
        rewrite E1, E2. reflexivity.
Qed.

(** X22.  When [Policy.validate] returns, each entry of its list names
    a parameter that has a value and a definition with a bound the
    value is beyond, and the list is empty exactly when every parameter
    that has a definition lies within the bounds the definition gives.
    Definitions without [min] or [max] (the target groups, the
    revenue flag) and parameters without a definition are not
    checked. *)
Theorem validate_lists_exactly_the_bounds_exceeded
    (policy : Policy.t) (errors : list validation_error) :
  Policy.validate policy = inr errors ->
  (forall error, In error errors -> justified policy error)
  /\ (errors = [] <->
      forall param definition value x,
        In (param, definition) (Policy.parameter_definitions policy) ->
        Dict.lookup (Policy.parameters policy) param = Some value ->
        PolicyValue.as_number value = Some x -> within_bounds definition x).
Proof.
  intro H. unfold Policy.validate in H.
  destruct (validate_fold _ _ _ _ H) as [more [-> [Hj Hw]]].
  cbn [app]. split; [| exact Hw].
  intros error Hin. specialize (Hj error Hin).
  destruct error; exact Hj.
Qed.

Lemma validate_lists_exactly_the_bounds_exceeded_witness :
  Policy.validate (CongestionPricingPolicy (Some (Num 60)) None)
  = inr [MustBeAtMost "congestion_price" 50]
  /\ justified (CongestionPricingPolicy (Some (Num 60)) None)
       (MustBeAtMost "congestion_price" 50).
Proof.
  split; [reflexivity |].
  apply (validate_lists_exactly_the_bounds_exceeded
           (CongestionPricingPolicy (Some (Num 60)) None)
           [MustBeAtMost "congestion_price" 50]).
  - reflexivity.
  - left. reflexivity.
Defined.

(** ** Combining the policies of a scenario *)

Lemma lookup_update {V} (d other : dict V) k :
  NoDup (Dict.keys other) ->
  Dict.lookup (PolicyScenario.update d other) k
  = match Dict.lookup other k with
    | Some v => Some v
    | None => Dict.lookup d k
    end.
Proof.
  unfold PolicyScenario.update. revert d.
  induction other as [| [k1 v1] other IH]; intros d Hnd.
  - reflexivity.
  - inversion Hnd as [| ? ? Hk1 Hnd']; subst.
    cbn [fold_left fst snd]. rewrite (IH _ Hnd'). cbn [Dict.lookup].
    destruct (String.eqb_spec k k1) as [-> | Hne].
    + destruct (Dict.lookup other k1) eqn:E.
      * exfalso. apply Hk1. apply lookup_in_keys. congruence.
      * apply lookup_set_same.
    + destruct (Dict.lookup other k); [reflexivity |].
      apply lookup_set_other. exact Hne.
Qed.

(** X23.  In the combined adjustments of a scenario a later policy
    overrides an earlier one: the entry under a key is that of the
    last policy that has the key.  A scenario without policies gives
    the empty dictionary, the baseline. *)
Theorem combined_adjustments_let_later_policies_win
    (name description : string) (earlier : list Policy.t) (last : Policy.t)
    (key : string) :
  NoDup (Dict.keys (Policy.parameters last)) ->
  Dict.lookup
    (PolicyScenario.get_combined_adjustments
       (PolicyScenario.mk name description (earlier ++ [last])%list)) key
  = match Dict.lookup (Policy.parameters last) key with
    | Some value => Some value
    | None =>
        Dict.lookup
          (PolicyScenario.get_combined_adjustments
             (PolicyScenario.mk name description earlier)) key
    end
  /\ PolicyScenario.get_combined_adjustments (PolicyScenario.mk name description [])
     = [].
Proof.
  intro Hnd. split; [| reflexivity].
  unfold PolicyScenario.get_combined_adjustments. cbn [PolicyScenario.policies].
  rewrite fold_left_app. cbn [fold_left].
  apply lookup_update. exact Hnd.
Qed.

Lemma combined_adjustments_let_later_policies_win_witness :
  Dict.lookup (PolicyScenario.get_combined_adjustments ScenarioLibrary.get_green_transport)
    "fuel_tax_percent"
  = Some (Num 30.0)
  /\ PolicyScenario.get_combined_adjustments ScenarioLibrary.get_baseline = [].
Proof.
  split.
  - apply (combined_adjustments_let_later_policies_win "Green Transport"
             "Aggressive policies to reduce transportation emissions."
             [CongestionPricingPolicy (Some (Num 8.0)) None;
              PublicTransitSubsidyPolicy (Some (Num 50.0)) None]
             (FuelTaxPolicy (Some (Num 30.0)) None) "fuel_tax_percent").
    repeat constructor; simpl; intuition discriminate.
  - reflexivity.
Defined.

(** ** Policies of the catalogue in the simulation *)

Lemma adjustment_map_two k1 v1 k2 v2 key :
  key <> k1 -> key <> k2 ->
  Dict.lookup (adjustment_map [(k1, v1); (k2, v2)]) key = None.
Proof.
  intros H1 H2. cbn [adjustment_map].
  destruct (PolicyValue.as_number v1); destruct (PolicyValue.as_number v2);
    cbn [Dict.lookup];
    repeat match goal with
      | |- context [String.eqb key ?k] =>
          destruct (String.eqb_spec key k); [contradiction |]
      end; reflexivity.
Qed.

(** X24.  The EV-incentive and parking-management policies of the
    registry change nothing in a simulation: whatever arguments the
    policy is built with, [simulate] on its adjustments gives the
    result of the baseline [simulate({})], on every simulator.  Their
    parameters are not among the three keys the models read. *)
Theorem ev_and_parking_policies_leave_the_simulation_unchanged
    (policy_id : string) (kwargs : dict parameter_value) (policy : Policy.t)
    (s : Store) :
  policy_id = "ev_incentive" \/ policy_id = "parking_policy" ->
  PolicyRegistry.get_policy policy_id kwargs = inr policy ->
  PolicySimulator.simulate (Some (adjustment_map (Policy.get_adjustments policy))) s
  = PolicySimulator.simulate (Some []) s.
Proof.
  intros Hid Hget. apply simulate_same_levers.
  intros key Hkey. cbn [Dict.lookup].
  assert (Hk : key = "fuel_tax_percent" \/ key = "pt_subsidy_percent"
               \/ key = "congestion_price").
  { cbn in Hkey. intuition congruence. }
  destruct Hid as [-> | ->]; cbn in Hget; unfold PolicyRegistry.call in Hget;
    match type of Hget with
    | match find ?f ?l with _ => _ end = _ => destruct (find f l); [discriminate Hget |]
    end;
    injection Hget as <-; unfold Policy.get_adjustments;
    cbn [Policy.parameters EVIncentivePolicy ParkingManagementPolicy];
    apply adjustment_map_two;
    destruct Hk as [-> | [-> | ->]]; discriminate.
Qed.

Lemma ev_and_parking_policies_leave_the_simulation_unchanged_witness :
  exists policy,
    PolicyRegistry.get_policy "parking_policy" [("hourly_rate", Num 2.0)] = inr policy
    /\ PolicySimulator.simulate
         (Some (adjustment_map (Policy.get_adjustments policy)))
         (PolicySimulator.init None)
       = PolicySimulator.simulate (Some []) (PolicySimulator.init None).
Proof.
  eexists. split; [reflexivity |].
  apply (ev_and_parking_policies_leave_the_simulation_unchanged "parking_policy"
           [("hourly_rate", Num 2.0)]).
  - right. reflexivity.
  - reflexivity.
Defined.

(** X25.  A congestion-pricing policy with a price from 34 to 50
    passes [validate] (the catalogue allows prices up to 50), and the
    mode-share model then projects a negative private-car share for
    the default parameter set. *)
Theorem accepted_congestion_price_gives_negative_car_share
    (price : Q) (peak_multiplier : option parameter_value) :
  34 <= price -> price <= 50 ->
  (forall v, peak_multiplier = Some v -> exists m, v = Num m /\ 1 <= m /\ m <= 3) ->
  let policy := CongestionPricingPolicy (Some (Num price)) peak_multiplier in
  Policy.validate policy = inr []
  /\ exists r car,
       ModeShareModel.calculate
         (Some (adjustment_map (Policy.get_adjustments policy)))
         (PolicySimulator.init None)
       = (inr r, PolicySimulator.init None)
       /\ Dict.lookup (ModeShareResult.projected_shares r) "private_car" = Some car
       /\ car < 0.
Proof.
  intros Hlo Hhi Hpeak policy.
  assert (Hm : exists m, arg_or peak_multiplier (Num 1.5) = Num m /\ 1 <= m /\ m <= 3).
  { destruct peak_multiplier as [v |].
    - destruct (Hpeak v eq_refl) as [m [-> Hm]]. exists m. split; [reflexivity | exact Hm].
    - exists 1.5. split; [reflexivity |]. split; discriminate. }
  destruct Hm as [m [Em [Hm1 Hm3]]].
  split.
  - unfold Policy.validate, policy. cbn [Policy.parameter_definitions
      CongestionPricingPolicy fold_left Policy.validate_body Policy.parameters
      Dict.lookup String.eqb Ascii.eqb Bool.eqb ParameterDefinition.min
      ParameterDefinition.max PolicyValue.as_number arg_or].
    assert (E1 : Py.lt price 0 = false) by (apply lt_false; lra).
    assert (E2 : Py.lt 50 price = false) by (apply lt_false; lra).
    rewrite E1, E2. cbn [app]. rewrite Em. cbn [PolicyValue.as_number].
    assert (E3 : Py.lt m 1.0 = false).
    { apply lt_false. assert ((1.0 : Q) == 1) by reflexivity. lra. }
    assert (E4 : Py.lt 3.0 m = false).
    { apply lt_false. assert ((3.0 : Q) == 3) by reflexivity. lra. }
    rewrite E3, E4. reflexivity.
  - destruct (car_share_negative_from_34
                (adjustment_map (Policy.get_adjustments policy)))
      as [r [car [Hr [Hc Hneg]]]].
    + unfold policy, Policy.get_adjustments.
      cbn [Policy.parameters CongestionPricingPolicy adjustment_map arg_or
           PolicyValue.as_number].
      rewrite Em. cbn [PolicyValue.as_number].
      unfold levers_in_range, Dict.get.
      cbn [Dict.lookup String.eqb Ascii.eqb Bool.eqb].
      repeat split; try discriminate; lra.
    + unfold policy, Policy.get_adjustments.
      cbn [Policy.parameters CongestionPricingPolicy adjustment_map arg_or
           PolicyValue.as_number].
      rewrite Em. cbn [PolicyValue.as_number].
      unfold Dict.get. cbn [Dict.lookup String.eqb Ascii.eqb Bool.eqb]. exact Hlo.
    + exists r, car. split; [exact Hr |]. split; [exact Hc |].
      assert (E : -0.0063 < 0) by reflexivity. lra.
Qed.

Lemma accepted_congestion_price_gives_negative_car_share_witness :
  Policy.validate (CongestionPricingPolicy (Some (Num 40)) None) = inr []
  /\ exists r car,
       ModeShareModel.calculate
         (Some (adjustment_map
                  (Policy.get_adjustments (CongestionPricingPolicy (Some (Num 40)) None))))
         (PolicySimulator.init None)
       = (inr r, PolicySimulator.init None)
       /\ Dict.lookup (ModeShareResult.projected_shares r) "private_car" = Some car
       /\ car < 0.
Proof.
  apply (accepted_congestion_price_gives_negative_car_share 40 None).
  - discriminate.
  - discriminate.
  - discriminate.
Defined.

(** ** PolicyRegistry.get_policy *)

Lemma call_outcome cls first second kwargs :
  (exists key,
     In key (Dict.keys kwargs) /\ key <> first /\ key <> second
     /\ PolicyRegistry.call cls first second kwargs = inl (TypeError key))
  \/ (Forall (fun key => key = first \/ key = second) (Dict.keys kwargs)
      /\ PolicyRegistry.call cls first second kwargs
         = inr (cls (Dict.lookup kwargs first) (Dict.lookup kwargs second))).
Proof.
  unfold PolicyRegistry.call.
  destruct (find (fun key => negb (String.eqb key first || String.eqb key second)%bool)
              (Dict.keys kwargs)) as [key |] eqn:E.
  - left. apply find_some in E. destruct E as [Hin Hneg].
    apply negb_true_iff, orb_false_iff in Hneg. destruct Hneg as [H1 H2].
    exists key. split; [exact Hin |].
    split; [apply String.eqb_neq; exact H1 |].
    split; [apply String.eqb_neq; exact H2 | reflexivity].
  - right. split; [| reflexivity].
    apply Forall_forall. intros key Hin.
    pose proof (find_none _ _ E key Hin) as Hn. cbv beta in Hn.
    apply negb_false_iff, orb_true_iff in Hn.
    destruct Hn as [H | H]; apply String.eqb_eq in H; auto.
Qed.

Lemma call_cases cls first second kwargs :
  (~ Forall (fun key => In key [first; second]) (Dict.keys kwargs) ->
   exists key,
     In key (Dict.keys kwargs) /\ ~ In key [first; second]
     /\ PolicyRegistry.call cls first second kwargs = inl (TypeError key))
  /\ (Forall (fun key => In key [first; second]) (Dict.keys kwargs) ->
      PolicyRegistry.call cls first second kwargs
      = inr (cls (Dict.lookup kwargs first) (Dict.lookup kwargs second))).
Proof.
  destruct (call_outcome cls first second kwargs)
    as [[key [Hin [H1 [H2 Hc]]]] | [Hall Hc]].
  - split.
    + intros _. exists key. split; [exact Hin |]. split; [| exact Hc].
      cbn [In]. intros [E | [E | []]]; congruence.
    + intro Hall. exfalso. rewrite Forall_forall in Hall.
      destruct (Hall key Hin) as [E | [E | []]]; congruence.
  - split.
    + intro Hnot. exfalso. apply Hnot.
      eapply Forall_impl; [| exact Hall]. cbn [In]. intros key [E | E]; auto.
    + intros _. exact Hc.
Qed.

(** X29.  [PolicyRegistry.get_policy] raises [ValueError] exactly for
    an id that is not one of the five of [get_policy_ids].  For a
    registered id it raises [TypeError] exactly when some keyword is
    not a parameter of the [__init__] of the class, with such a
    keyword; otherwise it returns a policy that carries the id it was
    asked for and has a definition for each of its parameters, under
    the same keys. *)
Theorem get_policy_raises_value_error_for_unknown_ids_only
    (policy_id : string) (kwargs : dict parameter_value) :
  (~ In policy_id PolicyRegistry.get_policy_ids ->
   PolicyRegistry.get_policy policy_id kwargs = inl (ValueError policy_id))
  /\ (In policy_id PolicyRegistry.get_policy_ids ->
      (~ Forall (fun key => In key (init_keywords policy_id)) (Dict.keys kwargs) ->
       exists key,
         In key (Dict.keys kwargs) /\ ~ In key (init_keywords policy_id)
         /\ PolicyRegistry.get_policy policy_id kwargs = inl (TypeError key))
      /\ (Forall (fun key => In key (init_keywords policy_id)) (Dict.keys kwargs) ->
          exists policy,
            PolicyRegistry.get_policy policy_id kwargs = inr policy
            /\ Policy.id policy = policy_id
            /\ Dict.keys (Policy.parameters policy)
               = Dict.keys (Policy.parameter_definitions policy))).
Proof.
  unfold PolicyRegistry.get_policy_ids, PolicyRegistry.get_policy, init_keywords.
  cbn [In].
  split.
  - intro Hnot.
    repeat match goal with
      | |- context [String.eqb policy_id ?k] =>
          destruct (String.eqb_spec policy_id k);
            [exfalso; apply Hnot; subst; auto 10 |]
      end.
    reflexivity.
  - intros Hin.
    assert (Hcall : forall cls first second,
              Policy.id (cls (Dict.lookup kwargs first) (Dict.lookup kwargs second))
              = policy_id ->
              Dict.keys (Policy.parameters
                           (cls (Dict.lookup kwargs first) (Dict.lookup kwargs second)))
              = Dict.keys (Policy.parameter_definitions
                             (cls (Dict.lookup kwargs first) (Dict.lookup kwargs second))) ->
              (~ Forall (fun key => In key [first; second]) (Dict.keys kwargs) ->
               exists key,
                 In key (Dict.keys kwargs) /\ ~ In key [first; second]
                 /\ PolicyRegistry.call cls first second kwargs = inl (TypeError key))
              /\ (Forall (fun key => In key [first; second]) (Dict.keys kwargs) ->
                  exists policy,
                    PolicyRegistry.call cls first second kwargs = inr policy
                    /\ Policy.id policy = policy_id
                    /\ Dict.keys (Policy.parameters policy)
                       = Dict.keys (Policy.parameter_definitions policy))).
    { intros cls first second Hid Hkeys.
      destruct (call_cases cls first second kwargs) as [Hbad Hgood].
      split; [exact Hbad |].
      intro Hall. eexists. split; [exact (Hgood Hall) |]. split; assumption. }
    destruct (String.eqb_spec policy_id "congestion_pricing") as [-> | H1];
      [apply Hcall; reflexivity |].
    destruct (String.eqb_spec policy_id "pt_subsidy") as [-> | H2];
      [apply Hcall; reflexivity |].
    destruct (String.eqb_spec policy_id "fuel_tax") as [-> | H3];
      [apply Hcall; reflexivity |].
    destruct (String.eqb_spec policy_id "ev_incentive") as [-> | H4];
      [apply Hcall; reflexivity |].
    destruct (String.eqb_spec policy_id "parking_policy") as [-> | H5];
      [apply Hcall; reflexivity |].
    exfalso. intuition congruence.
Qed.

Lemma get_policy_raises_value_error_for_unknown_ids_only_witness :
  PolicyRegistry.get_policy "road_diet" [] = inl (ValueError "road_diet")
  /\ (exists key,
        PolicyRegistry.get_policy "fuel_tax" [("price_per_entry", Num 8)]
        = inl (TypeError key))
  /\ (exists policy,
        PolicyRegistry.get_policy "fuel_tax" [("tax_percent", Num 8)] = inr policy
        /\ Policy.id policy = "fuel_tax").
Proof.
  split; [| split].
  - apply (get_policy_raises_value_error_for_unknown_ids_only "road_diet" []).
    cbn. intuition discriminate.
  - destruct (proj1 (proj2 (get_policy_raises_value_error_for_unknown_ids_only
                              "fuel_tax" [("price_per_entry", Num 8)])
                       ltac:(cbn; auto)))
      as [key [_ [_ Hk]]].
    + intro H. inversion H as [| ? ? Hk _]. cbn in Hk.
      destruct Hk as [Hk | [Hk | []]]; discriminate Hk.
    + exists key. exact Hk.
  - destruct (proj2 (proj2 (get_policy_raises_value_error_for_unknown_ids_only
                              "fuel_tax" [("tax_percent", Num 8)])
                       ltac:(cbn; auto)))
      as [policy [Hp [Hid _]]].
    + apply Forall_cons; [cbn; auto | apply Forall_nil].
    + exists policy. split; [exact Hp | exact Hid].
Defined.
(** ** When simulate returns *)

(** One turn of the own-price loop returns when the mode, if its price
    changes, is a mode of the baseline. *)
Lemma own_price_body_returns p baseline projected mode change :
  keeps_modes baseline projected ->
  (Py.ne change 0 = true ->
   canonical mode /\ Dict.lookup baseline mode <> None) ->
  exists projected',
    ModeShareModel.own_price_body (Local baseline) projected (mode, change)
      (PolicySimulator.init (Some p))
    = (inr projected', PolicySimulator.init (Some p))
    /\ keeps_modes baseline projected'.
Proof.
  intros [d [-> Hk]] Hmode. unfold ModeShareModel.own_price_body.
  destruct (Py.ne change 0).
  2:{ eexists. split; [reflexivity |]. exists d. split; [reflexivity | exact Hk]. }
  destruct (Hmode eq_refl) as [Hc Hb].
  destruct (Dict.lookup baseline mode) as [base |] eqn:Eb; [| contradiction].
  assert (He : exists e, Dict.lookup ModeShareModel.init_elasticities mode = Some e).
  { unfold canonical, canonical_modes in Hc. cbn [In] in Hc.
    destruct Hc as [<- | [<- | [<- | [<- | []]]]]; eexists; reflexivity. }
  destruct He as [e He].
  erewrite bind_returns by reflexivity.
  erewrite bind_returns
    by (unfold getitem; cbn [elasticities PolicySimulator.init]; rewrite He; reflexivity).
  erewrite bind_returns
    by (unfold dict_getitem, bind, gets, deref, getitem; rewrite Eb; reflexivity).
  eexists. split; [reflexivity |].
  eexists. split; [reflexivity |].
  rewrite keys_set_present; [exact Hk |].
  apply lookup_in_keys. rewrite Hk. apply lookup_in_keys. congruence.
Qed.

Lemma cross_price_body_returns baseline changes projected mode_a mode_b cross_e s :
  keeps_modes baseline projected ->
  Dict.lookup baseline mode_a <> None ->
  exists projected',
    ModeShareModel.cross_price_body changes projected ((mode_a, mode_b), cross_e) s
    = (inr projected', s)
    /\ keeps_modes baseline projected'.
Proof.
  intros [d [-> Hk]] Ha. unfold ModeShareModel.cross_price_body.
  assert (Hd : Dict.lookup d mode_a <> None).
  { apply lookup_in_keys. rewrite Hk. apply lookup_in_keys. exact Ha. }
  destruct (Py.ne (Dict.get changes mode_b 0) 0) eqn:E.
  2:{ eexists. split; [reflexivity |]. exists d. split; [reflexivity | exact Hk]. }
  assert (Hb : exists c, Dict.lookup changes mode_b = Some c).
  { unfold Dict.get in E. destruct (Dict.lookup changes mode_b) as [c |].
    - exists c. reflexivity.
    - vm_compute in E. discriminate E. }
  destruct Hb as [c Hb].
  destruct (Dict.lookup d mode_a) as [old |] eqn:Eo; [| contradiction].
  erewrite bind_returns by (unfold getitem; rewrite Hb; reflexivity).
  erewrite bind_returns
    by (unfold dict_getitem, bind, gets, deref, getitem; rewrite Eo; reflexivity).
  eexists. split; [reflexivity |].
  eexists. split; [reflexivity |].
  rewrite keys_set_present; [exact Hk | congruence].
Qed.

(** With the three priced modes in the mode share of the parameter
    set, the elasticity loops return for every adjustment map. *)
Lemma shifted_shares_returns p adj :
  let baseline := ParameterSet.mode_share p in
  Dict.lookup baseline "private_car" <> None ->
  Dict.lookup baseline "motorcycle" <> None ->
  Dict.lookup baseline "public_transit" <> None ->
  exists shifted,
    ModeShareModel.shifted_shares adj (Local baseline) (Local baseline)
      (PolicySimulator.init (Some p))
    = (inr (Local shifted), PolicySimulator.init (Some p))
    /\ Dict.keys shifted = Dict.keys baseline.
Proof.
  intros baseline Hcar Hmoto Hpt.
  set (s := PolicySimulator.init (Some p)).
  set (changes := [("private_car", car_price_change adj);
                   ("motorcycle", Dict.get adj "fuel_tax_percent" 0 / 100);
                   ("public_transit", - Dict.get adj "pt_subsidy_percent" 0 / 100);
                   ("walking_cycling", 0)]).
  assert (H0 : keeps_modes baseline (Local baseline)).
  { exists baseline. split; reflexivity. }
  assert (Hown : exists p4,
             for_each changes (ModeShareModel.own_price_body (Local baseline))
               (Local baseline) s = (inr p4, s)
             /\ keeps_modes baseline p4).
  { unfold changes. rewrite for_each_cons.
    destruct (own_price_body_returns p baseline (Local baseline) "private_car"
                (car_price_change adj) H0) as [p1 [E1 H1]].
    { intros _. split; [unfold canonical, canonical_modes; simpl; tauto | exact Hcar]. }
    fold s in E1. rewrite E1. rewrite for_each_cons.
    destruct (own_price_body_returns p baseline p1 "motorcycle"
                (Dict.get adj "fuel_tax_percent" 0 / 100) H1) as [p2 [E2 H2]].
    { intros _. split; [unfold canonical, canonical_modes; simpl; tauto | exact Hmoto]. }
    fold s in E2. rewrite E2. rewrite for_each_cons.
    destruct (own_price_body_returns p baseline p2 "public_transit"
                (- Dict.get adj "pt_subsidy_percent" 0 / 100) H2) as [p3 [E3 H3]].
    { intros _. split; [unfold canonical, canonical_modes; simpl; tauto | exact Hpt]. }
    fold s in E3. rewrite E3. rewrite for_each_cons.
    destruct (own_price_body_returns p baseline p3 "walking_cycling" 0 H3)
      as [p4 [E4 H4]].
    { intro H. vm_compute in H. discriminate H. }
    fold s in E4. rewrite E4. exists p4. split; [reflexivity | exact H4]. }
  destruct Hown as [p4 [Hown H4]].
  assert (Hcross : exists p6,
             for_each ModeShareModel.init_cross_elasticities
               (ModeShareModel.cross_price_body changes) p4 s = (inr p6, s)
             /\ keeps_modes baseline p6).
  { unfold ModeShareModel.init_cross_elasticities. rewrite for_each_cons.
    destruct (cross_price_body_returns baseline changes p4 "private_car"
                "public_transit" 0.3 s H4 Hcar) as [p5 [E5 H5]].
    rewrite E5. rewrite for_each_cons.
    destruct (cross_price_body_returns baseline changes p5 "public_transit"
                "private_car" 0.2 s H5 Hpt) as [p6 [E6 H6]].
    rewrite E6. exists p6. split; [reflexivity | exact H6]. }
  destruct Hcross as [p6 [Hcross [d [-> Hd]]]].
  unfold ModeShareModel.shifted_shares.
  erewrite bind_returns by apply price_changes_run.
  erewrite bind_returns by exact Hown.
  erewrite bind_returns by reflexivity.
  exists d. split; [exact Hcross | exact Hd].
Qed.

Lemma given_shares_canonical (shares : dict Q) s :
  Dict.keys shares = Dict.keys (ParameterSet.mode_share (params s)) ->
  Forall canonical (Dict.keys (ParameterSet.mode_share (params s))) ->
  Forall canonical (Dict.keys (deref (or_params_mode_share (Some shares)) s)).
Proof.
  intros Hk Hc. destruct shares as [| kv shares]; cbn [or_params_mode_share deref].
  - exact Hc.
  - rewrite Hk. exact Hc.
Qed.

(** The stages of [simulate] on a complete parameter set. *)
Lemma simulate_stages p adj :
  complete_parameters p ->
  let s := PolicySimulator.init (Some p) in
  exists r,
    PolicySimulator.simulate adj s = (inr r, s)
    /\ Dict.keys (ModeShareResult.projected_shares (SimulationResult.mode_share r))
       = Dict.keys (ParameterSet.mode_share p).
Proof.
  intros [Hcanon [Hcar [Hmoto [Hpt [Hpop [Htrips [Hocc [Hfe Hwage]]]]]]]] s.
  destruct (shifted_shares_returns p (or_empty adj) Hcar Hmoto Hpt)
    as [shifted [Hshift Hkeys]].
  destruct (ModeShareModel_calculate_returns (Some (or_empty adj)) s shifted Hshift)
    as [mode_result [Hmode [_ [Hproj _]]]].
  set (shares := ModeShareResult.projected_shares mode_result) in *.
  assert (Hk : Dict.keys shares = Dict.keys (ParameterSet.mode_share (params s))).
  { rewrite Hproj, keys_round_shares, keys_normalize. exact Hkeys. }
  pose proof (given_shares_canonical shares s Hk Hcanon) as Hc.
  destruct (EmissionsModel_calculate_run (Some shares) s) as [_ [_ Hem]].
  destruct (Hem (or_intror Hocc) Hpop Htrips) as [emissions_result [Hemissions _]].
  destruct (CostBenefitModel_calculate_returns (Some shares) (Some (or_empty adj)) s
              Hfe Hc) as [cost_result [Hcost _]].
  destruct (EquityModel_calculate_run p (CostResult.user_cost_per_trip cost_result)
              (Some shares) (Some (or_empty adj)) Hpop Hwage)
    as [equity_result [Hequity _]].
  set (cf := Py.max 0.8
               (1.0 + (Dict.get shares "private_car" 0
                       - Dict.get (ParameterSet.mode_share (params s)) "private_car" 0))).
  destruct (proj2 (EfficiencyModel_calculate_canonical p (Some shares) cf Hc)
              (or_intror Htrips)) as [efficiency_result [Hefficiency _]].
  unfold PolicySimulator.simulate.
  erewrite bind_returns by exact Hmode.
  erewrite bind_returns by exact Hemissions.
  erewrite bind_returns by exact Hcost.
  erewrite bind_returns by exact Hequity.
  erewrite bind_returns by reflexivity.
  erewrite bind_returns by exact Hefficiency.
  eexists. split; [reflexivity |]. exact Hk.
Qed.

(** X26.  On a simulator built for a complete parameter set (a mode
    share over the four modes of the models that has private car,
    motorcycle and public transit; population, daily trips, occupancy,
    fuel efficiency and hourly wage other than zero), [simulate]
    returns a result for every adjustment map, whatever the values of
    the levers: it raises neither [KeyError] nor [ZeroDivisionError].
    The default parameter set is complete. *)
Theorem simulate_returns_on_complete_parameters
    (p : ParameterSet.t) (adj : option (dict Q)) :
  complete_parameters p ->
  exists r,
    PolicySimulator.simulate adj (PolicySimulator.init (Some p))
    = (inr r, PolicySimulator.init (Some p))
    /\ Dict.keys (ModeShareResult.projected_shares (SimulationResult.mode_share r))
       = Dict.keys (ParameterSet.mode_share p).
Proof. apply simulate_stages. Qed.

Lemma default_parameters_complete : complete_parameters DEFAULT_PARAMS.
Proof.
  unfold complete_parameters. split; [canonical_keys |].
  repeat split; discriminate.
Qed.

Lemma simulate_returns_on_complete_parameters_witness :
  exists r,
    PolicySimulator.simulate (Some [("congestion_price", 1000); ("fuel_tax_percent", -500)])
      (PolicySimulator.init (Some DEFAULT_PARAMS))
    = (inr r, PolicySimulator.init (Some DEFAULT_PARAMS))
    /\ Dict.keys (ModeShareResult.projected_shares (SimulationResult.mode_share r))
       = Dict.keys (ParameterSet.mode_share DEFAULT_PARAMS).
Proof.
  apply (simulate_returns_on_complete_parameters DEFAULT_PARAMS
           (Some [("congestion_price", 1000); ("fuel_tax_percent", -500)])).
  unfold complete_parameters. split; [canonical_keys |].
  repeat split; discriminate.
Defined.
(** ** The overall score of a simulation with non-negative shares *)

Lemma get_nonneg (d : dict Q) k default :
  Forall (fun v => 0 <= v) (Dict.values d) -> 0 <= default ->
  0 <= Dict.get d k default.
Proof.
  intros Hd H0. unfold Dict.get.
  induction d as [| [k' v] d IH]; cbn [Dict.lookup].
  - exact H0.
  - inversion Hd as [| ? ? Hv Hrest]; subst.
    destruct (String.eqb k k'); [exact Hv | exact (IH Hrest)].
Qed.

Lemma weighted_average_from_nonneg table items acc :
  (forall k, 0 <= Dict.get table k 0) ->
  Forall (fun share => 0 <= share) (Dict.values items) ->
  0 <= acc ->
  0 <= fold_left (fun acc item => acc + Dict.get table (fst item) 0 * snd item) items acc.
Proof.
  intros Ht. revert acc.
  induction items as [| [k share] items IH]; intros acc Hnn Ha.
  - exact Ha.
  - inversion Hnn as [| ? ? Hs Hrest]; subst. cbn [fold_left fst snd].
    apply IH; [exact Hrest |]. cbn [snd] in Hs. specialize (Ht k). nra.
Qed.

Lemma weighted_average_nonneg table items :
  (forall k, 0 <= Dict.get table k 0) ->
  Forall (fun share => 0 <= share) (Dict.values items) ->
  0 <= weighted_average table items.
Proof.
  intros Ht Hnn. apply weighted_average_from_nonneg; [exact Ht | exact Hnn | lra].
Qed.

Lemma quotient_nonneg a b : 0 <= a -> 0 < b -> 0 <= a / b.
Proof. intros Ha Hb. apply Qle_shift_div_l; [exact Hb | lra]. Qed.

Lemma cost_table_nonneg p policy k :
  plausible_parameters p ->
  -100 <= Dict.get policy "fuel_tax_percent" 0 ->
  Dict.get policy "pt_subsidy_percent" 0 <= 100 ->
  0 <= Dict.get (cost_table p policy) k 0.
Proof.
  intros [_ [_ [Hd [Ht [_ [Hfe [Hfp [Hfare [Hw _]]]]]]]]] Htax Hsub.
  assert (Ef : Dict.get policy "fuel_tax_percent" 0
               == 100 * (Dict.get policy "fuel_tax_percent" 0 / 100)) by field.
  assert (Es : Dict.get policy "pt_subsidy_percent" 0
               == 100 * (Dict.get policy "pt_subsidy_percent" 0 / 100)) by field.
  unfold cost_table, Dict.get at 1. cbn [Dict.lookup].
  set (f := Dict.get policy "fuel_tax_percent" 0 / 100) in *.
  set (u := Dict.get policy "pt_subsidy_percent" 0 / 100) in *.
  set (dist := ParameterSet.avg_trip_distance_km p) in *.
  set (fe := ParameterSet.fuel_efficiency_km_per_liter p) in *.
  set (fp := ParameterSet.fuel_price_per_liter p) in *.
  set (time := ParameterSet.avg_trip_time_minutes p) in *.
  set (wage := ParameterSet.avg_hourly_wage p) in *.
  set (fare := ParameterSet.public_transit_fare p) in *.
  assert (Hvot : 0 <= wage * 0.5 / 60) by (apply quotient_nonneg; lra).
  set (vot := wage * 0.5 / 60) in *.
  assert (Hq1 : 0 <= dist / fe) by (apply quotient_nonneg; lra).
  assert (Hq2 : 0 <= dist / (fe * 1.5)) by (apply quotient_nonneg; lra).
  set (q1 := dist / fe) in *. set (q2 := dist / (fe * 1.5)) in *.
  assert (Hprice : 0 <= fp * (1 + f)) by nra.
  assert (Hfare' : 0 <= fare * (1 - u)) by nra.
  set (price := fp * (1 + f)) in *. set (fare' := fare * (1 - u)) in *.
  destruct (String.eqb k "private_car"); [apply round_nonneg; nra |].
  destruct (String.eqb k "motorcycle"); [apply round_nonneg; nra |].
  destruct (String.eqb k "public_transit"); [apply round_nonneg; nra |].
  destruct (String.eqb k "walking_cycling"); [apply round_nonneg; nra | lra].
Qed.

Lemma total_emissions_from_nonneg p items acc :
  plausible_parameters p ->
  Forall (fun share => 0 <= share) (Dict.values items) ->
  0 <= acc ->
  0 <= fold_left (fun acc item => acc + mode_emissions p item) items acc.
Proof.
  intros Hp. revert acc.
  induction items as [| [k share] items IH]; intros acc Hnn Ha.
  - exact Ha.
  - inversion Hnn as [| ? ? Hs Hrest]; subst. cbn [fold_left].
    apply IH; [exact Hrest |]. cbn [snd] in Hs.
    destruct Hp as [_ [Htrips [Hd [_ [Hocc [_ [_ [_ [_ Hef]]]]]]]]].
    assert (Hf : 0 <= effective_factor p k).
    { unfold effective_factor.
      pose proof (get_nonneg (ParameterSet.emission_factors p) k 0.0 Hef) as Hg.
      specialize (Hg ltac:(discriminate)).
      destruct (String.eqb k "private_car"); [apply quotient_nonneg |]; assumption. }
    unfold mode_emissions. cbn [fst snd].
    set (e := effective_factor p k) in *.
    set (trips := ParameterSet.daily_trips p) in *.
    set (dist := ParameterSet.avg_trip_distance_km p) in *.
    assert (0 <= trips * share) by nra.
    assert (0 <= trips * share * dist) by nra.
    nra.
Qed.

Lemma total_emissions_nonneg p items :
  plausible_parameters p ->
  Forall (fun share => 0 <= share) (Dict.values items) ->
  0 <= total_emissions p items.
Proof.
  intros Hp Hnn. apply total_emissions_from_nonneg; [exact Hp | exact Hnn | discriminate].
Qed.

Lemma max_floor a b : a <= Py.max a b.
Proof.
  unfold Py.max. destruct (Py.lt a b) eqn:E.
  - apply lt_true in E. lra.
  - lra.
Qed.

(** The shares the later stages work on are non-negative when the
    projected ones are: an empty projection means an empty baseline. *)
Lemma given_shares_nonneg (shares : dict Q) s :
  Dict.keys shares = Dict.keys (ParameterSet.mode_share (params s)) ->
  Forall (fun share => 0 <= share) (Dict.values shares) ->
  Forall (fun share => 0 <= share)
    (Dict.values (deref (or_params_mode_share (Some shares)) s)).
Proof.
  intros Hk Hnn. destruct shares as [| kv shares]; cbn [or_params_mode_share deref].
  - destruct (ParameterSet.mode_share (params s)); [constructor | discriminate Hk].
  - exact Hnn.
Qed.

(** The four figures the score is computed from, for non-negative
    projected shares. *)
Lemma simulate_figures p adj r :
  plausible_parameters p ->
  -100 <= Dict.get adj "fuel_tax_percent" 0 ->
  Dict.get adj "pt_subsidy_percent" 0 <= 100 ->
  fst (PolicySimulator.simulate (Some adj) (PolicySimulator.init (Some p))) = inr r ->
  Forall (fun share => 0 <= share)
    (Dict.values (ModeShareResult.projected_shares (SimulationResult.mode_share r))) ->
  0 <= EmissionsResult.per_trip_co2_kg (SimulationResult.emissions r)
  /\ 0 <= CostResult.user_cost_per_trip (SimulationResult.cost r)
  /\ 0 <= EfficiencyResult.avg_travel_time_minutes (SimulationResult.efficiency r)
  /\ 0.2 <= EquityResult.equity_score (SimulationResult.equity r)
  /\ EquityResult.equity_score (SimulationResult.equity r) <= 1.
Proof.
  intros Hp Htax Hsub Hr Hshares.
  set (s := PolicySimulator.init (Some p)) in *.
  destruct (simulate_pipeline (Some adj) s r Hr) as [Hm [He [Hc [Hq [Hf _]]]]].
  cbn [or_empty] in Hm, Hc, Hq.
  set (shares := ModeShareResult.projected_shares (SimulationResult.mode_share r)) in *.
  assert (Hk : Dict.keys shares = Dict.keys (ParameterSet.mode_share (params s))).
  { apply (ModeShareModel_calculate_inv (Some adj) s (SimulationResult.mode_share r)).
    rewrite Hm. reflexivity. }
  pose proof (given_shares_nonneg shares s Hk Hshares) as Hitems.
  set (items := deref (or_params_mode_share (Some shares)) s) in *.
  pose proof Hp as [Hpop [Htrips [Hd [Ht [Hocc [Hfe [Hfp [Hfare [Hw Hef]]]]]]]]].
  (* emissions *)
  assert (H1 : 0 <= EmissionsResult.per_trip_co2_kg (SimulationResult.emissions r)).
  { destruct (EmissionsModel_calculate_run (Some shares) s) as [_ [_ Hem]].
    destruct Hem as [e [Hrun [_ [_ [_ Hper]]]]].
    - right. change (params s) with p. lra.
    - change (params s) with p. lra.
    - change (params s) with p. lra.
    - rewrite He in Hrun. injection Hrun as <-. rewrite Hper.
      apply round_nonneg. apply quotient_nonneg; [| exact Htrips].
      apply total_emissions_nonneg; [exact Hp | exact Hitems]. }
  (* cost *)
  assert (H2 : 0 <= CostResult.user_cost_per_trip (SimulationResult.cost r)).
  { assert (Hfe' : ~ ParameterSet.fuel_efficiency_km_per_liter (params s) == 0)
      by (change (params s) with p; lra).
    rewrite (CostBenefitModel_calculate_run (Some shares) (Some adj) s Hfe') in Hc.
    cbn [or_empty] in Hc. fold items in Hc. change (params s) with p in Hc.
    destruct (weighted_sum_run (cost_table p adj) items 0 s)
      as [[Hall _] | [k [_ [_ Hk']]]].
    - rewrite (bind_returns _ _ _ _ _ (weighted_sum_returns _ _ s Hall)) in Hc.
      injection Hc as <-. cbn [CostResult.user_cost_per_trip].
      apply round_nonneg. apply weighted_average_nonneg; [| exact Hitems].
      intro k. apply cost_table_nonneg; assumption.
    - rewrite (bind_raises _ _ _ _ _ Hk') in Hc. discriminate Hc. }
  (* efficiency *)
  assert (H3 : 0 <= EfficiencyResult.avg_travel_time_minutes
                      (SimulationResult.efficiency r)).
  { match type of Hf with
    | EfficiencyModel.calculate _ ?cf _ = _ => set (factor := cf) in *
    end.
    assert (Hcf : 0 <= factor).
    { unfold factor. pose proof (max_floor 0.8 (1.0 + (Dict.get shares "private_car" 0
        - Dict.get (ParameterSet.mode_share (params s)) "private_car" 0))) as Hm8.
      assert ((0 : Q) <= 0.8) by discriminate. lra. }
    destruct (Forall_canonical_dec (Dict.keys items)) as [Hcanon | Hnot].
    - destruct (proj2 (EfficiencyModel_calculate_canonical p (Some shares) factor Hcanon))
        as [f [Hrun [Havg _]]].
      + right. lra.
      + fold s in Hrun. rewrite Hf in Hrun. injection Hrun as <-. rewrite Havg.
        apply round_nonneg. apply weighted_average_nonneg; [| exact Hitems].
        intro k. apply travel_times_nonneg. exact Hcf.
    - destruct (EfficiencyModel_calculate_raises p (Some shares) factor Hnot)
        as [k [_ [_ Hraise]]].
      fold s in Hraise. rewrite Hf in Hraise. discriminate Hraise. }
  (* equity *)
  destruct (EquityModel_calculate_range p
              (CostResult.user_cost_per_trip (SimulationResult.cost r))
              (Some shares) (Some adj) H2 Hpop (Qlt_le_weak _ _ Htrips) Hw)
    as [q [Hrun [_ [_ [Hlo Hhi]]]]].
  fold s in Hrun. rewrite Hq in Hrun. injection Hrun as <-.
  repeat split; assumption.
Qed.

(** X27.  On a simulator built for a plausible parameter set (positive
    population, trips, occupancy, fuel efficiency and wage; no negative
    distance, time, price, fare or emission factor), with a fuel tax of
    at least -100 % and a transit subsidy of at most 100 %, a result of
    [simulate] whose projected shares are all non-negative has per-trip
    emissions, a user cost and a travel time that are not negative, an
    equity score between 0.2 and 1, and an [overall_score] between 0
    and 100.  (Scores above 100 need a negative share.)  The numbers
    are of moderate size, with one inhabitant and one daily trip at
    least, an occupancy, a fuel efficiency and a wage of a thousandth
    at least, and baseline shares between 0 and 1: no figure overflows
    on the way. *)
Theorem overall_score_within_range_for_nonnegative_shares
    (p : ParameterSet.t) (adj : dict Q) (r : SimulationResult.t) :
  plausible_parameters p -> moderate_parameters p ->
  1 <= ParameterSet.population p -> 1 <= ParameterSet.daily_trips p ->
  0.001 <= ParameterSet.avg_vehicle_occupancy p ->
  0.001 <= ParameterSet.fuel_efficiency_km_per_liter p ->
  0.001 <= ParameterSet.avg_hourly_wage p ->
  Forall (fun share => 0 <= share /\ share <= 1)
    (Dict.values (ParameterSet.mode_share p)) ->
  moderate (Dict.get adj "fuel_tax_percent" 0) ->
  moderate (Dict.get adj "pt_subsidy_percent" 0) ->
  moderate (Dict.get adj "congestion_price" 0) ->
  -100 <= Dict.get adj "fuel_tax_percent" 0 ->
  Dict.get adj "pt_subsidy_percent" 0 <= 100 ->
  fst (PolicySimulator.simulate (Some adj) (PolicySimulator.init (Some p))) = inr r ->
  Forall (fun share => 0 <= share)
    (Dict.values (ModeShareResult.projected_shares (SimulationResult.mode_share r))) ->
  0 <= SimulationResult.overall_score r
  /\ SimulationResult.overall_score r <= 100
  /\ 0 <= EmissionsResult.per_trip_co2_kg (SimulationResult.emissions r)
  /\ 0 <= CostResult.user_cost_per_trip (SimulationResult.cost r)
  /\ 0 <= EfficiencyResult.avg_travel_time_minutes (SimulationResult.efficiency r)
  /\ 0.2 <= EquityResult.equity_score (SimulationResult.equity r)
  /\ EquityResult.equity_score (SimulationResult.equity r) <= 1.
Proof.
  intros Hp _ _ _ _ _ _ _ _ _ _ Htax Hsub Hr Hshares.
  destruct (simulate_figures p adj r Hp Htax Hsub Hr Hshares)
    as [H1 [H2 [H3 [H4 H5]]]].
  destruct (simulate_pipeline (Some adj) _ r Hr) as [_ [_ [_ [_ [_ Hscore]]]]].
  assert (H4' : 0 <= EquityResult.equity_score (SimulationResult.equity r)).
  { assert ((0 : Q) <= 0.2) by discriminate. lra. }
  destruct (score_bounds _ _ _ _ H1 H2 H3 H4' H5) as [Hlo Hhi].
  rewrite Hscore. repeat split; assumption.
Qed.

Lemma default_parameters_plausible : plausible_parameters DEFAULT_PARAMS.
Proof.
  unfold plausible_parameters.
  repeat split; try reflexivity; try discriminate.
  repeat (apply Forall_cons; [discriminate |]). apply Forall_nil.
Qed.

Lemma overall_score_within_range_for_nonnegative_shares_witness :
  exists r,
    fst (PolicySimulator.simulate
           (Some [("congestion_price", 8); ("pt_subsidy_percent", 50);
                  ("fuel_tax_percent", 30)])
           (PolicySimulator.init (Some DEFAULT_PARAMS))) = inr r
    /\ 0 <= SimulationResult.overall_score r
    /\ SimulationResult.overall_score r <= 100.
Proof.
  eexists. split; [vm_compute; reflexivity |].
  match goal with
  | |- 0 <= SimulationResult.overall_score ?r /\ _ =>
      destruct (overall_score_within_range_for_nonnegative_shares DEFAULT_PARAMS
                  [("congestion_price", 8); ("pt_subsidy_percent", 50);
                   ("fuel_tax_percent", 30)] r) as [H0 [H100 _]]
  end.
  - unfold plausible_parameters.
    repeat split; try reflexivity; try discriminate.
    repeat (apply Forall_cons; [discriminate |]). apply Forall_nil.
  - moderate_numbers.
  - discriminate.
  - discriminate.
  - discriminate.
  - discriminate.
  - discriminate.
  - repeat (apply Forall_cons; [split; discriminate |]). apply Forall_nil.
  - moderate_numbers.
  - moderate_numbers.
  - moderate_numbers.
  - discriminate.
  - discriminate.
  - vm_compute. reflexivity.
  - repeat (apply Forall_cons; [discriminate |]). apply Forall_nil.
  - split; assumption.
Defined.

(** X28.  With the default parameter set, a fuel tax and a transit
    subsidy between 0 and 100 % and a congestion price that is not
    negative and keeps the price change of driving,
    [fuel_tax_percent/100 + congestion_price/10], at or below 10/3
    (any congestion price up to 23.3), [simulate] returns projected
    shares that are all non-negative and an [overall_score] between 0
    and 100. *)
Theorem default_simulation_score_within_range (adj : dict Q) :
  0 <= Dict.get adj "fuel_tax_percent" 0 ->
  Dict.get adj "fuel_tax_percent" 0 <= 100 ->
  0 <= Dict.get adj "pt_subsidy_percent" 0 ->
  Dict.get adj "pt_subsidy_percent" 0 <= 100 ->
  0 <= Dict.get adj "congestion_price" 0 ->
  Dict.get adj "fuel_tax_percent" 0 / 100 + Dict.get adj "congestion_price" 0 * 0.1
  <= 10 / 3 ->
  exists r,
    PolicySimulator.simulate (Some adj) (PolicySimulator.init None)
    = (inr r, PolicySimulator.init None)
    /\ Forall (fun share => 0 <= share)
         (Dict.values (ModeShareResult.projected_shares (SimulationResult.mode_share r)))
    /\ 0 <= SimulationResult.overall_score r
    /\ SimulationResult.overall_score r <= 100.
Proof.
  intros Hf0 Hf100 Hs0 Hs100 Hc0 Hcar.
  destruct (simulate_stages DEFAULT_PARAMS (Some adj) default_parameters_complete)
    as [r [Hr _]].
  change (PolicySimulator.init (Some DEFAULT_PARAMS)) with (PolicySimulator.init None) in Hr.
  exists r. split; [exact Hr |].
  assert (Hfst : fst (PolicySimulator.simulate (Some adj)
                        (PolicySimulator.init (Some DEFAULT_PARAMS))) = inr r).
  { change (PolicySimulator.init (Some DEFAULT_PARAMS)) with (PolicySimulator.init None).
    rewrite Hr. reflexivity. }
  assert (Hshares :
            Forall (fun share => 0 <= share)
              (Dict.values
                 (ModeShareResult.projected_shares (SimulationResult.mode_share r)))).
  { destruct (simulate_pipeline (Some adj) _ r Hfst) as [Hm _].
    cbn [or_empty] in Hm.
    destruct (default_shifted_entries adj)
      as [v1 [v2 [v3 [v4 [Hrun [Hv1 [Hv2 [Hv3 Hv4]]]]]]]].
    destruct (ModeShareModel_calculate_returns (Some adj) (PolicySimulator.init None)
                _ Hrun) as [m [Hm' [_ [Hp _]]]].
    change (PolicySimulator.init (Some DEFAULT_PARAMS))
      with (PolicySimulator.init None) in Hm.
    rewrite Hm in Hm'. injection Hm' as <-. rewrite Hp.
    assert (Ecar : car_price_change adj
                   <= Dict.get adj "fuel_tax_percent" 0 / 100
                      + Dict.get adj "congestion_price" 0 * 0.1
                   /\ 0 <= car_price_change adj).
    { unfold car_price_change.
      destruct (percent_bounds _ Hf0 Hf100) as [Hf _].
      destruct (Py.lt 0 (Dict.get adj "congestion_price" 0)); split; lra. }
    assert (Et : - Dict.get adj "pt_subsidy_percent" 0 / 100
                 == - (Dict.get adj "pt_subsidy_percent" 0 / 100)) by field.
    rewrite Et in Hv1, Hv3.
    destruct (percent_bounds _ Hf0 Hf100) as [Hf Hf'].
    destruct (percent_bounds _ Hs0 Hs100) as [Hs Hs'].
    destruct Ecar as [Ecar Ecar0].
    set (f := Dict.get adj "fuel_tax_percent" 0 / 100) in *.
    set (u := Dict.get adj "pt_subsidy_percent" 0 / 100) in *.
    set (car := car_price_change adj) in *.
    set (cp := Dict.get adj "congestion_price" 0) in *.
    assert (Hcar3 : car <= 10 / 3) by lra.
    assert (E103 : (10 / 3 : Q) == 10 # 3) by reflexivity.
    assert (H1 : 0 <= v1).
    { rewrite Hv1.
      assert (0 <= 1 + -0.3 * car) by lra.
      assert (0 <= 1 + 0.3 * - u) by lra. nra. }
    assert (H2 : 0 <= v2) by (rewrite Hv2; lra).
    assert (H3 : 0 <= v3).
    { rewrite Hv3.
      assert (0 <= 1 + -0.4 * - u) by lra.
      assert (0 <= 1 + 0.2 * car) by lra. nra. }
    assert (H4 : 0 < v4) by (rewrite Hv4; reflexivity).
    assert (HT : 0 < v1 + v2 + v3 + v4) by lra.
    unfold ModeShareModel.round_shares, ModeShareModel.normalize.
    change (Dict.values [("private_car", v1); ("motorcycle", v2);
                         ("public_transit", v3); ("walking_cycling", v4)])
      with [v1; v2; v3; v4].
    assert (Elt : Py.lt 0 (Py.sum [v1; v2; v3; v4]) = true).
    { apply lt_true. rewrite sum_four. exact HT. }
    rewrite Elt. cbn [Dict.map_values map fst snd Dict.values].
    assert (HS : 0 < Py.sum [v1; v2; v3; v4]) by (rewrite sum_four; exact HT).
    repeat (apply Forall_cons;
            [apply round_nonneg; apply quotient_nonneg; [lra | exact HS] |]).
    apply Forall_nil. }
  split; [exact Hshares |].
  destruct (simulate_figures DEFAULT_PARAMS adj r default_parameters_plausible)
    as [H1 [H2 [H3 [H4 H5]]]]; try assumption; try lra.
  destruct (simulate_pipeline (Some adj) _ r Hfst) as [_ [_ [_ [_ [_ Hscore]]]]].
  assert (H4' : 0 <= EquityResult.equity_score (SimulationResult.equity r)).
  { assert ((0 : Q) <= 0.2) by discriminate. lra. }
  destruct (score_bounds _ _ _ _ H1 H2 H3 H4' H5) as [Hlo Hhi].
  rewrite Hscore. split; assumption.
Qed.

Lemma default_simulation_score_within_range_witness :
  exists r,
    PolicySimulator.simulate
      (Some [("congestion_price", 8); ("pt_subsidy_percent", 50);
             ("fuel_tax_percent", 30)])
      (PolicySimulator.init None)
    = (inr r, PolicySimulator.init None)
    /\ Forall (fun share => 0 <= share)
         (Dict.values (ModeShareResult.projected_shares (SimulationResult.mode_share r)))
    /\ 0 <= SimulationResult.overall_score r
    /\ SimulationResult.overall_score r <= 100.
Proof.
  apply (default_simulation_score_within_range
           [("congestion_price", 8); ("pt_subsidy_percent", 50);
            ("fuel_tax_percent", 30)]); discriminate.
Defined.
(** ** CostBenefitModel.calculate: the user cost and the levers *)

(** The user cost is the weighted average of the cost table. *)
Lemma CostBenefitModel_user_cost ms adj s :
  ~ ParameterSet.fuel_efficiency_km_per_liter (params s) == 0 ->
  Forall canonical (Dict.keys (deref (or_params_mode_share ms) s)) ->
  let user_cost :=
    weighted_average (cost_table (params s) (or_empty adj))
      (deref (or_params_mode_share ms) s) in
  exists r,
    CostBenefitModel.calculate ms adj s = (inr r, s)
    /\ CostResult.user_cost_per_trip r = Py.round user_cost 2
    /\ CostResult.total_user_cost_per_day r
       = Py.round (user_cost * ParameterSet.daily_trips (params s)) 2.
Proof.
  intros Hfe Hcanon user_cost.
  rewrite (CostBenefitModel_calculate_run ms adj s Hfe).
  assert (Hall : Forall (fun k => Dict.lookup (cost_table (params s) (or_empty adj)) k
                                  <> None)
                   (Dict.keys (deref (or_params_mode_share ms) s))).
  { eapply Forall_impl; [| exact Hcanon]. intros k Hk.
    apply lookup_cost_table. exact Hk. }
  rewrite (bind_returns _ _ _ _ _ (weighted_sum_returns _ _ s Hall)).
  eexists. split; [reflexivity |]. split; reflexivity.
Qed.

Lemma get_cost_table p policy k :
  Dict.get (cost_table p policy) k 0
  = let fuel_price :=
      ParameterSet.fuel_price_per_liter p
      * (1 + Dict.get policy "fuel_tax_percent" 0 / 100) in
    let pt_fare :=
      ParameterSet.public_transit_fare p
      * (1 - Dict.get policy "pt_subsidy_percent" 0 / 100) in
    let value_of_time := ParameterSet.avg_hourly_wage p * 0.5 / 60 in
    let avg_distance := ParameterSet.avg_trip_distance_km p in
    let fuel_efficiency := ParameterSet.fuel_efficiency_km_per_liter p in
    let avg_time := ParameterSet.avg_trip_time_minutes p in
    if String.eqb k "private_car"
    then Py.round (avg_distance / fuel_efficiency * fuel_price
                   + avg_time * value_of_time) 2
    else if String.eqb k "motorcycle"
    then Py.round (avg_distance / (fuel_efficiency * 1.5) * fuel_price
                   + avg_time * 0.9 * value_of_time) 2
    else if String.eqb k "public_transit"
    then Py.round (pt_fare + avg_time * 1.3 * value_of_time) 2
    else if String.eqb k "walking_cycling"
    then Py.round (avg_time * 1.5 * value_of_time) 2
    else 0.
Proof.
  unfold cost_table, Dict.get at 1. cbn [Dict.lookup]. cbv zeta.
  destruct (String.eqb k "private_car"); [reflexivity |].
  destruct (String.eqb k "motorcycle"); [reflexivity |].
  destruct (String.eqb k "public_transit"); [reflexivity |].
  destruct (String.eqb k "walking_cycling"); reflexivity.
Qed.

Lemma cost_table_follows_levers p adj1 adj2 k :
  0 <= ParameterSet.avg_trip_distance_km p ->
  0 < ParameterSet.fuel_efficiency_km_per_liter p ->
  0 <= ParameterSet.fuel_price_per_liter p ->
  0 <= ParameterSet.public_transit_fare p ->
  Dict.get adj1 "fuel_tax_percent" 0 <= Dict.get adj2 "fuel_tax_percent" 0 ->
  Dict.get adj2 "pt_subsidy_percent" 0 <= Dict.get adj1 "pt_subsidy_percent" 0 ->
  Dict.get (cost_table p adj1) k 0 <= Dict.get (cost_table p adj2) k 0.
Proof.
  intros Hd Hfe Hfp Hfare Htax Hsub.
  assert (Hf : Dict.get adj1 "fuel_tax_percent" 0 / 100
               <= Dict.get adj2 "fuel_tax_percent" 0 / 100).
  { apply Qle_shift_div_l; [reflexivity |].
    assert (E : Dict.get adj1 "fuel_tax_percent" 0 / 100 * 100
                == Dict.get adj1 "fuel_tax_percent" 0) by field.
    rewrite E. exact Htax. }
  assert (Hu : Dict.get adj2 "pt_subsidy_percent" 0 / 100
               <= Dict.get adj1 "pt_subsidy_percent" 0 / 100).
  { apply Qle_shift_div_l; [reflexivity |].
    assert (E : Dict.get adj2 "pt_subsidy_percent" 0 / 100 * 100
                == Dict.get adj2 "pt_subsidy_percent" 0) by field.
    rewrite E. exact Hsub. }
  rewrite !get_cost_table. cbv zeta.
  set (f1 := Dict.get adj1 "fuel_tax_percent" 0 / 100) in *.
  set (f2 := Dict.get adj2 "fuel_tax_percent" 0 / 100) in *.
  set (u1 := Dict.get adj1 "pt_subsidy_percent" 0 / 100) in *.
  set (u2 := Dict.get adj2 "pt_subsidy_percent" 0 / 100) in *.
  set (dist := ParameterSet.avg_trip_distance_km p) in *.
  set (fe := ParameterSet.fuel_efficiency_km_per_liter p) in *.
  set (fp := ParameterSet.fuel_price_per_liter p) in *.
  set (fare := ParameterSet.public_transit_fare p) in *.
  assert (Hq1 : 0 <= dist / fe) by (apply quotient_nonneg; lra).
  assert (Hq2 : 0 <= dist / (fe * 1.5)) by (apply quotient_nonneg; lra).
  set (q1 := dist / fe) in *. set (q2 := dist / (fe * 1.5)) in *.
  assert (Hprice : fp * (1 + f1) <= fp * (1 + f2)) by nra.
  assert (Hfare' : fare * (1 - u1) <= fare * (1 - u2)) by nra.
  set (price1 := fp * (1 + f1)) in *. set (price2 := fp * (1 + f2)) in *.
  destruct (String.eqb k "private_car"); [apply round_mono; nra |].
  destruct (String.eqb k "motorcycle"); [apply round_mono; nra |].
  destruct (String.eqb k "public_transit"); [apply round_mono; lra |].
  destruct (String.eqb k "walking_cycling"); [apply round_mono; lra | lra].
Qed.

(** X30.  For a mode share with canonical modes and shares between 0
    and 1, and a parameter set with a fuel efficiency of a hundredth at
    least and no negative distance, fuel price, fare, wage or trip
    time, [CostBenefitModel.calculate] returns; its
    [user_cost_per_trip] is, to the cent it is rounded to, the average
    of the [cost_by_mode] it reports weighted by the shares, and it
    never falls when the fuel tax rises or the transit subsidy falls;
    the cost of walking and cycling does not depend on the
    adjustments.  (Distance, wage and trip time up to 10^4, price and
    fare up to 10^3, levers between -1000 and 1000, where the
    floating-point evaluation stays within the same cent.) *)
Theorem user_cost_rises_with_fuel_tax_and_falls_with_subsidy
    (s : Store) (mode_share : option (dict Q)) (adj1 adj2 : dict Q) :
  let p := params s in
  let items := deref (or_params_mode_share mode_share) s in
  let in_range x := -1000 <= x /\ x <= 1000 in
  Forall canonical (Dict.keys items) ->
  Forall (fun share => 0 <= share /\ share <= 1) (Dict.values items) ->
  moderate_parameters p ->
  0 <= ParameterSet.avg_trip_distance_km p ->
  ParameterSet.avg_trip_distance_km p <= 10000 ->
  0.01 <= ParameterSet.fuel_efficiency_km_per_liter p ->
  0 <= ParameterSet.fuel_price_per_liter p ->
  ParameterSet.fuel_price_per_liter p <= 1000 ->
  0 <= ParameterSet.public_transit_fare p ->
  ParameterSet.public_transit_fare p <= 1000 ->
  0 <= ParameterSet.avg_hourly_wage p -> ParameterSet.avg_hourly_wage p <= 10000 ->
  0 <= ParameterSet.avg_trip_time_minutes p ->
  ParameterSet.avg_trip_time_minutes p <= 10000 ->
  in_range (Dict.get adj1 "fuel_tax_percent" 0) ->
  in_range (Dict.get adj2 "fuel_tax_percent" 0) ->
  in_range (Dict.get adj1 "pt_subsidy_percent" 0) ->
  in_range (Dict.get adj2 "pt_subsidy_percent" 0) ->
  Dict.get adj1 "fuel_tax_percent" 0 <= Dict.get adj2 "fuel_tax_percent" 0 ->
  Dict.get adj2 "pt_subsidy_percent" 0 <= Dict.get adj1 "pt_subsidy_percent" 0 ->
  exists r1 r2,
    CostBenefitModel.calculate mode_share (Some adj1) s = (inr r1, s)
    /\ CostBenefitModel.calculate mode_share (Some adj2) s = (inr r2, s)
    /\ Qabs (CostResult.user_cost_per_trip r1
             - weighted_average (CostResult.cost_by_mode r1) items) <= 0.01
    /\ CostResult.user_cost_per_trip r1 <= CostResult.user_cost_per_trip r2
    /\ Dict.lookup (CostResult.cost_by_mode r1) "walking_cycling"
       = Dict.lookup (CostResult.cost_by_mode r2) "walking_cycling".
Proof.
  intros p items in_range Hcanon Hshares _ Hd _ Hfe Hfp _ Hfare _ _ _ _ _ _ _ _ _
    Htax Hsub.
  assert (Hnn : Forall (fun share => 0 <= share) (Dict.values items)).
  { eapply Forall_impl; [| exact Hshares]. intros share [H0 _]. exact H0. }
  assert (Hfe0 : 0 < ParameterSet.fuel_efficiency_km_per_liter p) by lra.
  assert (Hfe' : ~ ParameterSet.fuel_efficiency_km_per_liter (params s) == 0)
    by (fold p; lra).
  destruct (CostBenefitModel_user_cost mode_share (Some adj1) s Hfe' Hcanon)
    as [r1 [Hr1 [Hu1 _]]].
  destruct (CostBenefitModel_user_cost mode_share (Some adj2) s Hfe' Hcanon)
    as [r2 [Hr2 [Hu2 _]]].
  destruct (CostBenefitModel_calculate_returns mode_share (Some adj1) s Hfe' Hcanon)
    as [r1' [Hr1' [Ht1 _]]].
  destruct (CostBenefitModel_calculate_returns mode_share (Some adj2) s Hfe' Hcanon)
    as [r2' [Hr2' [Ht2 _]]].
  assert (r1' = r1) by congruence. assert (r2' = r2) by congruence. subst r1' r2'.
  cbn [or_empty] in Hu1, Hu2, Ht1, Ht2. fold p items in Hu1, Hu2, Ht1, Ht2.
  exists r1, r2. split; [exact Hr1 |]. split; [exact Hr2 |].
  split; [rewrite Ht1, Hu1; apply round_within_cent |]. split.
  - rewrite Hu1, Hu2. apply round_mono. apply weighted_average_le; [| exact Hnn].
    intro k. apply cost_table_follows_levers; assumption.
  - rewrite Ht1, Ht2. reflexivity.
Qed.

Lemma user_cost_rises_with_fuel_tax_and_falls_with_subsidy_witness :
  exists r1 r2,
    CostBenefitModel.calculate None (Some [("pt_subsidy_percent", 40)])
      (PolicySimulator.init None) = (inr r1, PolicySimulator.init None)
    /\ CostBenefitModel.calculate None (Some [("fuel_tax_percent", 25)])
         (PolicySimulator.init None) = (inr r2, PolicySimulator.init None)
    /\ CostResult.user_cost_per_trip r1 <= CostResult.user_cost_per_trip r2.
Proof.
  destruct (user_cost_rises_with_fuel_tax_and_falls_with_subsidy
              (PolicySimulator.init None) None
              [("pt_subsidy_percent", 40)] [("fuel_tax_percent", 25)])
    as [r1 [r2 [H1 [H2 [_ [Hle _]]]]]];
    try discriminate; try (split; discriminate).
  - canonical_keys.
  - repeat (apply Forall_cons; [split; discriminate |]). apply Forall_nil.
  - moderate_numbers.
  - exists r1, r2. split; [exact H1 |]. split; [exact H2 | exact Hle].
Defined.
